(** * Recut Tracker: classification and parent-SKU rollup

    A shallow embedding of the pure core of the Recut Tracker dashboard
    ([utils/sku_utils.py], [utils/data_loader.py] and the recut breakdown
    of [utils/metrics.py]) together with the properties its specification
    states about it and further properties read off the code.

    Modelling conventions.
    - A Python [str] is a [string] whose characters are the code points
      below 256.  [str.strip] is embedded exactly on that range: the
      whitespace characters are those for which [str.isspace] holds below
      256.  [str.upper], [str.lower] and [str.title] are embedded on the
      ASCII letters and leave the other characters as they are, which is
      what Python does on ASCII strings ([is_ascii]); a theorem that states
      an uppercased, lowercased or titled value assumes [is_ascii] of the
      string.  Where the code compares such a value with an ASCII literal
      for equality (a color code, a table key, a first letter, one of the
      true strings) the embedding agrees with Python on every string of the
      range: of the characters from 128 to 255 only the sharp s has ASCII
      letters in its capital or small form, and its capital 'SS' is none
      of these literals.  Only the test ['AMS' in code.upper()] of
      [get_department_from_recut_code] can differ, on a code with a sharp
      s, and the theorems on that branch assume ASCII codes.
    - A Python [dict] is a [gmap string string] built by inserting the
      literal's items in order; where the source iterates over [.items()]
      the item list itself is used.  A Python [set] of strings is a
      [gset string].
    - Operations that can raise in Python ([d[k]], [l[i]], [s[i]]) return in
      the [result] monad, so that "never raises" is a statement about the
      embedded function and not an artefact of the embedding.
    - The classifiers return the label itself (a [string]), as the source
      does; membership in the closed set of error sources is proved, not
      assumed by typing.
    - A pandas [DataFrame] is its list of column labels and its list of
      rows; the cells are those of the text columns, a string or a missing
      value.  Numeric, boolean and date columns are not modelled, so the
      loaders appear with their steps on the text columns only. *)

From Stdlib Require Import String Ascii NArith ZArith List Bool Lia.
From Stdlib Require Import Floats.SpecFloat.
From Stdlib Require Import Sorting.Sorted.
From stdpp Require Import gmap strings list fin_maps.

Open Scope string_scope.

(** ** Python values reaching the core *)

(** A spreadsheet cell that is expected to hold text: [None], a float NaN
    (pandas' marker for a missing cell) or a string. *)
Inductive cell : Type :=
  | CNone
  | CNaN
  | CStr (s : string).

(** The values [clean_boolean] discriminates on.  A float is a
    [spec_float]; NaN is [OFloat S754_nan]. *)
Inductive pyobj : Type :=
  | ONone
  | OBool (b : bool)
  | OInt (z : Z)
  | OFloat (f : spec_float)
  | OStr (s : string).

(** The exceptions the modelled operations can raise. *)
Inductive exn : Type :=
  | KeyError
  | IndexError.

Inductive result (A : Type) : Type :=
  | Ok (a : A)
  | Raise (e : exn).

Arguments Ok {A} a.
Arguments Raise {A} e.

Definition rbind {A B : Type} (r : result A) (k : A -> result B) : result B :=
  match r with
  | Ok a => k a
  | Raise e => Raise e
  end.

Notation "'let*' x ':=' r 'in' k" := (rbind r (fun x => k))
  (at level 10, x name, r at level 100, k at level 200).

(** ** Python string operations *)

Module PyStr.

(** [str.isspace] on one character, a code point below 256: TAB, LF, VT,
    FF, CR, FS, GS, RS, US, space, NEL (U+0085) and the no-break space
    (U+00A0).  These are the characters [str.strip] removes. *)
Definition is_space (c : ascii) : bool :=
  let n := N_of_ascii c in
  ((9 <=? n) && (n <=? 13) || (28 <=? n) && (n <=? 32)
   || (n =? 133) || (n =? 160))%N.

(** [str.upper] and [str.lower] on one ASCII character; a character from
    128 on is left as it is. *)
Definition upper_char (c : ascii) : ascii :=
  let n := N_of_ascii c in
  if ((97 <=? n) && (n <=? 122))%N then ascii_of_N (n - 32) else c.

Definition lower_char (c : ascii) : ascii :=
  let n := N_of_ascii c in
  if ((65 <=? n) && (n <=? 90))%N then ascii_of_N (n + 32) else c.

Fixpoint map_chars (f : ascii -> ascii) (s : string) : string :=
  match s with
  | EmptyString => EmptyString
  | String c s' => String (f c) (map_chars f s')
  end.

(** [s.upper()] and [s.lower()] of an ASCII string. *)
Definition upper (s : string) : string := map_chars upper_char s.
Definition lower (s : string) : string := map_chars lower_char s.

(** [s.lstrip()], [s.rstrip()] and [s.strip()]. *)
Fixpoint lstrip (s : string) : string :=
  match s with
  | EmptyString => EmptyString
  | String c s' => if is_space c then lstrip s' else s
  end.

Fixpoint rstrip (s : string) : string :=
  match s with
  | EmptyString => EmptyString
  | String c s' =>
      match rstrip s' with
      | EmptyString => if is_space c then EmptyString else String c EmptyString
      | r => String c r
      end
  end.

Definition strip (s : string) : string := rstrip (lstrip s).

(** [s.split(sep)] for a one-character separator: never empty, and empty
    fields are kept. *)
Fixpoint split (sep : ascii) (s : string) : list string :=
  match s with
  | EmptyString => [EmptyString]
  | String c s' =>
      if Ascii.eqb c sep then EmptyString :: split sep s'
      else match split sep s' with
           | [] => [String c EmptyString]
           | h :: t => String c h :: t
           end
  end.

(** [sep.join(parts)]. *)
Definition join (sep : string) (parts : list string) : string :=
  String.concat sep parts.

(** [s.startswith(p)]. *)
Definition startswith (p s : string) : bool := String.prefix p s.

(** [sub in s]. *)
Fixpoint contains (sub s : string) : bool :=
  String.prefix sub s ||
  match s with
  | EmptyString => false
  | String _ s' => contains sub s'
  end.

(** [not s]: the empty string is falsy. *)
Definition is_empty (s : string) : bool :=
  match s with
  | EmptyString => true
  | String _ _ => false
  end.

(** [s[i]] for [i >= 0]: a one-character string, or [IndexError]. *)
Fixpoint getitem (s : string) (i : nat) : result string :=
  match s, i with
  | EmptyString, _ => Raise IndexError
  | String c _, O => Ok (String c EmptyString)
  | String _ s', S i' => getitem s' i'
  end.

(** [c] is a cased ASCII character: a letter. *)
Definition is_cased (c : ascii) : bool :=
  let n := N_of_ascii c in
  ((65 <=? n) && (n <=? 90) || (97 <=? n) && (n <=? 122))%N.

(** [s.title()] of an ASCII string: a character is lowercased when the
    character before it is cased, and uppercased otherwise. *)
Fixpoint title_from (previous_is_cased : bool) (s : string) : string :=
  match s with
  | EmptyString => EmptyString
  | String c s' =>
      String (if previous_is_cased then lower_char c else upper_char c)
             (title_from (is_cased c) s')
  end.

Definition title (s : string) : string := title_from false s.

(** [s[i:]] for [i >= 0]. *)
Fixpoint slice_from (s : string) (i : nat) : string :=
  match i, s with
  | O, _ => s
  | S _, EmptyString => EmptyString
  | S i', String _ s' => slice_from s' i'
  end.

(** [a <= b] on strings: lexicographic on the code points. *)
Definition le (a b : string) : bool :=
  match String.compare a b with
  | Gt => false
  | _ => true
  end.

End PyStr.

(** [l[i]] on a list, for [i >= 0]. *)
Definition list_getitem {A : Type} (l : list A) (i : nat) : result A :=
  match l !! i with
  | Some x => Ok x
  | None => Raise IndexError
  end.

(** ** Python dictionaries with string keys and values *)

(** The dictionary denoted by a literal or comprehension that yields [items]
    in this order: a later item overrides an earlier one with the same key. *)
Definition dict_of_items (items : list (string * string)) : gmap string string :=
  fold_left (fun m kv => <[kv.1 := kv.2]> m) items ∅.

(** [k in d]. *)
Definition dict_contains (d : gmap string string) (k : string) : bool :=
  match d !! k with
  | Some _ => true
  | None => false
  end.

(** [d[k]]. *)
Definition dict_getitem (d : gmap string string) (k : string) : result string :=
  match d !! k with
  | Some v => Ok v
  | None => Raise KeyError
  end.

(** ** utils/sku_utils.py *)

Definition COLOR_CODES : gset string :=
  {[ "BK"; "CB"; "MC"; "MA"; "MB"; "MT"; "RG"; "WD"; "WG";
     "TB"; "TD"; "TJ"; "RD"; "ML"; "NG"; "NP"; "RT" ]}.

Definition SKU_EXCEPTIONS : gset string :=
  {[ "PI-CB"; "MI-556-TR"; "MI-556-SN" ]}.

(** The condition of the list comprehension in [get_parent_sku]:
    [part.upper() not in COLOR_CODES]. *)
Definition not_color (part : string) : Prop := PyStr.upper part ∉ COLOR_CODES.

#[global] Instance not_color_dec (part : string) : Decision (not_color part).
Proof. unfold not_color. apply _. Defined.

Definition get_parent_sku (sku : cell) : option string :=
  match sku with
  | CNone | CNaN => None
  | CStr s =>
      let sku := PyStr.strip s in
      if PyStr.is_empty sku then None
      else if bool_decide (sku ∈ SKU_EXCEPTIONS) then Some sku
      else
        let parts := PyStr.split "-" sku in
        let result_parts := filter not_color parts in
        match result_parts with
        | [] => Some sku
        | _ => Some (PyStr.join "-" result_parts)
        end
  end.

(** The value [get_parent_sku] returns, seen again as an argument:
    [None] stays [None] and a string stays a string. *)
Definition cell_of_result (r : option string) : cell :=
  match r with
  | None => CNone
  | Some s => CStr s
  end.

(** [get_parent_sku(get_parent_sku(s))]: the resolver applied to its own
    result. *)
Definition resolved_twice (s : string) : option string :=
  get_parent_sku (cell_of_result (get_parent_sku (CStr s))).

(** *** The resolver as the specification words it

    Section 4.3 of the specification, steps 2 to 6, for a SKU that passed
    the blank test and the exception test: trim, split on the hyphen, drop
    every segment whose uppercase form is one of the seventeen color codes,
    give back the trimmed string if nothing is left and the kept segments
    joined by hyphens otherwise. *)

Definition COLOR_VOCABULARY : list string :=
  [ "BK"; "CB"; "MC"; "MA"; "MB"; "MT"; "RG"; "WD"; "WG";
    "TB"; "TD"; "TJ"; "RD"; "ML"; "NG"; "NP"; "RT" ].

Definition spec_is_color (segment : string) : bool :=
  existsb (String.eqb (PyStr.upper segment)) COLOR_VOCABULARY.

Definition spec_resolveParentSKU (sku : string) : string :=
  let trimmed_sku := PyStr.strip sku in
  let segments := PyStr.split "-" trimmed_sku in
  let kept := List.filter (fun segment => negb (spec_is_color segment)) segments in
  match kept with
  | [] => trimmed_sku
  | _ => PyStr.join "-" kept
  end.

(** ** utils/data_loader.py *)

(** *** Error-source tables *)

Definition SEWING_REPAIRS_DEPT_MAP_items : list (string * string) :=
  [ ("A1A", "Cutting Operator Error");
    ("A1B", "Cutting Operator Error");
    ("A1C", "Cutting Operator Error");
    ("A1D", "Cutting Operator Error");
    ("A2A", "Sewing Operator Error");
    ("A2D", "Sewing Operator Error");
    ("S1", "Sewing Operator Error");
    ("S2", "Sewing Operator Error");
    ("S3", "Sewing Operator Error");
    ("S4", "Sewing Operator Error");
    ("S5", "Sewing Operator Error");
    ("S6", "Sewing Operator Error");
    ("S8", "Sewing Operator Error");
    ("A1", "Cutting Machine Error");
    ("B1C", "Cutting Machine Error");
    ("B1E", "Cutting Machine Error");
    ("A", "Sewing Machine Error");
    ("B2", "Sewing Machine Error");
    ("B3", "Other Machine Error");
    ("C1", "Material Defect");
    ("C2", "Material Defect");
    ("C3", "Material Defect") ].

Definition SEWING_REPAIRS_DEPT_MAP : gmap string string :=
  dict_of_items SEWING_REPAIRS_DEPT_MAP_items.

Definition RECUT_LIST_DEPT_MAP_items : list (string * string) :=
  [ ("A", "Sewing Operator Error");
    ("A: SMO Error", "Sewing Operator Error");
    ("A: SMO ERROR", "Sewing Operator Error");
    ("L", "Cutting Machine Error");
    ("L: Lazer error", "Cutting Machine Error");
    ("AMS", "Sewing Machine Error");
    ("AMS: AMS error", "Sewing Machine Error");
    ("A*", "Other Machine Error");
    ("A* Machine Error", "Other Machine Error");
    ("B", "Cutting Operator Error");
    ("B: Wrong Material Cut", "Cutting Operator Error");
    ("C", "Cutting Operator Error");
    ("c", "Cutting Operator Error");
    ("C: Marking error", "Cutting Operator Error");
    ("F", "Cutting Operator Error");
    ("F: Material Cut Too Short", "Cutting Operator Error");
    ("D", "Material Defect");
    ("D: Material Defect", "Material Defect");
    ("E", "Other");
    ("E: Missing Pieces", "Other");
    ("P", "Other");
    ("P: PA Error", "Other");
    ("A/D", "Other") ].

Definition RECUT_LIST_DEPT_MAP : gmap string string :=
  dict_of_items RECUT_LIST_DEPT_MAP_items.

(** The closed set of error sources of the specification. *)
Definition ERROR_SOURCES : list string :=
  [ "Cutting Operator Error"; "Sewing Operator Error";
    "Cutting Machine Error"; "Sewing Machine Error";
    "Other Machine Error"; "Material Defect"; "Other"; "Unknown" ].

(** *** Boolean column cleaning *)

(** [pd.isna(value)] on the values of [pyobj]. *)
Definition isna (value : pyobj) : bool :=
  match value with
  | ONone => true
  | OFloat S754_nan => true
  | _ => false
  end.

(** The float [1.0] of binary64, which the integer [1] converts to in
    [value == 1]. *)
Definition float_one : spec_float := SFone 53 1024.

Definition TRUE_STRINGS : list string := [ "true"; "x"; "y"; "1"; "yes" ].

Definition clean_boolean (value : pyobj) : bool :=
  if isna value then false
  else match value with
       | OBool b => b
       | OInt z => (z =? 1)%Z
       | OFloat f => SFeqb f float_one
       | OStr s =>
           let value := PyStr.lower (PyStr.strip s) in
           bool_decide (value ∈ TRUE_STRINGS)
       | ONone => (* [str(None)] *)
           let value := PyStr.lower (PyStr.strip "None") in
           bool_decide (value ∈ TRUE_STRINGS)
       end.

(** *** Department classification *)

(** The fallback chain of [get_department_from_reason_code], after both
    table lookups have failed. *)
Definition reason_code_patterns (code : string) : string :=
  if PyStr.startswith "A1" code
     && negb (PyStr.startswith "A1A" code)
     && negb (PyStr.startswith "A1B" code)
     && negb (PyStr.startswith "A1C" code)
     && negb (PyStr.startswith "A1D" code)
  then "Cutting Machine Error"
  else if PyStr.startswith "A1" code then "Cutting Operator Error"
  else if PyStr.startswith "A2" code || PyStr.startswith "S" code
  then "Sewing Operator Error"
  else if PyStr.startswith "B1C" code || PyStr.startswith "B1E" code
  then "Cutting Machine Error"
  else if PyStr.startswith "B2" code then "Sewing Machine Error"
  else if PyStr.startswith "B" code then "Other Machine Error"
  else if PyStr.startswith "C" code then "Material Defect"
  else "Other".

(** [code.split(' ')[0].split('-')[0].strip()]. *)
Definition extract_prefix (code : string) : result string :=
  let* head := list_getitem (PyStr.split " " code) 0 in
  let* head := list_getitem (PyStr.split "-" head) 0 in
  Ok (PyStr.strip head).

Definition get_department_from_reason_code (reason_code : cell) : result string :=
  match reason_code with
  | CNone | CNaN => Ok "Unknown"
  | CStr s =>
      let code := PyStr.strip s in
      if dict_contains SEWING_REPAIRS_DEPT_MAP code
      then dict_getitem SEWING_REPAIRS_DEPT_MAP code
      else
        let* prefix := extract_prefix code in
        if dict_contains SEWING_REPAIRS_DEPT_MAP prefix
        then dict_getitem SEWING_REPAIRS_DEPT_MAP prefix
        else Ok (reason_code_patterns code)
  end.

(** The dictionary comprehension [{k.lower(): v for k, v in
    RECUT_LIST_DEPT_MAP.items()}]. *)
Definition RECUT_LIST_DEPT_MAP_lower : gmap string string :=
  dict_of_items (map (fun kv => (PyStr.lower kv.1, kv.2)) RECUT_LIST_DEPT_MAP_items).

(** The loop [for k, v in RECUT_LIST_DEPT_MAP.items(): if k.lower() ==
    code.lower(): return v]: the value of the first such item, or [None]
    when the loop runs to its end. *)
Definition recut_lower_loop (code : string) : option string :=
  match
    find (fun kv => String.eqb (PyStr.lower kv.1) (PyStr.lower code))
         RECUT_LIST_DEPT_MAP_items
  with
  | Some kv => Some kv.2
  | None => None
  end.

(** The fallback chain of [get_department_from_recut_code] on the first
    character. *)
Definition recut_code_patterns (first_char code : string) : string :=
  if String.eqb first_char "A" && PyStr.contains "*" code
  then "Other Machine Error"
  else if String.eqb first_char "A" && PyStr.contains "AMS" (PyStr.upper code)
  then "Sewing Machine Error"
  else if String.eqb first_char "A" then "Sewing Operator Error"
  else if String.eqb first_char "B" then "Cutting Operator Error"
  else if String.eqb first_char "C" then "Cutting Operator Error"
  else if String.eqb first_char "D" then "Material Defect"
  else if String.eqb first_char "E" then "Other"
  else if String.eqb first_char "F" then "Cutting Operator Error"
  else if String.eqb first_char "L" then "Cutting Machine Error"
  else if String.eqb first_char "P" then "Other"
  else "Other".

(** [first_char = code[0].upper() if code else ''] and the chain on it.
    [first_char] is only compared with one-letter literals: a character
    from 128 on, whatever its capital is in Python (two letters for the
    sharp s), equals none of them, as the character itself does here. *)
Definition recut_first_char (code : string) : result string :=
  let* first_char :=
    (if negb (PyStr.is_empty code)
     then let* c := PyStr.getitem code 0 in Ok (PyStr.upper c)
     else Ok "") in
  Ok (recut_code_patterns first_char code).

Definition get_department_from_recut_code (code : cell) : result string :=
  match code with
  | CNone | CNaN => Ok "Unknown"
  | CStr s =>
      let code := PyStr.strip s in
      if dict_contains RECUT_LIST_DEPT_MAP code
      then dict_getitem RECUT_LIST_DEPT_MAP code
      else
        if dict_contains RECUT_LIST_DEPT_MAP_lower (PyStr.lower code)
        then match recut_lower_loop code with
             | Some v => Ok v
             | None => recut_first_char code
             end
        else recut_first_char code
  end.

(** *** Department filters *)

(** A data frame: its column labels and its rows, each row giving the cell
    of a column. *)
Record DataFrame : Type := mkDataFrame {
  columns : list string;
  rows : list (gmap string cell)
}.

(** The cell of [row] in column [col]; a cell that was never filled is NaN. *)
Definition row_cell (col : string) (row : gmap string cell) : cell :=
  default CNaN (row !! col).

(** One element of [Series.isin(values)] for a list of strings. *)
Definition isin (values : list string) (c : cell) : Prop :=
  match c with
  | CStr s => s ∈ values
  | _ => False
  end.

#[global] Instance isin_dec (values : list string) (c : cell) :
  Decision (isin values c).
Proof. destruct c; simpl; apply _. Defined.

Definition filter_by_department (df : DataFrame) (departments : list string)
  : DataFrame :=
  if negb (bool_decide ("Department" ∈ columns df))
     || match departments with [] => true | _ => false end
  then df
  else {| columns := columns df;
          rows := filter (fun row => isin departments (row_cell "Department" row))
                         (rows df) |}.

Definition get_cutting_errors_sewing_repairs (df : DataFrame) : DataFrame :=
  filter_by_department df [ "Cutting" ].

Definition get_cutting_errors_recut_list (df : DataFrame) : DataFrame :=
  filter_by_department df [ "Cutting" ].

Definition get_sewing_errors_sewing_repairs (df : DataFrame) : DataFrame :=
  filter_by_department df [ "Sewing" ].

Definition get_sewing_errors_recut_list (df : DataFrame) : DataFrame :=
  filter_by_department df [ "Sewing" ].

(** ** Further functions of utils/sku_utils.py *)

Definition SIZE_CODES : gset string :=
  {[ "SM"; "MD"; "LG"; "XL"; "XXL"; "05"; "10"; "15"; "20"; "25" ]}.

(** [df[name] = values]: the column is appended when the frame does not have
    it and overwritten where it stands otherwise; [value row] is the new
    cell of [row]. *)
Definition set_column (df : DataFrame) (name : string)
    (value : gmap string cell -> cell) : DataFrame :=
  {| columns := if bool_decide (name ∈ columns df) then columns df
                else columns df ++ [name];
     rows := map (fun row => <[name := value row]> row) (rows df) |}.

(** [df['Parent_SKU'] = df[sku_col].apply(get_parent_sku)]. *)
Definition apply_parent_sku (df : DataFrame) (sku_col : string) : DataFrame :=
  set_column df "Parent_SKU"
             (fun row => cell_of_result (get_parent_sku (row_cell sku_col row))).

(** The frame [add_parent_sku_column] returns.  With a SKU column the
    source works on a copy of [df]; without one it sets the column on [df]
    itself and returns it. *)
Definition add_parent_sku_column (df : DataFrame) (sku_col : string) : DataFrame :=
  if bool_decide (sku_col ∈ columns df) then apply_parent_sku df sku_col
  else if bool_decide ("SKU-Colorway-Size" ∈ columns df)
       then apply_parent_sku df "SKU-Colorway-Size"
       else set_column df "Parent_SKU" (fun _ => CNone).

(** [Series.dropna()] on a column of cells, keeping the strings. *)
Fixpoint dropna (column : list cell) : list string :=
  match column with
  | [] => []
  | CStr s :: column' => s :: dropna column'
  | _ :: column' => dropna column'
  end.

(** [Series.unique()]: the values in the order of their first occurrence;
    [seen] holds the values met so far. *)
Fixpoint unique_from (seen : gset string) (values : list string) : list string :=
  match values with
  | [] => []
  | x :: values' =>
      if bool_decide (x ∈ seen) then unique_from seen values'
      else x :: unique_from ({[ x ]} ∪ seen) values'
  end.

Definition unique (values : list string) : list string := unique_from ∅ values.

(** [sorted(values)] on strings, as a stable insertion sort. *)
Fixpoint insert_sorted (x : string) (sorted_values : list string) : list string :=
  match sorted_values with
  | [] => [x]
  | y :: rest =>
      if PyStr.le y x then y :: insert_sorted x rest else x :: y :: rest
  end.

Fixpoint sorted (values : list string) : list string :=
  match values with
  | [] => []
  | x :: values' => insert_sorted x (sorted values')
  end.

(** One element of [df['Parent_SKU'] == parent_sku]. *)
Definition cell_is (value : string) (c : cell) : Prop := c = CStr value.

#[global] Instance cell_is_dec (value : string) (c : cell) :
  Decision (cell_is value c).
Proof. unfold cell_is. destruct c; try (right; discriminate).
       destruct (decide (s = value)) as [->|Hne]; [left; reflexivity|].
       right. intros [= H]. contradiction.
Defined.

Definition get_materials_for_sku (df : DataFrame) (parent_sku : string)
  : list string :=
  if negb (bool_decide ("Parent_SKU" ∈ columns df))
     || negb (bool_decide ("Material" ∈ columns df))
  then []
  else
    let selected :=
      filter (fun row => cell_is parent_sku (row_cell "Parent_SKU" row)) (rows df) in
    let materials := unique (dropna (map (row_cell "Material") selected)) in
    sorted materials.

(** ** Further functions of utils/data_loader.py *)

(** *** Name normalization *)

Definition normalize_name (name : cell) : option string :=
  match name with
  | CNone | CNaN => None
  | CStr s =>
      let name := PyStr.strip s in
      if PyStr.is_empty name then None
      else Some (PyStr.title name)
  end.

Definition normalize_smo_name (name : cell) : result (option string) :=
  match name with
  | CNone | CNaN => Ok None
  | CStr s =>
      let name := PyStr.strip s in
      if PyStr.is_empty name then Ok None
      else if (String.length name <=? 1)%nat then Ok (Some (PyStr.upper name))
      else
        let* initial := PyStr.getitem name 0 in
        let first_initial := PyStr.upper initial in
        let rest := PyStr.slice_from name 1 in
        if negb (PyStr.is_empty rest)
        then
          let* last_name :=
            (if (1 <? String.length rest)%nat
             then let* rest0 := PyStr.getitem rest 0 in
                  Ok (PyStr.upper rest0 +:+ PyStr.lower (PyStr.slice_from rest 1))
             else Ok (PyStr.upper rest)) in
          Ok (Some (first_initial +:+ last_name))
        else Ok (Some first_initial)
  end.

(** *** Cell normalization inside the loaders *)

(** [lambda x: str(x).upper().strip() if pd.notna(x) else None], applied to
    the 'Repair Discovered' column in [load_sewing_repairs]. *)
Definition repair_discovered_lambda (x : cell) : cell :=
  match x with
  | CNone | CNaN => CNone
  | CStr s => CStr (PyStr.strip (PyStr.upper s))
  end.

Definition REPAIR_DISCOVERED_REPLACE : gmap string string :=
  dict_of_items [ ("SEWING", "SEWING"); ("QC", "QC"); ("Qc", "QC"); ("qc", "QC") ].

(** One element of [Series.replace(REPAIR_DISCOVERED_REPLACE)]. *)
Definition repair_discovered_replace (x : cell) : cell :=
  match x with
  | CStr s =>
      match REPAIR_DISCOVERED_REPLACE !! s with
      | Some v => CStr v
      | None => CStr s
      end
  | _ => x
  end.

(** The 'Repair Discovered' cell as [load_sewing_repairs] leaves it. *)
Definition normalize_repair_discovered (x : cell) : cell :=
  repair_discovered_replace (repair_discovered_lambda x).

(** [lambda x: str(x).strip() if pd.notna(x) else None], applied to the
    'CODE' column in [load_recut_list] before the classification. *)
Definition normalize_code (x : cell) : cell :=
  match x with
  | CNone | CNaN => CNone
  | CStr s => CStr (PyStr.strip s)
  end.

(** *** Further filters *)


(** The loop of [matches_any_code] over the filter codes. *)
Fixpoint matches_loop (code_str : string) (codes : list string) : bool :=
  match codes with
  | [] => false
  | c :: codes' =>
      let c_upper := PyStr.upper c in
      if String.eqb code_str c_upper
         || PyStr.startswith (c_upper +:+ ":") code_str
         || PyStr.startswith (c_upper +:+ " ") code_str
      then true
      else if PyStr.startswith c_upper code_str then true
      else matches_loop code_str codes'
  end.

Definition matches_any_code (codes : list string) (code : cell) : bool :=
  match code with
  | CNone | CNaN => false
  | CStr s => matches_loop (PyStr.upper (PyStr.strip s)) codes
  end.

(** [df[df['CODE'].apply(matches_any_code)]].  On a frame with rows the
    applied series is a boolean mask and selects rows.  On a frame without
    rows [Series.apply] returns an empty series of the dtype of the 'CODE'
    column, which is not a boolean mask: the frame is then indexed by an
    empty list of column labels and loses its columns. *)
Definition filter_recut_list_by_codes (df : DataFrame) (codes : list string)
  : DataFrame :=
  if negb (bool_decide ("CODE" ∈ columns df))
     || match codes with [] => true | _ => false end
  then df
  else match rows df with
       | [] => {| columns := []; rows := [] |}
       | _ =>
           {| columns := columns df;
              rows := filter (fun row => matches_any_code codes (row_cell "CODE" row)
                                         = true)
                             (rows df) |}
       end.

(** *** The loaders' steps on the text columns *)

(** [Series.apply(f)] for an [f] that may raise: the first exception ends
    the whole step. *)
Fixpoint map_result {A B : Type} (f : A -> result B) (l : list A)
  : result (list B) :=
  match l with
  | [] => Ok []
  | x :: l' =>
      let* y := f x in
      let* ys := map_result f l' in
      Ok (y :: ys)
  end.

(** [df[name] = df[col].apply(f)]. *)
Definition apply_column (df : DataFrame) (name col : string)
    (f : cell -> result cell) : result DataFrame :=
  let* rows' :=
    map_result (fun row => let* c := f (row_cell col row) in
                           Ok (<[name := c]> row))
               (rows df) in
  Ok {| columns := if bool_decide (name ∈ columns df) then columns df
                   else columns df ++ [name];
        rows := rows' |}.

(** [if col in df.columns: df[col] = df[col].apply(f)]. *)
Definition apply_if_present (df : DataFrame) (col : string)
    (f : cell -> result cell) : result DataFrame :=
  if bool_decide (col ∈ columns df) then apply_column df col col f
  else Ok df.

(** The steps of [load_sewing_repairs] on the text columns, from "Normalize
    names" to "Add department classification": the frame is the one the
    steps before have produced, and the steps after only remove rows. *)
Definition load_sewing_repairs_text (df : DataFrame) : result DataFrame :=
  let* df := apply_if_present df "Manager"
               (fun x => Ok (cell_of_result (normalize_name x))) in
  let* df := apply_if_present df "CMO"
               (fun x => Ok (cell_of_result (normalize_name x))) in
  let* df := apply_if_present df "SMO/PA"
               (fun x => let* name := normalize_smo_name x in
                         Ok (cell_of_result name)) in
  let* df := apply_if_present df "Repair Discovered"
               (fun x => Ok (repair_discovered_lambda x)) in
  let* df := apply_if_present df "Repair Discovered"
               (fun x => Ok (repair_discovered_replace x)) in
  if bool_decide ("Reason Code" ∈ columns df)
  then apply_column df "Department" "Reason Code"
         (fun x => let* d := get_department_from_reason_code x in Ok (CStr d))
  else Ok (set_column df "Department" (fun _ => CStr "Unknown")).

(** The steps of [load_recut_list] on the text columns, from "Normalize
    names" to "Add department classification". *)
Definition load_recut_list_text (df : DataFrame) : result DataFrame :=
  let* df := apply_if_present df "Operator/Order#"
               (fun x => Ok (cell_of_result (normalize_name x))) in
  let* df := apply_if_present df "PA"
               (fun x => Ok (cell_of_result (normalize_name x))) in
  let* df := apply_if_present df "CODE" (fun x => Ok (normalize_code x)) in
  if bool_decide ("CODE" ∈ columns df)
  then apply_column df "Department" "CODE"
         (fun x => let* d := get_department_from_recut_code x in Ok (CStr d))
  else Ok (set_column df "Department" (fun _ => CStr "Unknown")).

(** ** utils/metrics.py: the recut breakdown of the cutting manager *)

(** [recut_list[recut_list['Department'] == 'Cutting Operator Error']] in
    [calculate_cutting_manager_metrics]. *)
Definition cutting_recuts (recut_list : DataFrame) : result DataFrame :=
  if bool_decide ("Department" ∈ columns recut_list)
  then Ok {| columns := columns recut_list;
             rows := filter (fun row => cell_is "Cutting Operator Error"
                                                (row_cell "Department" row))
                            (rows recut_list) |}
  else Raise KeyError.

(** One element of [df['CODE'].str.upper().str.startswith(letter, na=False)]. *)
Definition code_startswith (letter : string) (code : cell) : bool :=
  match code with
  | CStr s => PyStr.startswith letter (PyStr.upper s)
  | _ => false
  end.

(** [len(df[df['CODE'].str.upper().str.startswith(letter, na=False)])
    if 'CODE' in df.columns else 0], for a 'CODE' column of strings and
    missing values as [load_recut_list] leaves it. *)
Definition count_code_startswith (letter : string) (df : DataFrame) : nat :=
  if bool_decide ("CODE" ∈ columns df)
  then length (filter (fun row => code_startswith letter (row_cell "CODE" row) = true)
                      (rows df))
  else 0.

Definition cutting_errors_recuts (cutting_recuts : DataFrame) : nat :=
  count_code_startswith "B" cutting_recuts.

Definition marking_errors_recuts (cutting_recuts : DataFrame) : nat :=
  count_code_startswith "C" cutting_recuts.

Definition cut_short_errors (cutting_recuts : DataFrame) : nat :=
  count_code_startswith "F" cutting_recuts.

(** ** Auxiliary predicates used in the statements *)

(** [c] occurs in [s]. *)
Fixpoint has_char (c : ascii) (s : string) : bool :=
  match s with
  | EmptyString => false
  | String c' s' => Ascii.eqb c' c || has_char c s'
  end.

(** Some character of [s] is whitespace. *)
Fixpoint has_space (s : string) : bool :=
  match s with
  | EmptyString => false
  | String c s' => PyStr.is_space c || has_space s'
  end.

(** [s] is empty or consists of whitespace only. *)
Fixpoint all_space (s : string) : bool :=
  match s with
  | EmptyString => true
  | String c s' => PyStr.is_space c && all_space s'
  end.

(** [s] and [s'] have the same length and whitespace at the same places. *)
Fixpoint same_blank (s s' : string) : Prop :=
  match s, s' with
  | EmptyString, EmptyString => True
  | String c r, String c' r' =>
      PyStr.is_space c = PyStr.is_space c' /\ same_blank r r'
  | _, _ => False
  end.

(** [s] has no leading and no trailing whitespace: [s.strip() == s]. *)
Definition trimmed (s : string) : Prop := PyStr.strip s = s.

(** [s.isascii()]: every character is a code point below 128.  On such
    strings [PyStr.upper], [PyStr.lower] and [PyStr.title] are exactly
    [str.upper], [str.lower] and [str.title]. *)
Fixpoint is_ascii (s : string) : bool :=
  match s with
  | EmptyString => true
  | String c s' => (N_of_ascii c <? 128)%N && is_ascii s'
  end.

(** A cell that is missing or holds an ASCII string. *)
Definition ascii_cell (x : cell) : bool :=
  match x with
  | CStr s => is_ascii s
  | _ => true
  end.

(** * Properties *)

(** ** Facts about the string operations *)

Section StripFacts.
Import PyStr.

Lemma lstrip_head (s : string) :
  match lstrip s with
  | EmptyString => True
  | String c _ => is_space c = false
  end.
Proof.
  induction s as [|c s IH]; simpl; [exact I|].
  destruct (is_space c) eqn:E; [exact IH | exact E].
Qed.

Lemma lstrip_fixed (s : string) :
  match s with
  | EmptyString => True
  | String c _ => is_space c = false
  end -> lstrip s = s.
Proof. destruct s as [|c s]; simpl; [reflexivity|]. intros ->. reflexivity. Qed.

Lemma rstrip_head (c : ascii) (s : string) :
  is_space c = false -> exists r, rstrip (String c s) = String c r.
Proof.
  intros Hc. simpl. rewrite Hc. destruct (rstrip s); eauto.
Qed.

Lemma rstrip_idem (s : string) : rstrip (rstrip s) = rstrip s.
Proof.
  induction s as [|c s IH]; simpl; [reflexivity|].
  destruct (rstrip s) as [|c' r] eqn:E.
  - destruct (is_space c) eqn:Ec; simpl; [reflexivity|]. rewrite Ec. reflexivity.
  - change (rstrip (String c (String c' r))) with
      (match rstrip (String c' r) with
       | EmptyString => if is_space c then EmptyString else String c EmptyString
       | r0 => String c r0
       end).
    rewrite IH. reflexivity.
Qed.

Lemma strip_idem (s : string) : strip (strip s) = strip s.
Proof.
  unfold strip.
  assert (H : lstrip (rstrip (lstrip s)) = rstrip (lstrip s)).
  { pose proof (lstrip_head s) as Hh.
    destruct (lstrip s) as [|c r]; [reflexivity|].
    destruct (rstrip_head c r Hh) as [r' ->].
    simpl. rewrite Hh. reflexivity. }
  rewrite H. apply rstrip_idem.
Qed.

Lemma lstrip_length (s : string) :
  String.length (lstrip s) <= String.length s.
Proof.
  induction s as [|c s IH]; simpl; [lia|].
  destruct (is_space c); simpl; lia.
Qed.

Lemma lstrip_length_eq (s : string) :
  String.length (lstrip s) = String.length s -> lstrip s = s.
Proof.
  destruct s as [|c s]; simpl; [reflexivity|].
  destruct (is_space c); [|reflexivity].
  pose proof (lstrip_length s). lia.
Qed.

Lemma rstrip_length (s : string) :
  String.length (rstrip s) <= String.length s.
Proof.
  induction s as [|c s IH]; simpl; [lia|].
  destruct (rstrip s); [destruct (is_space c)|]; simpl in *; lia.
Qed.

Lemma rstrip_length_eq (s : string) :
  String.length (rstrip s) = String.length s -> rstrip s = s.
Proof.
  induction s as [|c s IH]; simpl; [reflexivity|].
  pose proof (rstrip_length s) as Hl.
  destruct (rstrip s) as [|c' r] eqn:E.
  - destruct (is_space c); simpl in *; intros H; [lia|].
    destruct s; simpl in *; [reflexivity | lia].
  - simpl. intros H. f_equal. apply IH. simpl. lia.
Qed.

Lemma strip_length (s : string) :
  String.length (strip s) <= String.length s.
Proof.
  unfold strip. pose proof (rstrip_length (lstrip s)).
  pose proof (lstrip_length s). lia.
Qed.

Lemma strip_length_eq (s : string) :
  String.length (strip s) = String.length s -> strip s = s.
Proof.
  unfold strip. intros H.
  pose proof (rstrip_length (lstrip s)). pose proof (lstrip_length s).
  assert (Hl : lstrip s = s) by (apply lstrip_length_eq; lia).
  rewrite Hl in *. apply rstrip_length_eq. exact H.
Qed.

Lemma is_empty_true (s : string) : is_empty s = true <-> s = "".
Proof. destruct s; simpl; split; congruence. Qed.

Lemma is_empty_false (s : string) : is_empty s = false <-> s <> "".
Proof. destruct s; simpl; split; congruence. Qed.

End StripFacts.

Section SplitJoinFacts.
Import PyStr.
Variable sep : ascii.

Let sep_str : string := String sep EmptyString.

Lemma split_nonempty (s : string) : split sep s <> [].
Proof.
  destruct s as [|c s]; simpl; [discriminate|].
  destruct (Ascii.eqb c sep); [discriminate|].
  destruct (split sep s); discriminate.
Qed.

Lemma split_no_sep (s : string) :
  Forall (fun part => has_char sep part = false) (split sep s).
Proof.
  induction s as [|c s IH]; simpl.
  - repeat constructor.
  - destruct (Ascii.eqb c sep) eqn:E.
    + constructor; [reflexivity | exact IH].
    + destruct (split sep s) as [|h t]; inversion IH; subst;
        constructor; simpl; rewrite ?E; auto.
Qed.

Lemma join_cons (x y : string) (l : list string) :
  join sep_str (x :: y :: l) = x +:+ sep_str +:+ join sep_str (y :: l).
Proof. reflexivity. Qed.

Lemma join_split (s : string) : join sep_str (split sep s) = s.
Proof.
  induction s as [|c s IH]; simpl; [reflexivity|].
  pose proof (split_nonempty s) as Hne.
  destruct (Ascii.eqb c sep) eqn:E.
  - apply Ascii.eqb_eq in E. subst c.
    destruct (split sep s) as [|h t]; [congruence|].
    rewrite join_cons, IH. reflexivity.
  - destruct (split sep s) as [|h t]; [congruence|].
    destruct t as [|h' t].
    + simpl in *. congruence.
    + rewrite join_cons in *. rewrite <- IH. reflexivity.
Qed.

Lemma split_single (p : string) :
  has_char sep p = false -> split sep p = [p].
Proof.
  induction p as [|c p IH]; simpl; [reflexivity|].
  intros H. apply orb_false_iff in H as [H1 H2].
  rewrite H1, (IH H2). reflexivity.
Qed.

Lemma split_app (p rest : string) :
  has_char sep p = false ->
  split sep (p +:+ sep_str +:+ rest) = p :: split sep rest.
Proof.
  induction p as [|c p IH]; simpl.
  - intros _. rewrite Ascii.eqb_refl. reflexivity.
  - intros H. apply orb_false_iff in H as [H1 H2].
    rewrite H1, (IH H2). reflexivity.
Qed.

Lemma split_join (l : list string) :
  l <> [] ->
  Forall (fun part => has_char sep part = false) l ->
  split sep (join sep_str l) = l.
Proof.
  induction l as [|x l IH]; [congruence|].
  intros _ Hall. inversion Hall as [|? ? Hx Hl]; subst.
  destruct l as [|y l].
  - simpl. apply split_single. exact Hx.
  - rewrite join_cons, split_app by exact Hx.
    f_equal. apply IH; [discriminate | exact Hl].
Qed.

Lemma append_length (s1 s2 : string) :
  String.length (s1 +:+ s2) = String.length s1 + String.length s2.
Proof. induction s1 as [|c s1 IH]; simpl; [reflexivity | rewrite IH; reflexivity]. Qed.

Lemma join_length_tail (x : string) (l : list string) :
  String.length (join sep_str l) <= String.length (join sep_str (x :: l)).
Proof.
  destruct l as [|y l]; [simpl; lia|].
  rewrite join_cons, !append_length. lia.
Qed.

Lemma join_filter_length (P : string -> Prop) `{!forall x, Decision (P x)}
      (l : list string) :
  String.length (join sep_str (filter P l)) <= String.length (join sep_str l).
Proof.
  induction l as [|x l IH]; [simpl; lia|].
  rewrite filter_cons. destruct (decide (P x)) as [Hp|Hp].
  - destruct l as [|y l]; [simpl; lia|].
    destruct (filter P (y :: l)) as [|z k] eqn:E.
    + rewrite join_cons, append_length. simpl. lia.
    + rewrite !join_cons, !append_length in *. lia.
  - pose proof (join_length_tail x l). lia.
Qed.

End SplitJoinFacts.

(** ** The parent-SKU resolver *)

Section ParentSku.
Import PyStr.

Lemma get_parent_sku_str (s : string) :
  get_parent_sku (CStr s) =
  if is_empty (strip s) then None
  else if bool_decide (strip s ∈ SKU_EXCEPTIONS) then Some (strip s)
  else match filter not_color (split "-" (strip s)) with
       | [] => Some (strip s)
       | l => Some (join "-" l)
       end.
Proof.
  unfold get_parent_sku.
  destruct (is_empty (strip s)); [reflexivity|].
  destruct (bool_decide (strip s ∈ SKU_EXCEPTIONS)); [reflexivity|].
  destruct (filter not_color (split "-" (strip s))); reflexivity.
Qed.

Lemma get_parent_sku_is_Some (s r : string) :
  get_parent_sku (CStr s) = Some r -> strip s <> "".
Proof.
  rewrite get_parent_sku_str. destruct (is_empty (strip s)) eqn:E; [discriminate|].
  intros _. apply is_empty_false. exact E.
Qed.

(** The three ways in which a result is produced. *)
Lemma get_parent_sku_cases (s r : string) :
  get_parent_sku (CStr s) = Some r ->
  r = strip s /\ (strip s ∈ SKU_EXCEPTIONS
                  \/ filter not_color (split "-" (strip s)) = [])
  \/ exists l, l <> [] /\ l = filter not_color (split "-" (strip s))
              /\ r = join "-" l.
Proof.
  rewrite get_parent_sku_str. destruct (is_empty (strip s)); [discriminate|].
  case_bool_decide as Hex.
  - intros [= <-]. left. auto.
  - destruct (filter not_color (split "-" (strip s))) as [|x l] eqn:E.
    + intros [= <-]. left. auto.
    + intros [= <-]. right. exists (x :: l). split; [discriminate|]. auto.
Qed.

(** A result that the resolver maps to itself is non-empty and trimmed. *)
Lemma get_parent_sku_fixed_trimmed (r : string) :
  get_parent_sku (CStr r) = Some r -> r <> "" /\ trimmed r.
Proof.
  intros H. pose proof (get_parent_sku_is_Some _ _ H) as Hne.
  assert (Ht : trimmed r).
  { apply get_parent_sku_cases in H as [[H _]|(l & _ & Hl & Hr)].
    - unfold trimmed. congruence.
    - apply strip_length_eq. pose proof (strip_length r).
      pose proof (join_filter_length "-" not_color (split "-" (strip r))) as Hj.
      rewrite <- Hl, join_split in Hj. rewrite <- Hr in Hj. lia. }
  split; [|exact Ht]. unfold trimmed in Ht. congruence.
Qed.

(** A non-empty trimmed string built from kept segments is a fixed point. *)
Lemma get_parent_sku_join (l : list string) :
  l <> [] ->
  Forall (fun part => has_char "-" part = false) l ->
  Forall not_color l ->
  join "-" l <> "" -> trimmed (join "-" l) ->
  get_parent_sku (CStr (join "-" l)) = Some (join "-" l).
Proof.
  intros Hne Hsep Hcol Hr Ht. unfold trimmed in Ht.
  rewrite get_parent_sku_str, !Ht.
  apply is_empty_false in Hr. rewrite Hr.
  case_bool_decide; [reflexivity|].
  rewrite split_join by assumption.
  destruct l; [congruence|].
  replace (filter not_color (s :: l)) with (s :: l); [reflexivity|].
  symmetry. clear -Hcol. induction Hcol as [|x k Hx Hk IH]; [reflexivity|].
  rewrite filter_cons_True by exact Hx. f_equal. exact IH.
Qed.

End ParentSku.

Section ParentSkuIdempotence.
Import PyStr.

Lemma filter_Forall_keep {A : Type} (P Q : A -> Prop) `{!forall x, Decision (P x)}
      (l : list A) :
  Forall Q l -> Forall Q (filter P l).
Proof.
  rewrite !Forall_forall. intros Hall x Hx.
  apply list_elem_of_filter in Hx as [_ Hx]. auto.
Qed.

Lemma filter_Forall_holds {A : Type} (P : A -> Prop) `{!forall x, Decision (P x)}
      (l : list A) :
  Forall P (filter P l).
Proof.
  rewrite Forall_forall. intros x Hx.
  apply list_elem_of_filter in Hx as [Hx _]. exact Hx.
Qed.

Lemma has_space_lstrip (s : string) : has_space s = false -> lstrip s = s.
Proof.
  destruct s as [|c s]; simpl; [reflexivity|].
  intros H. apply orb_false_iff in H as [-> _]. reflexivity.
Qed.

Lemma has_space_rstrip (s : string) : has_space s = false -> rstrip s = s.
Proof.
  induction s as [|c s IH]; simpl; [reflexivity|].
  intros H. apply orb_false_iff in H as [Hc Hs].
  rewrite (IH Hs), Hc. destruct s; reflexivity.
Qed.

Lemma has_space_trimmed (s : string) : has_space s = false -> trimmed s.
Proof.
  intros H. unfold trimmed, strip.
  rewrite (has_space_lstrip s H). apply has_space_rstrip. exact H.
Qed.

Lemma has_space_append (s1 s2 : string) :
  has_space (s1 +:+ s2) = has_space s1 || has_space s2.
Proof.
  induction s1 as [|c s1 IH]; simpl; [reflexivity|].
  rewrite IH, orb_assoc. reflexivity.
Qed.

Lemma has_space_join (l : list string) :
  Forall (fun part => has_space part = false) l ->
  has_space (join "-" l) = false.
Proof.
  induction 1 as [|x l Hx Hl IH]; [reflexivity|].
  destruct l as [|y l]; [exact Hx|].
  rewrite (join_cons "-"), !has_space_append, Hx, IH. reflexivity.
Qed.

Lemma join_head_nonempty (x : string) (l : list string) :
  x <> "" -> join "-" (x :: l) <> "".
Proof.
  intros Hx. destruct l as [|y l]; [exact Hx|].
  rewrite (join_cons "-"). destruct x; [congruence | discriminate].
Qed.

Lemma resolved_twice_None (s : string) :
  get_parent_sku (CStr s) = None -> resolved_twice s = get_parent_sku (CStr s).
Proof. unfold resolved_twice. intros ->. reflexivity. Qed.

Lemma resolved_twice_Some (s r : string) :
  get_parent_sku (CStr s) = Some r -> r <> "" -> trimmed r ->
  resolved_twice s = get_parent_sku (CStr s).
Proof.
  intros E Hne Ht. unfold resolved_twice. rewrite E. simpl cell_of_result.
  apply get_parent_sku_cases in E as [[-> Hc]|(l & Hl & El & ->)].
  - rewrite get_parent_sku_str. unfold trimmed in Ht. rewrite !Ht.
    apply is_empty_false in Hne. rewrite Hne.
    case_bool_decide as Hex; [reflexivity|].
    destruct Hc as [Hc | ->]; [contradiction | reflexivity].
  - apply get_parent_sku_join; try assumption; subst l.
    + apply filter_Forall_keep, split_no_sep.
    + apply filter_Forall_holds.
Qed.

Lemma resolved_twice_iff (s : string) :
  resolved_twice s = get_parent_sku (CStr s) <->
  (forall r, get_parent_sku (CStr s) = Some r -> r <> "" /\ trimmed r).
Proof.
  split.
  - intros H r E. unfold resolved_twice in H. rewrite E in H. simpl in H.
    apply get_parent_sku_fixed_trimmed. exact H.
  - intros H. destruct (get_parent_sku (CStr s)) as [r|] eqn:E.
    + destruct (H r eq_refl) as [Hne Ht]. rewrite <- E.
      apply (resolved_twice_Some s r); assumption.
    + rewrite <- E. apply resolved_twice_None. exact E.
Qed.

End ParentSkuIdempotence.

Section ParentSkuClaims.
Import PyStr.

Lemma get_parent_sku_unchanged (s r : string) :
  strip s ∈ SKU_EXCEPTIONS \/ filter not_color (split "-" (strip s)) = [] ->
  get_parent_sku (CStr s) = Some r -> r = strip s.
Proof.
  intros H. rewrite get_parent_sku_str.
  destruct (is_empty (strip s)); [discriminate|].
  case_bool_decide as Hex; [congruence|].
  destruct H as [H|H]; [contradiction|]. rewrite H. congruence.
Qed.

Lemma resolved_twice_unchanged (s : string) :
  strip s ∈ SKU_EXCEPTIONS \/ filter not_color (split "-" (strip s)) = [] ->
  resolved_twice s = get_parent_sku (CStr s).
Proof.
  intros H. apply resolved_twice_iff. intros r E.
  pose proof (get_parent_sku_is_Some _ _ E) as Hne.
  rewrite (get_parent_sku_unchanged s r H E).
  split; [exact Hne | apply strip_idem].
Qed.

Lemma resolved_twice_well_formed (s : string) :
  Forall (fun part => part <> "" /\ has_space part = false)
         (split "-" (strip s)) ->
  resolved_twice s = get_parent_sku (CStr s).
Proof.
  intros Hwf. apply resolved_twice_iff. intros r E.
  pose proof (get_parent_sku_is_Some _ _ E) as Hne.
  apply get_parent_sku_cases in E as [[-> _]|(l & Hl & El & ->)].
  - split; [exact Hne | apply strip_idem].
  - pose proof (filter_Forall_keep not_color _ _ Hwf) as Hkept.
    clear Hwf. rename Hkept into Hwf. rewrite <- El in Hwf.
    destruct l as [|x l]; [congruence|]. split.
    + apply join_head_nonempty. inversion Hwf as [|? ? [Hx _] _]. exact Hx.
    + apply has_space_trimmed, has_space_join.
      eapply Forall_impl; [exact Hwf|]. intros ? [_ ?]. assumption.
Qed.

Lemma color_vocabulary_spec (c : string) :
  c ∈ COLOR_CODES <-> In c COLOR_VOCABULARY.
Proof.
  unfold COLOR_CODES, COLOR_VOCABULARY. rewrite !elem_of_union, !elem_of_singleton.
  simpl. intuition congruence.
Qed.

Lemma spec_is_color_false (segment : string) :
  spec_is_color segment = false <-> not_color segment.
Proof.
  unfold not_color, spec_is_color. rewrite color_vocabulary_spec.
  rewrite <- not_true_iff_false, existsb_exists. split.
  - intros H Hin. apply H. exists (upper segment). split; [exact Hin|].
    apply String.eqb_refl.
  - intros H (c & Hin & Heq). apply String.eqb_eq in Heq. subst c. auto.
Qed.

Lemma filter_not_color_spec (l : list string) :
  filter not_color l = List.filter (fun segment => negb (spec_is_color segment)) l.
Proof.
  induction l as [|x l IH]; [reflexivity|].
  rewrite filter_cons. cbn [List.filter].
  destruct (decide (not_color x)) as [Hx|Hx].
  - rewrite (proj2 (spec_is_color_false x) Hx). cbn [negb]. f_equal. exact IH.
  - destruct (spec_is_color x) eqn:E; [exact IH|].
    apply spec_is_color_false in E. contradiction.
Qed.

End ParentSkuClaims.

(** C1 (as amended).  For every string [s], resolving twice equals resolving
    once exactly when the first result is [None] or a non-empty string
    without leading or trailing whitespace.  This is the case whenever the
    trimmed [s] is an exception SKU, whenever every segment was dropped, and
    whenever every segment of the trimmed [s] is non-empty and free of
    whitespace. *)
Theorem get_parent_sku_idempotent_when_trimmed (s : string) :
  (get_parent_sku (cell_of_result (get_parent_sku (CStr s))) = get_parent_sku (CStr s)
   <-> forall r, get_parent_sku (CStr s) = Some r -> r <> "" /\ PyStr.strip r = r)
  /\ (PyStr.strip s ∈ SKU_EXCEPTIONS ->
      get_parent_sku (cell_of_result (get_parent_sku (CStr s))) = get_parent_sku (CStr s))
  /\ (filter not_color (PyStr.split "-" (PyStr.strip s)) = [] ->
      get_parent_sku (cell_of_result (get_parent_sku (CStr s))) = get_parent_sku (CStr s))
  /\ (Forall (fun part => part <> "" /\ has_space part = false)
             (PyStr.split "-" (PyStr.strip s)) ->
      get_parent_sku (cell_of_result (get_parent_sku (CStr s))) = get_parent_sku (CStr s)).
Proof.
  split; [apply resolved_twice_iff|]. split; [|split].
  - intros H. apply resolved_twice_unchanged. left. exact H.
  - intros H. apply resolved_twice_unchanged. right. exact H.
  - apply resolved_twice_well_formed.
Qed.

Lemma get_parent_sku_idempotent_when_trimmed_witness :
  get_parent_sku (cell_of_result (get_parent_sku (CStr "PC-F20-BK-LG")))
  = get_parent_sku (CStr "PC-F20-BK-LG").
Proof.
  apply (get_parent_sku_idempotent_when_trimmed "PC-F20-BK-LG").
  vm_compute. repeat constructor; discriminate.
Defined.

(** C1, counterexample.  A blank next to a hyphen survives the first pass
    at the end of the result and is trimmed away by the second pass. *)
Lemma get_parent_sku_not_idempotent :
  get_parent_sku (CStr "A -BK") = Some "A "
  /\ get_parent_sku (cell_of_result (get_parent_sku (CStr "A -BK"))) = Some "A"
  /\ get_parent_sku (cell_of_result (get_parent_sku (CStr "A -BK")))
     <> get_parent_sku (CStr "A -BK").
Proof. vm_compute. repeat split; discriminate. Qed.

(** C6 (as amended).  For every string whose trimmed form is non-empty and
    is not an exception SKU, [get_parent_sku] returns what the steps of the
    specification give: the trimmed string split on the hyphen, without the
    segments whose uppercase form is one of the seventeen color codes, the
    other segments kept in order and casing and joined by hyphens, or the
    trimmed string itself when every segment was dropped.  In particular
    "PC-F20-BK-LG" resolves to "PC-F20-LG" and "AC-ESE-BK" to "AC-ESE". *)
Theorem get_parent_sku_follows_spec :
  (forall s : string,
      PyStr.strip s <> "" -> PyStr.strip s ∉ SKU_EXCEPTIONS ->
      get_parent_sku (CStr s) = Some (spec_resolveParentSKU s))
  /\ (forall c : string, c ∈ COLOR_CODES <-> In c COLOR_VOCABULARY)
  /\ length COLOR_VOCABULARY = 17 /\ NoDup COLOR_VOCABULARY
  /\ get_parent_sku (CStr "PC-F20-BK-LG") = Some "PC-F20-LG"
  /\ get_parent_sku (CStr "AC-ESE-BK") = Some "AC-ESE".
Proof.
  split; [|split; [exact color_vocabulary_spec|]].
  - intros s Hne Hex. rewrite get_parent_sku_str.
    apply is_empty_false in Hne. rewrite Hne.
    rewrite bool_decide_eq_false_2 by exact Hex.
    unfold spec_resolveParentSKU. rewrite <- filter_not_color_spec.
    destruct (filter not_color (PyStr.split "-" (PyStr.strip s))); reflexivity.
  - split; [reflexivity|]. split; [|split; vm_compute; reflexivity].
    apply (bool_decide_unpack _). vm_compute. reflexivity.
Qed.

Lemma get_parent_sku_follows_spec_witness :
  get_parent_sku (CStr " cr-al-Bk-XL ") = Some "cr-al-XL".
Proof.
  destruct get_parent_sku_follows_spec as [H _].
  rewrite (H " cr-al-Bk-XL ").
  - vm_compute. reflexivity.
  - vm_compute. discriminate.
  - apply (bool_decide_unpack _). vm_compute. reflexivity.
Defined.

(** C6, counterexample.  A blank string is not empty and a padded exception
    SKU is not literally an exception, yet neither goes through the
    segment filter: the first resolves to [None], the second to the
    exception itself with its color-like segment. *)
Lemma get_parent_sku_blank_or_padded_exception :
  (" " <> "" /\ (" " ∉ SKU_EXCEPTIONS)
   /\ get_parent_sku (CStr " ") = None
   /\ get_parent_sku (CStr " ") <> Some (spec_resolveParentSKU " "))
  /\ (" PI-CB " <> "" /\ (" PI-CB " ∉ SKU_EXCEPTIONS)
      /\ get_parent_sku (CStr " PI-CB ") = Some "PI-CB"
      /\ spec_resolveParentSKU " PI-CB " = "PI"
      /\ get_parent_sku (CStr " PI-CB ") <> Some (spec_resolveParentSKU " PI-CB ")).
Proof.
  assert (H1 : " " ∉ SKU_EXCEPTIONS)
    by (apply (bool_decide_unpack _); vm_compute; reflexivity).
  assert (H2 : " PI-CB " ∉ SKU_EXCEPTIONS)
    by (apply (bool_decide_unpack _); vm_compute; reflexivity).
  repeat split; try assumption; vm_compute; discriminate.
Qed.

(** C7.  Every member of the exception set resolves to itself, although an
    exception may have a segment of the color vocabulary, as "CB" in
    "PI-CB". *)
Theorem get_parent_sku_exception_fixed (s : string) :
  s ∈ SKU_EXCEPTIONS ->
  get_parent_sku (CStr s) = Some s
  /\ (s = "PI-CB" -> Exists (fun part => ~ not_color part) (PyStr.split "-" s)).
Proof.
  unfold SKU_EXCEPTIONS. rewrite !elem_of_union, !elem_of_singleton.
  intros [[-> | ->] | ->]; (split; [vm_compute; reflexivity|]);
    intros [=].
  apply Exists_cons_tl, Exists_cons_hd. unfold not_color. intros H. apply H.
  apply (bool_decide_unpack _). vm_compute. reflexivity.
Qed.

Lemma get_parent_sku_exception_fixed_witness :
  get_parent_sku (CStr "PI-CB") = Some "PI-CB".
Proof.
  apply (get_parent_sku_exception_fixed "PI-CB").
  apply (bool_decide_unpack _). vm_compute. reflexivity.
Defined.

(** ** Dictionaries *)

Section DictFacts.

Lemma dict_of_items_fold (items : list (string * string))
      (m : gmap string string) (k v : string) :
  fold_left (fun m kv => <[kv.1 := kv.2]> m) items m !! k = Some v ->
  (k, v) ∈ items \/ m !! k = Some v.
Proof.
  revert m. induction items as [|[k' v'] items IH]; intros m; simpl.
  - auto.
  - intros H. apply IH in H as [H|H].
    + left. apply elem_of_cons. auto.
    + apply lookup_insert_Some in H as [[-> ->]|[_ H]].
      * left. apply elem_of_cons. auto.
      * auto.
Qed.

Lemma dict_of_items_lookup (items : list (string * string)) (k v : string) :
  dict_of_items items !! k = Some v -> (k, v) ∈ items.
Proof.
  intros H. apply dict_of_items_fold in H as [H|H]; [exact H|].
  rewrite lookup_empty in H. discriminate.
Qed.

Lemma dict_contains_getitem (d : gmap string string) (k : string) :
  dict_contains d k = true -> exists v, d !! k = Some v /\ dict_getitem d k = Ok v.
Proof.
  unfold dict_contains, dict_getitem. destruct (d !! k) as [v|]; [eauto | discriminate].
Qed.

Lemma dict_lookup_contains (d : gmap string string) (k v : string) :
  d !! k = Some v -> dict_contains d k = true /\ dict_getitem d k = Ok v.
Proof. unfold dict_contains, dict_getitem. intros ->. auto. Qed.

End DictFacts.

(** ** The classifiers *)

Section ClassifierFacts.
Import PyStr.

Lemma sewing_items_values :
  Forall (fun kv => kv.2 ∈ ERROR_SOURCES) SEWING_REPAIRS_DEPT_MAP_items.
Proof. apply (bool_decide_unpack _). vm_compute. reflexivity. Qed.

Lemma recut_items_values :
  Forall (fun kv => kv.2 ∈ ERROR_SOURCES) RECUT_LIST_DEPT_MAP_items.
Proof. apply (bool_decide_unpack _). vm_compute. reflexivity. Qed.

Lemma sewing_items_classified :
  Forall (fun kv => get_department_from_reason_code (CStr kv.1) = Ok kv.2)
         SEWING_REPAIRS_DEPT_MAP_items.
Proof.
  unfold SEWING_REPAIRS_DEPT_MAP_items.
  repeat (constructor; [vm_compute; reflexivity|]). constructor.
Qed.

Lemma recut_items_classified :
  Forall (fun kv => get_department_from_recut_code (CStr kv.1) = Ok kv.2)
         RECUT_LIST_DEPT_MAP_items.
Proof.
  unfold RECUT_LIST_DEPT_MAP_items.
  repeat (constructor; [vm_compute; reflexivity|]). constructor.
Qed.

Lemma extract_prefix_Ok (code : string) : exists p, extract_prefix code = Ok p.
Proof.
  unfold extract_prefix, list_getitem.
  pose proof (split_nonempty " " code) as H1.
  destruct (split " " code) as [|h t]; [congruence|]. simpl.
  pose proof (split_nonempty "-" h) as H2.
  destruct (split "-" h) as [|h' t']; [congruence|]. simpl. eauto.
Qed.

Lemma reason_code_patterns_range (code : string) :
  reason_code_patterns code ∈ ERROR_SOURCES.
Proof.
  unfold reason_code_patterns.
  repeat match goal with
         | |- context [if ?b then _ else _] => destruct b
         end;
    apply (bool_decide_unpack _); vm_compute; reflexivity.
Qed.

Lemma recut_code_patterns_range (first_char code : string) :
  recut_code_patterns first_char code ∈ ERROR_SOURCES.
Proof.
  unfold recut_code_patterns.
  repeat match goal with
         | |- context [if ?b then _ else _] => destruct b
         end;
    apply (bool_decide_unpack _); vm_compute; reflexivity.
Qed.

Lemma recut_first_char_Ok (code : string) :
  exists c, recut_first_char code = Ok (recut_code_patterns c code).
Proof.
  unfold recut_first_char. destruct code as [|c code]; simpl; eauto.
Qed.

Lemma recut_lower_loop_value (code v : string) :
  recut_lower_loop code = Some v -> v ∈ ERROR_SOURCES.
Proof.
  unfold recut_lower_loop.
  destruct (find _ RECUT_LIST_DEPT_MAP_items) as [kv|] eqn:E; [|discriminate].
  intros [= <-]. apply find_some in E as [Hin _].
  pose proof recut_items_values as H. rewrite Forall_forall in H.
  apply H. apply list_elem_of_In. exact Hin.
Qed.

Lemma reason_code_str (s : string) :
  get_department_from_reason_code (CStr s) =
  if dict_contains SEWING_REPAIRS_DEPT_MAP (strip s)
  then dict_getitem SEWING_REPAIRS_DEPT_MAP (strip s)
  else
    let* prefix := extract_prefix (strip s) in
    if dict_contains SEWING_REPAIRS_DEPT_MAP prefix
    then dict_getitem SEWING_REPAIRS_DEPT_MAP prefix
    else Ok (reason_code_patterns (strip s)).
Proof. reflexivity. Qed.

Lemma recut_code_str (s : string) :
  get_department_from_recut_code (CStr s) =
  if dict_contains RECUT_LIST_DEPT_MAP (strip s)
  then dict_getitem RECUT_LIST_DEPT_MAP (strip s)
  else
    if dict_contains RECUT_LIST_DEPT_MAP_lower (lower (strip s))
    then match recut_lower_loop (strip s) with
         | Some v => Ok v
         | None => recut_first_char (strip s)
         end
    else recut_first_char (strip s).
Proof. reflexivity. Qed.

Lemma unknown_is_error_source : "Unknown" ∈ ERROR_SOURCES.
Proof. apply (bool_decide_unpack _). vm_compute. reflexivity. Qed.

Lemma reason_code_total (v : cell) :
  exists d, get_department_from_reason_code v = Ok d /\ d ∈ ERROR_SOURCES.
Proof.
  pose proof sewing_items_values as Hv. rewrite Forall_forall in Hv.
  destruct v as [| |s].
  - exists "Unknown". split; [reflexivity | exact unknown_is_error_source].
  - exists "Unknown". split; [reflexivity | exact unknown_is_error_source].
  - rewrite reason_code_str.
    destruct (dict_contains SEWING_REPAIRS_DEPT_MAP (strip s)) eqn:E.
    + apply dict_contains_getitem in E as (d & Hd & ->). exists d.
      split; [reflexivity|].
      apply dict_of_items_lookup in Hd. apply (Hv _ Hd).
    + destruct (extract_prefix_Ok (strip s)) as [p ->]. unfold rbind.
      destruct (dict_contains SEWING_REPAIRS_DEPT_MAP p) eqn:Ep.
      * apply dict_contains_getitem in Ep as (d & Hd & ->). exists d.
        split; [reflexivity|]. apply dict_of_items_lookup in Hd. apply (Hv _ Hd).
      * exists (reason_code_patterns (strip s)).
        split; [reflexivity|]. apply reason_code_patterns_range.
Qed.

Lemma recut_code_total (v : cell) :
  exists d, get_department_from_recut_code v = Ok d /\ d ∈ ERROR_SOURCES.
Proof.
  pose proof recut_items_values as Hv. rewrite Forall_forall in Hv.
  destruct v as [| |s].
  - exists "Unknown". split; [reflexivity | exact unknown_is_error_source].
  - exists "Unknown". split; [reflexivity | exact unknown_is_error_source].
  - rewrite recut_code_str.
    assert (Hfc : exists d, recut_first_char (strip s) = Ok d /\ d ∈ ERROR_SOURCES).
    { destruct (recut_first_char_Ok (strip s)) as [c ->].
      exists (recut_code_patterns c (strip s)).
      split; [reflexivity|]. apply recut_code_patterns_range. }
    destruct (dict_contains RECUT_LIST_DEPT_MAP (strip s)) eqn:E.
    + apply dict_contains_getitem in E as (d & Hd & ->). exists d.
      split; [reflexivity|].
      apply dict_of_items_lookup in Hd. apply (Hv _ Hd).
    + destruct (dict_contains RECUT_LIST_DEPT_MAP_lower (lower (strip s)));
        [|exact Hfc].
      destruct (recut_lower_loop (strip s)) as [d|] eqn:El; [|exact Hfc].
      exists d. split; [reflexivity|]. eapply recut_lower_loop_value. exact El.
Qed.

End ClassifierFacts.

Section BlankFacts.
Import PyStr.

Lemma all_space_lstrip (s : string) : all_space s = true -> lstrip s = "".
Proof.
  induction s as [|c s IH]; simpl; [reflexivity|].
  intros H. apply andb_true_iff in H as [-> Hs]. auto.
Qed.

Lemma all_space_strip (s : string) : all_space s = true -> strip s = "".
Proof. intros H. unfold strip. rewrite (all_space_lstrip s H). reflexivity. Qed.

End BlankFacts.

(** C2 (as amended).  For a code that is found neither in the Scheme A
    table nor there after prefix extraction and whose trimmed form starts
    with "A1": if it starts with none of "A1A", "A1B", "A1C", "A1D" the
    result is 'Cutting Machine Error'; if it starts with one of them (as
    "A1AX" does) the result is 'Cutting Operator Error'. *)
Theorem reason_code_A1_fallback (s p : string) :
  dict_contains SEWING_REPAIRS_DEPT_MAP (PyStr.strip s) = false ->
  extract_prefix (PyStr.strip s) = Ok p ->
  dict_contains SEWING_REPAIRS_DEPT_MAP p = false ->
  PyStr.startswith "A1" (PyStr.strip s) = true ->
  (PyStr.startswith "A1A" (PyStr.strip s) = false ->
   PyStr.startswith "A1B" (PyStr.strip s) = false ->
   PyStr.startswith "A1C" (PyStr.strip s) = false ->
   PyStr.startswith "A1D" (PyStr.strip s) = false ->
   get_department_from_reason_code (CStr s) = Ok "Cutting Machine Error")
  /\ (PyStr.startswith "A1A" (PyStr.strip s) = true
      \/ PyStr.startswith "A1B" (PyStr.strip s) = true
      \/ PyStr.startswith "A1C" (PyStr.strip s) = true
      \/ PyStr.startswith "A1D" (PyStr.strip s) = true ->
      get_department_from_reason_code (CStr s) = Ok "Cutting Operator Error").
Proof.
  intros Hcode Hp Hprefix HA1.
  rewrite reason_code_str, Hcode, Hp. unfold rbind. rewrite Hprefix.
  unfold reason_code_patterns. rewrite HA1. split.
  - intros -> -> -> ->. reflexivity.
  - intros [-> | [-> | [-> | ->]]]; cbn [negb andb];
      rewrite ?andb_false_r; reflexivity.
Qed.

Lemma reason_code_A1_fallback_witness :
  get_department_from_reason_code (CStr " A1Z ") = Ok "Cutting Machine Error"
  /\ get_department_from_reason_code (CStr "A1AX") = Ok "Cutting Operator Error".
Proof.
  split.
  - apply (reason_code_A1_fallback " A1Z " "A1Z"); vm_compute; reflexivity.
  - apply (reason_code_A1_fallback "A1AX" "A1AX"); try (vm_compute; reflexivity).
    left. vm_compute. reflexivity.
Defined.

(** C2, counterexample.  "A1AX" matches neither table lookup, starts with
    "A1" and is not exactly one of the four codes, yet it is not classified
    as 'Cutting Machine Error'. *)
Lemma reason_code_A1AX_not_machine :
  dict_contains SEWING_REPAIRS_DEPT_MAP (PyStr.strip "A1AX") = false
  /\ extract_prefix (PyStr.strip "A1AX") = Ok "A1AX"
  /\ dict_contains SEWING_REPAIRS_DEPT_MAP "A1AX" = false
  /\ PyStr.startswith "A1" (PyStr.strip "A1AX") = true
  /\ ~ In (PyStr.strip "A1AX") [ "A1A"; "A1B"; "A1C"; "A1D" ]
  /\ get_department_from_reason_code (CStr "A1AX") = Ok "Cutting Operator Error"
  /\ get_department_from_reason_code (CStr "A1AX") <> Ok "Cutting Machine Error".
Proof.
  repeat split; try (vm_compute; reflexivity).
  - vm_compute. intros [H|[H|[H|[H|[]]]]]; discriminate.
  - vm_compute. discriminate.
Qed.

(** C3 (as amended).  "A1Z", an A1 variant that the table does not list,
    is classified as 'Cutting Machine Error'; "A1A" as 'Cutting Operator
    Error' and "A1" as 'Cutting Machine Error'. *)
Theorem reason_code_A1_examples :
  get_department_from_reason_code (CStr "A1Z") = Ok "Cutting Machine Error"
  /\ get_department_from_reason_code (CStr "A1A") = Ok "Cutting Operator Error"
  /\ get_department_from_reason_code (CStr "A1") = Ok "Cutting Machine Error".
Proof. repeat split; vm_compute; reflexivity. Qed.

(** C3, counterexample.  The result for "A1Z" is not 'Cutting Operator
    Error'. *)
Lemma reason_code_A1Z_not_operator :
  get_department_from_reason_code (CStr "A1Z") <> Ok "Cutting Operator Error".
Proof. vm_compute. discriminate. Qed.

(** C4 (as amended).  On [None] and on NaN both classifiers return
    'Unknown'; on an empty or whitespace-only string both return 'Other'. *)
Theorem classifiers_missing_or_blank :
  get_department_from_reason_code CNone = Ok "Unknown"
  /\ get_department_from_reason_code CNaN = Ok "Unknown"
  /\ get_department_from_recut_code CNone = Ok "Unknown"
  /\ get_department_from_recut_code CNaN = Ok "Unknown"
  /\ forall s : string,
      all_space s = true ->
      get_department_from_reason_code (CStr s) = Ok "Other"
      /\ get_department_from_recut_code (CStr s) = Ok "Other".
Proof.
  repeat (split; [reflexivity|]).
  intros s Hs. apply all_space_strip in Hs.
  rewrite reason_code_str, recut_code_str, Hs.
  split; vm_compute; reflexivity.
Qed.

Lemma classifiers_missing_or_blank_witness :
  get_department_from_reason_code (CStr "   ") = Ok "Other"
  /\ get_department_from_recut_code (CStr "   ") = Ok "Other".
Proof.
  destruct classifiers_missing_or_blank as (_ & _ & _ & _ & H).
  apply (H "   "). vm_compute. reflexivity.
Defined.

(** C4, counterexample.  The empty string and a blank string are not
    classified as 'Unknown' by either classifier. *)
Lemma classifiers_blank_not_unknown :
  get_department_from_reason_code (CStr "") = Ok "Other"
  /\ get_department_from_recut_code (CStr "") = Ok "Other"
  /\ get_department_from_reason_code (CStr "") <> Ok "Unknown"
  /\ get_department_from_recut_code (CStr "") <> Ok "Unknown"
  /\ get_department_from_reason_code (CStr "  ") <> Ok "Unknown"
  /\ get_department_from_recut_code (CStr "  ") <> Ok "Unknown".
Proof. repeat split; vm_compute; (reflexivity || discriminate). Qed.

(** C5.  Every key of the Scheme A table is classified by
    [get_department_from_reason_code] as the table says, and every key of
    the Scheme B table by [get_department_from_recut_code] as that table
    says: the exact match comes before every fallback rule.  The keys of
    the tables are those of the literals in the source, with their values. *)
Theorem classifiers_exact_match (c v : string) :
  (SEWING_REPAIRS_DEPT_MAP !! c = Some v ->
   get_department_from_reason_code (CStr c) = Ok v)
  /\ (RECUT_LIST_DEPT_MAP !! c = Some v ->
      get_department_from_recut_code (CStr c) = Ok v)
  /\ Forall (fun kv => SEWING_REPAIRS_DEPT_MAP !! kv.1 = Some kv.2)
            SEWING_REPAIRS_DEPT_MAP_items
  /\ Forall (fun kv => RECUT_LIST_DEPT_MAP !! kv.1 = Some kv.2)
            RECUT_LIST_DEPT_MAP_items.
Proof.
  split; [|split; [|split]].
  - intros H. apply dict_of_items_lookup in H.
    pose proof sewing_items_classified as Hall.
    rewrite Forall_forall in Hall. apply (Hall _ H).
  - intros H. apply dict_of_items_lookup in H.
    pose proof recut_items_classified as Hall.
    rewrite Forall_forall in Hall. apply (Hall _ H).
  - apply (bool_decide_unpack _). vm_compute. reflexivity.
  - apply (bool_decide_unpack _). vm_compute. reflexivity.
Qed.

Lemma classifiers_exact_match_witness :
  get_department_from_reason_code (CStr "A") = Ok "Sewing Machine Error"
  /\ get_department_from_recut_code (CStr "A") = Ok "Sewing Operator Error".
Proof.
  split.
  - apply (classifiers_exact_match "A" "Sewing Machine Error").
    vm_compute. reflexivity.
  - apply (classifiers_exact_match "A" "Sewing Operator Error").
    vm_compute. reflexivity.
Defined.

Section FallbackFacts.
Import PyStr.

Lemma startswith_head (c : ascii) (p s : string) :
  startswith (String c p) s = true -> startswith (String c "") s = true.
Proof.
  unfold startswith. destruct s as [|c' s]; simpl; [discriminate|].
  destruct (ascii_dec c c'); [|discriminate]. intros _. destruct s; reflexivity.
Qed.

Lemma startswith_head_false (c : ascii) (p s : string) :
  startswith (String c "") s = false -> startswith (String c p) s = false.
Proof.
  intros H. destruct (startswith (String c p) s) eqn:E; [|reflexivity].
  apply startswith_head in E. congruence.
Qed.

Lemma reason_code_patterns_other (code : string) :
  startswith "A1" code = false -> startswith "A2" code = false ->
  startswith "S" code = false -> startswith "B" code = false ->
  startswith "C" code = false ->
  reason_code_patterns code = "Other".
Proof.
  intros HA1 HA2 HS HB HC. unfold reason_code_patterns.
  rewrite HA1, HA2, HS, HB, HC.
  rewrite (startswith_head_false "B" "1C" code HB).
  rewrite (startswith_head_false "B" "1E" code HB).
  rewrite (startswith_head_false "B" "2" code HB).
  reflexivity.
Qed.

Lemma recut_code_patterns_other (first_char code : string) :
  first_char ∉ [ "A"; "B"; "C"; "D"; "E"; "F"; "L"; "P" ] ->
  recut_code_patterns first_char code = "Other".
Proof.
  intros H. unfold recut_code_patterns.
  repeat match goal with
         | |- context [String.eqb first_char ?x] =>
             destruct (String.eqb_spec first_char x) as [->|_];
             [exfalso; apply H; apply (bool_decide_unpack _);
              vm_compute; reflexivity|]
         end.
  reflexivity.
Qed.

Lemma float_one_eq : float_one = S754_finite false 4503599627370496 (-52).
Proof. vm_compute. reflexivity. Qed.

Lemma sfeqb_finite (sg : bool) (m m' : positive) (e e' : Z) :
  SFeqb (S754_finite sg m e) (S754_finite false m' e') = true ->
  sg = false /\ m = m' /\ e = e'.
Proof.
  unfold SFeqb, SFcompare. destruct sg; [discriminate|].
  destruct (Z.compare_spec e e') as [->| |]; try discriminate.
  pose proof (Pos.compare_eq m m') as Hm. unfold Pos.compare in Hm.
  destruct (Pos.compare_cont Eq m m'); try discriminate.
  intros _. rewrite (Hm eq_refl). auto.
Qed.

Lemma sfeqb_float_one (f : spec_float) :
  SFeqb f float_one = true <-> f = float_one.
Proof.
  rewrite float_one_eq. split.
  - destruct f as [sg|sg| |sg m e].
    + destruct sg; discriminate.
    + destruct sg; discriminate.
    + discriminate.
    + intros H. apply sfeqb_finite in H as (-> & -> & ->). reflexivity.
  - intros ->. vm_compute. reflexivity.
Qed.

End FallbackFacts.

(** C8.  Both classifiers are total: on [None], on NaN and on every string
    they return, without raising, one of the eight error sources.  'Unknown'
    is what they return on [None] and NaN, and 'Other' is what they return
    on a string that no table entry and no pattern matches. *)
Theorem classifiers_total (v : cell) :
  (exists d, get_department_from_reason_code v = Ok d /\ d ∈ ERROR_SOURCES)
  /\ (exists d, get_department_from_recut_code v = Ok d /\ d ∈ ERROR_SOURCES)
  /\ length ERROR_SOURCES = 8 /\ NoDup ERROR_SOURCES
  /\ (v = CNone \/ v = CNaN ->
      get_department_from_reason_code v = Ok "Unknown"
      /\ get_department_from_recut_code v = Ok "Unknown")
  /\ (forall s p : string,
        v = CStr s ->
        dict_contains SEWING_REPAIRS_DEPT_MAP (PyStr.strip s) = false ->
        extract_prefix (PyStr.strip s) = Ok p ->
        dict_contains SEWING_REPAIRS_DEPT_MAP p = false ->
        PyStr.startswith "A1" (PyStr.strip s) = false ->
        PyStr.startswith "A2" (PyStr.strip s) = false ->
        PyStr.startswith "S" (PyStr.strip s) = false ->
        PyStr.startswith "B" (PyStr.strip s) = false ->
        PyStr.startswith "C" (PyStr.strip s) = false ->
        get_department_from_reason_code v = Ok "Other")
  /\ (forall s : string,
        v = CStr s ->
        dict_contains RECUT_LIST_DEPT_MAP (PyStr.strip s) = false ->
        dict_contains RECUT_LIST_DEPT_MAP_lower (PyStr.lower (PyStr.strip s)) = false ->
        (forall c, PyStr.getitem (PyStr.strip s) 0 = Ok c ->
                   PyStr.upper c ∉ [ "A"; "B"; "C"; "D"; "E"; "F"; "L"; "P" ]) ->
        get_department_from_recut_code v = Ok "Other").
Proof.
  split; [apply reason_code_total|]. split; [apply recut_code_total|].
  split; [reflexivity|].
  split; [apply (bool_decide_unpack _); vm_compute; reflexivity|].
  split; [intros [-> | ->]; split; reflexivity|]. split.
  - intros s p -> Hcode Hp Hprefix HA1 HA2 HS HB HC.
    rewrite reason_code_str, Hcode, Hp. unfold rbind. rewrite Hprefix.
    rewrite reason_code_patterns_other by assumption. reflexivity.
  - intros s -> Hcode Hlower Hfirst.
    rewrite recut_code_str.
    destruct (dict_contains RECUT_LIST_DEPT_MAP (PyStr.strip s));
      [discriminate|].
    destruct (dict_contains RECUT_LIST_DEPT_MAP_lower (PyStr.lower (PyStr.strip s)));
      [discriminate|].
    unfold recut_first_char.
    destruct (PyStr.strip s) as [|c code] eqn:E; cbn [PyStr.is_empty negb].
    + unfold rbind. rewrite recut_code_patterns_other; [reflexivity|].
      intros H. apply (bool_decide_pack _) in H. vm_compute in H. exact H.
    + cbn [PyStr.getitem rbind].
      rewrite recut_code_patterns_other; [reflexivity|].
      apply Hfirst. reflexivity.
Qed.

Lemma classifiers_total_witness :
  get_department_from_reason_code (CStr "X9") = Ok "Other"
  /\ get_department_from_recut_code (CStr "zz") = Ok "Other".
Proof.
  split.
  - destruct (classifiers_total (CStr "X9")) as (_ & _ & _ & _ & _ & H & _).
    apply (H "X9" "X9"); vm_compute; reflexivity.
  - destruct (classifiers_total (CStr "zz")) as (_ & _ & _ & _ & _ & _ & H).
    apply (H "zz"); try (vm_compute; reflexivity).
    intros c Hc. vm_compute in Hc. injection Hc as <-.
    apply (bool_decide_unpack _). vm_compute. reflexivity.
Defined.

Section TrimFacts.
Import PyStr.

Lemma lstrip_decompose (s : string) :
  exists l, s = l +:+ lstrip s /\ all_space l = true.
Proof.
  induction s as [|c s (l & Hl & Hs)]; [exists ""; auto|].
  cbn [lstrip]. destruct (is_space c) eqn:E.
  - exists (String c l). cbn [all_space]. rewrite E, Hs. split; [|reflexivity].
    change (String c s = String c (l +:+ lstrip s)). rewrite <- Hl. reflexivity.
  - exists "". auto.
Qed.

Lemma rstrip_decompose (s : string) :
  exists r, s = rstrip s +:+ r /\ all_space r = true.
Proof.
  induction s as [|c s (r & Hr & Hs)]; [exists ""; auto|].
  cbn [rstrip]. destruct (rstrip s) as [|d x].
  - change ("" +:+ r) with r in Hr. subst s. destruct (is_space c) eqn:E.
    + exists (String c r). cbn [all_space]. rewrite E, Hs. auto.
    + exists r. auto.
  - exists r. split; [|exact Hs].
    change (String c s = String c (String d x +:+ r)). rewrite <- Hr. reflexivity.
Qed.

Lemma strip_decompose (s : string) :
  exists l r, s = l +:+ strip s +:+ r /\ all_space l = true /\ all_space r = true.
Proof.
  destruct (lstrip_decompose s) as (l & Hl & Hls).
  destruct (rstrip_decompose (lstrip s)) as (r & Hr & Hrs).
  exists l, r. unfold strip. rewrite <- Hr. auto.
Qed.

Lemma all_space_rstrip (s : string) : all_space s = true -> rstrip s = "".
Proof.
  induction s as [|c s IH]; [reflexivity|]. cbn [all_space rstrip].
  intros H. apply andb_true_iff in H as [Hc Hs]. rewrite (IH Hs), Hc. reflexivity.
Qed.

Lemma lstrip_app_space (l x : string) :
  all_space l = true -> lstrip (l +:+ x) = lstrip x.
Proof.
  induction l as [|c l IH]; [reflexivity|]. cbn [all_space].
  intros H. apply andb_true_iff in H as [Hc Hl].
  change (lstrip (String c (l +:+ x)) = lstrip x). cbn [lstrip].
  rewrite Hc. apply IH, Hl.
Qed.

Lemma rstrip_app_space (t r : string) :
  all_space r = true -> rstrip (t +:+ r) = rstrip t.
Proof.
  intros Hr. induction t as [|c t IH]; [apply all_space_rstrip, Hr|].
  change (rstrip (String c (t +:+ r)) = rstrip (String c t)).
  cbn [rstrip]. rewrite IH. reflexivity.
Qed.

Lemma strip_padded (l t r : string) :
  all_space l = true -> all_space r = true -> has_space t = false ->
  strip (l +:+ t +:+ r) = t.
Proof.
  intros Hl Hr Ht. unfold strip. rewrite (lstrip_app_space l _ Hl).
  destruct t as [|c t];
    [change ("" +:+ r) with r; rewrite (all_space_lstrip r Hr); reflexivity|].
  pose proof Ht as Ht'. cbn [has_space] in Ht'.
  apply orb_false_iff in Ht' as [Hc _].
  change (rstrip (lstrip (String c (t +:+ r))) = String c t).
  cbn [lstrip]. rewrite Hc.
  change (rstrip (String c t +:+ r) = String c t).
  rewrite (rstrip_app_space _ r Hr). apply has_space_rstrip. exact Ht.
Qed.

Lemma lower_char_space (c : ascii) : is_space (lower_char c) = is_space c.
Proof. destruct c as [[] [] [] [] [] [] [] []]; vm_compute; reflexivity. Qed.

Lemma has_space_lower (s : string) : has_space (lower s) = has_space s.
Proof.
  induction s as [|c s IH]; [reflexivity|].
  change (has_space (String (lower_char c) (lower s)) = has_space (String c s)).
  cbn [has_space]. rewrite lower_char_space, IH. reflexivity.
Qed.

Lemma true_string_plain (t : string) :
  lower t ∈ TRUE_STRINGS -> has_space t = false.
Proof.
  intros H. rewrite <- has_space_lower. unfold TRUE_STRINGS in H.
  repeat (apply elem_of_cons in H as [-> | H]; [reflexivity|]).
  apply elem_of_nil in H. contradiction.
Qed.

Lemma clean_boolean_str (s : string) :
  clean_boolean (OStr s) = true <-> lower (strip s) ∈ TRUE_STRINGS.
Proof. unfold clean_boolean, isna. apply bool_decide_eq_true. Qed.

Lemma clean_boolean_padded (s : string) :
  clean_boolean (OStr s) = true <->
  exists l t r, s = l +:+ t +:+ r /\ all_space l = true /\ all_space r = true
                /\ lower t ∈ TRUE_STRINGS.
Proof.
  rewrite clean_boolean_str. split.
  - intros H. destruct (strip_decompose s) as (l & r & Hs & Hl & Hr).
    exists l, (strip s), r. auto.
  - intros (l & t & r & -> & Hl & Hr & Ht).
    rewrite (strip_padded l t r Hl Hr (true_string_plain t Ht)). exact Ht.
Qed.

End TrimFacts.

(** C9.  [clean_boolean] returns [False] on a missing value; returns a
    boolean unchanged; on a number returns [True] exactly when it equals 1;
    on a string returns [True] exactly when the trimmed and lowercased
    string is one of "true", "x", "y", "1", "yes", that is, exactly when
    the string is one of these five words in any letter case with any
    whitespace before and after it; and returns [False] on everything
    else.  In particular "X" gives [True], "maybe" gives [False], 1 gives
    [True] and 2 gives [False]; so do " Yes" followed by a line feed and
    "x" between a tab and a no-break space, while "y es" gives [False]. *)
Theorem clean_boolean_spec :
  clean_boolean ONone = false
  /\ clean_boolean (OFloat S754_nan) = false
  /\ (forall b : bool, clean_boolean (OBool b) = b)
  /\ (forall z : Z, clean_boolean (OInt z) = true <-> z = 1%Z)
  /\ (forall f : spec_float, clean_boolean (OFloat f) = true <-> f = float_one)
  /\ (forall s : string,
        clean_boolean (OStr s) = true <->
        PyStr.lower (PyStr.strip s) ∈ [ "true"; "x"; "y"; "1"; "yes" ])
  /\ (forall s : string,
        clean_boolean (OStr s) = true <->
        exists l t r, s = l +:+ t +:+ r
                      /\ all_space l = true /\ all_space r = true
                      /\ PyStr.lower t ∈ [ "true"; "x"; "y"; "1"; "yes" ])
  /\ (forall v : pyobj,
        clean_boolean v = true <->
        v = OBool true \/ v = OInt 1 \/ v = OFloat float_one
        \/ exists s, v = OStr s
                     /\ PyStr.lower (PyStr.strip s) ∈ [ "true"; "x"; "y"; "1"; "yes" ])
  /\ clean_boolean (OStr "X") = true
  /\ clean_boolean (OStr "maybe") = false
  /\ clean_boolean (OInt 1) = true
  /\ clean_boolean (OInt 2) = false
  /\ clean_boolean (OStr (" Yes" +:+ String "010" "")) = true
  /\ clean_boolean (OStr (String "009" ("x" +:+ String "160" ""))) = true
  /\ clean_boolean (OStr "y es") = false.
Proof.
  assert (Hint : forall z : Z, clean_boolean (OInt z) = true <-> z = 1%Z).
  { intros z. unfold clean_boolean, isna. apply Z.eqb_eq. }
  assert (Hfloat : forall f, clean_boolean (OFloat f) = true <-> f = float_one).
  { intros f. rewrite <- sfeqb_float_one. unfold clean_boolean, isna.
    destruct f; reflexivity. }
  assert (Hstr : forall s, clean_boolean (OStr s) = true <->
                           PyStr.lower (PyStr.strip s)
                             ∈ [ "true"; "x"; "y"; "1"; "yes" ])
    by exact clean_boolean_str.
  split; [reflexivity|]. split; [reflexivity|]. split; [reflexivity|].
  split; [exact Hint|]. split; [exact Hfloat|]. split; [exact Hstr|].
  split; [exact clean_boolean_padded|].
  split; [|repeat split; vm_compute; reflexivity].
  intros v. split.
  - destruct v as [|b|z|f|s]; intros H.
    + discriminate.
    + left. f_equal. exact H.
    + right. left. f_equal. apply Hint. exact H.
    + right. right. left. f_equal. apply Hfloat. exact H.
    + right. right. right. exists s. split; [reflexivity|]. apply Hstr. exact H.
  - intros [-> | [-> | [-> | (s & -> & H)]]].
    + reflexivity.
    + reflexivity.
    + apply Hfloat. reflexivity.
    + apply Hstr. exact H.
Qed.

(** C10.  On a data frame that has a Department column whose cells are all
    error sources, the four manager filters select no row: they filter on
    the labels 'Cutting' and 'Sewing', which are not error sources. *)
Theorem department_filters_empty (df : DataFrame) :
  "Department" ∈ columns df ->
  Forall (fun row => exists d, row !! "Department" = Some (CStr d)
                               /\ d ∈ ERROR_SOURCES) (rows df) ->
  rows (get_cutting_errors_sewing_repairs df) = []
  /\ rows (get_cutting_errors_recut_list df) = []
  /\ rows (get_sewing_errors_sewing_repairs df) = []
  /\ rows (get_sewing_errors_recut_list df) = [].
Proof.
  intros Hcol Hrows.
  assert (Hlabel : forall label : string,
             label ∉ ERROR_SOURCES ->
             rows (filter_by_department df [label]) = []).
  { intros label Hlabel. unfold filter_by_department.
    rewrite bool_decide_eq_true_2 by exact Hcol. cbn [negb orb rows].
    induction Hrows as [|row l (d & Hd & Hin) _ IH]; [reflexivity|].
    rewrite filter_cons_False; [exact IH|].
    unfold row_cell. rewrite Hd. cbn [default isin].
    intros Hd'. apply list_elem_of_singleton in Hd'. subst d. contradiction. }
  assert (Hcut : "Cutting" ∉ ERROR_SOURCES)
    by (apply (bool_decide_unpack _); vm_compute; reflexivity).
  assert (Hsew : "Sewing" ∉ ERROR_SOURCES)
    by (apply (bool_decide_unpack _); vm_compute; reflexivity).
  unfold get_cutting_errors_sewing_repairs, get_cutting_errors_recut_list,
    get_sewing_errors_sewing_repairs, get_sewing_errors_recut_list.
  auto.
Qed.

Lemma department_filters_empty_witness :
  let df := {| columns := [ "Date"; "Department" ];
               rows := [ {[ "Department" := CStr "Cutting Operator Error" ]};
                         {[ "Department" := CStr "Sewing Operator Error" ]};
                         {[ "Department" := CStr "Unknown" ]} ] |} in
  rows (get_cutting_errors_sewing_repairs df) = []
  /\ rows (get_cutting_errors_recut_list df) = []
  /\ rows (get_sewing_errors_sewing_repairs df) = []
  /\ rows (get_sewing_errors_recut_list df) = [].
Proof.
  intros df. apply (department_filters_empty df).
  - apply (bool_decide_unpack _). vm_compute. reflexivity.
  - repeat constructor.
    + exists "Cutting Operator Error". split; [vm_compute; reflexivity|].
      apply (bool_decide_unpack _). vm_compute. reflexivity.
    + exists "Sewing Operator Error". split; [vm_compute; reflexivity|].
      apply (bool_decide_unpack _). vm_compute. reflexivity.
    + exists "Unknown". split; [vm_compute; reflexivity|].
      apply (bool_decide_unpack _). vm_compute. reflexivity.
Defined.


(** * Further properties *)

(** ** Case conversion and whitespace *)

Section CaseFacts.
Import PyStr.

Ltac all_chars c := destruct c as [[] [] [] [] [] [] [] []]; vm_compute; reflexivity.

Lemma upper_char_idem (c : ascii) : upper_char (upper_char c) = upper_char c.
Proof. all_chars c. Qed.

Lemma lower_char_idem (c : ascii) : lower_char (lower_char c) = lower_char c.
Proof. all_chars c. Qed.

Lemma lower_upper_char (c : ascii) : lower_char (upper_char c) = lower_char c.
Proof. all_chars c. Qed.

Lemma upper_lower_char (c : ascii) : upper_char (lower_char c) = upper_char c.
Proof. all_chars c. Qed.

Lemma is_space_upper_char (c : ascii) : is_space (upper_char c) = is_space c.
Proof. all_chars c. Qed.

Lemma is_space_lower_char (c : ascii) : is_space (lower_char c) = is_space c.
Proof. all_chars c. Qed.

Lemma is_cased_upper_char (c : ascii) : is_cased (upper_char c) = is_cased c.
Proof. all_chars c. Qed.

Lemma is_cased_lower_char (c : ascii) : is_cased (lower_char c) = is_cased c.
Proof. all_chars c. Qed.

Lemma map_chars_compose (f g h : ascii -> ascii) (s : string) :
  (forall c, f (g c) = h c) -> map_chars f (map_chars g s) = map_chars h s.
Proof.
  intros Hc. induction s as [|c s IH]; simpl; [reflexivity|].
  rewrite Hc, IH. reflexivity.
Qed.

Lemma upper_idem (s : string) : upper (upper s) = upper s.
Proof. apply map_chars_compose, upper_char_idem. Qed.

Lemma lower_idem (s : string) : lower (lower s) = lower s.
Proof. apply map_chars_compose, lower_char_idem. Qed.

Lemma lower_upper (s : string) : lower (upper s) = lower s.
Proof. apply map_chars_compose, lower_upper_char. Qed.

Lemma upper_lower (s : string) : upper (lower s) = upper s.
Proof. apply map_chars_compose, upper_lower_char. Qed.

Lemma map_chars_append (f : ascii -> ascii) (s1 s2 : string) :
  map_chars f (s1 +:+ s2) = map_chars f s1 +:+ map_chars f s2.
Proof. induction s1 as [|c s1 IH]; simpl; [reflexivity | rewrite IH; reflexivity]. Qed.

Lemma map_chars_length (f : ascii -> ascii) (s : string) :
  String.length (map_chars f s) = String.length s.
Proof. induction s as [|c s IH]; simpl; [reflexivity | rewrite IH; reflexivity]. Qed.

Lemma lstrip_map_chars (f : ascii -> ascii) (s : string) :
  (forall c, is_space (f c) = is_space c) ->
  lstrip (map_chars f s) = map_chars f (lstrip s).
Proof.
  intros Hf. induction s as [|c s IH]; simpl; [reflexivity|].
  rewrite Hf. destruct (is_space c); [exact IH | reflexivity].
Qed.

Lemma rstrip_map_chars (f : ascii -> ascii) (s : string) :
  (forall c, is_space (f c) = is_space c) ->
  rstrip (map_chars f s) = map_chars f (rstrip s).
Proof.
  intros Hf. induction s as [|c s IH]; simpl; [reflexivity|].
  rewrite IH, Hf. destruct (rstrip s); simpl; [|reflexivity].
  destruct (is_space c); reflexivity.
Qed.

Lemma strip_map_chars (f : ascii -> ascii) (s : string) :
  (forall c, is_space (f c) = is_space c) ->
  strip (map_chars f s) = map_chars f (strip s).
Proof.
  intros Hf. unfold strip.
  rewrite lstrip_map_chars, rstrip_map_chars by exact Hf. reflexivity.
Qed.

Lemma strip_upper (s : string) : strip (upper s) = upper (strip s).
Proof. apply strip_map_chars, is_space_upper_char. Qed.

Lemma strip_lower (s : string) : strip (lower s) = lower (strip s).
Proof. apply strip_map_chars, is_space_lower_char. Qed.

Lemma trimmed_parts (s : string) : trimmed s -> lstrip s = s /\ rstrip s = s.
Proof.
  unfold trimmed, strip. intros H.
  assert (Hl : lstrip s = s).
  { apply lstrip_length_eq. pose proof (rstrip_length (lstrip s)).
    pose proof (lstrip_length s). rewrite H in *. lia. }
  rewrite Hl in H. auto.
Qed.

Lemma lstrip_same_blank (s s' : string) :
  same_blank s s' -> lstrip s = s -> lstrip s' = s'.
Proof.
  destruct s as [|c s], s' as [|c' s']; simpl; try tauto.
  intros [Hc _]. rewrite <- Hc. destruct (is_space c); [|reflexivity].
  intros H. pose proof (lstrip_length s) as Hl. rewrite H in Hl. simpl in Hl. lia.
Qed.

Lemma rstrip_same_blank (s s' : string) :
  same_blank s s' -> rstrip s = s -> rstrip s' = s'.
Proof.
  revert s'. induction s as [|c s IH]; intros [|c' s']; simpl; try tauto.
  intros [Hc Hs]. rewrite <- Hc.
  destruct (rstrip s) as [|d r] eqn:E.
  - destruct (is_space c); [discriminate|]. intros [= <-].
    destruct s'; [reflexivity | contradiction].
  - intros [= <-]. rewrite (IH s' Hs eq_refl).
    destruct s'; [contradiction | reflexivity].
Qed.

Lemma trimmed_same_blank (s s' : string) :
  same_blank s s' -> trimmed s -> trimmed s'.
Proof.
  intros Hb Ht. apply trimmed_parts in Ht as [Hl Hr].
  unfold trimmed, strip. rewrite (lstrip_same_blank s s' Hb Hl).
  apply (rstrip_same_blank s s' Hb Hr).
Qed.

Lemma same_blank_title (b : bool) (s : string) : same_blank s (title_from b s).
Proof.
  revert b. induction s as [|c s IH]; intros b; simpl; [exact I|].
  split; [|apply IH].
  destruct b; [rewrite is_space_lower_char | rewrite is_space_upper_char];
    reflexivity.
Qed.

Lemma same_blank_empty (s s' : string) :
  same_blank s s' -> is_empty s' = is_empty s.
Proof. destruct s, s'; simpl; tauto. Qed.

Lemma title_from_idem (b : bool) (s : string) :
  title_from b (title_from b s) = title_from b s.
Proof.
  revert b. induction s as [|c s IH]; intros b; simpl; [reflexivity|].
  assert (Hc : is_cased (if b then lower_char c else upper_char c) = is_cased c).
  { destruct b; [apply is_cased_lower_char | apply is_cased_upper_char]. }
  rewrite Hc, IH. f_equal.
  destruct b; [apply lower_char_idem | apply upper_char_idem].
Qed.

Lemma title_from_map_chars (f : ascii -> ascii) (b : bool) (s : string) :
  (forall c, lower_char (f c) = lower_char c) ->
  (forall c, upper_char (f c) = upper_char c) ->
  (forall c, is_cased (f c) = is_cased c) ->
  title_from b (map_chars f s) = title_from b s.
Proof.
  intros Hl Hu Hc. revert b. induction s as [|c s IH]; intros b; simpl; [reflexivity|].
  rewrite Hl, Hu, Hc, IH. reflexivity.
Qed.

Lemma title_from_length (b : bool) (s : string) :
  String.length (title_from b s) = String.length s.
Proof.
  revert b. induction s as [|c s IH]; intros b; simpl; [reflexivity|].
  rewrite IH. reflexivity.
Qed.

End CaseFacts.

(** ** Name normalization *)

Section NameFacts.
Import PyStr.

Lemma strip_empty_all_space (s : string) : strip s = "" -> all_space s = true.
Proof.
  unfold strip. intros H.
  assert (Hl : lstrip s = "").
  { pose proof (lstrip_head s) as Hh. destruct (lstrip s) as [|c r]; [reflexivity|].
    destruct (rstrip_head c r Hh) as [r' Hr]. congruence. }
  clear H. induction s as [|c s IH]; simpl in *; [reflexivity|].
  destruct (is_space c); [auto | discriminate].
Qed.

Lemma lower_title_from (b : bool) (s : string) :
  lower (title_from b s) = lower s.
Proof.
  revert b. induction s as [|c s IH]; intros b; unfold lower in *; simpl;
    [reflexivity|].
  rewrite IH. f_equal.
  destruct b; [apply lower_char_idem | apply lower_upper_char].
Qed.

Lemma normalize_name_str (s : string) :
  normalize_name (CStr s) =
  if is_empty (strip s) then None else Some (title (strip s)).
Proof. reflexivity. Qed.

Lemma same_blank_map_chars (f : ascii -> ascii) (s : string) :
  (forall c, is_space (f c) = is_space c) -> same_blank s (map_chars f s).
Proof.
  intros Hf. induction s as [|c s IH]; simpl; [exact I|].
  split; [symmetry; apply Hf | exact IH].
Qed.

Lemma normalize_smo_name_str (s : string) :
  normalize_smo_name (CStr s) =
  Ok (if is_empty (strip s) then None
      else Some (upper (substring 0 2 (strip s))
                 +:+ lower (slice_from (strip s) 2))).
Proof.
  unfold normalize_smo_name.
  destruct (strip s) as [|c [|d rest]]; try reflexivity.
  destruct rest; reflexivity.
Qed.

End NameFacts.

(** X1.  On a missing value or an ASCII string [normalize_name] is
    idempotent: normalizing a normalized name (or the [None] it gave)
    changes nothing. *)
Theorem normalize_name_idempotent (x : cell) :
  ascii_cell x = true ->
  normalize_name (cell_of_result (normalize_name x)) = normalize_name x.
Proof.
  intros _. destruct x as [| |s]; try reflexivity.
  rewrite normalize_name_str.
  destruct (PyStr.is_empty (PyStr.strip s)) eqn:E; [reflexivity|].
  cbn [cell_of_result]. rewrite normalize_name_str. unfold PyStr.title.
  assert (Ht : trimmed (PyStr.title_from false (PyStr.strip s))).
  { apply (trimmed_same_blank (PyStr.strip s)); [apply same_blank_title|].
    apply strip_idem. }
  unfold trimmed in Ht. rewrite Ht.
  rewrite (same_blank_empty _ _ (same_blank_title false (PyStr.strip s))), E.
  rewrite title_from_idem. reflexivity.
Qed.

Lemma normalize_name_idempotent_witness :
  normalize_name (CStr "Mary O'Neil") = normalize_name (CStr " mARY o'neil ").
Proof.
  apply (normalize_name_idempotent (CStr " mARY o'neil ")). reflexivity.
Defined.

(** X2.  [normalize_name] returns [None] exactly on [None], NaN and empty
    or whitespace-only strings.  On an ASCII string that is not blank the
    result is non-empty, has no leading or trailing whitespace, has the
    length of the trimmed input and differs from the trimmed input in the
    case of letters only. *)
Theorem normalize_name_result (x : cell) :
  (normalize_name x = None <->
   x = CNone \/ x = CNaN \/ exists s, x = CStr s /\ all_space s = true)
  /\ (forall s r : string,
        x = CStr s -> is_ascii s = true -> normalize_name x = Some r ->
        r <> "" /\ trimmed r
        /\ String.length r = String.length (PyStr.strip s)
        /\ PyStr.lower r = PyStr.lower (PyStr.strip s)).
Proof.
  split.
  - destruct x as [| |s]; try (split; [auto | reflexivity]).
    rewrite normalize_name_str. split.
    + destruct (PyStr.is_empty (PyStr.strip s)) eqn:E; [|discriminate].
      intros _. right. right. exists s. split; [reflexivity|].
      apply strip_empty_all_space, is_empty_true. exact E.
    + intros [H | [H | (s' & [= <-] & H)]]; try discriminate.
      rewrite (all_space_strip s H). reflexivity.
  - intros s r -> _ H. rewrite normalize_name_str in H.
    destruct (PyStr.is_empty (PyStr.strip s)) eqn:E; [discriminate|].
    injection H as <-. unfold PyStr.title.
    pose proof (same_blank_title false (PyStr.strip s)) as Hb.
    split; [|split; [|split]].
    + apply is_empty_false. rewrite (same_blank_empty _ _ Hb). exact E.
    + apply (trimmed_same_blank _ _ Hb), strip_idem.
    + apply title_from_length.
    + apply lower_title_from.
Qed.

Lemma normalize_name_result_witness :
  normalize_name (CStr " mARY o'neil ") = Some "Mary O'Neil"
  /\ String.length "Mary O'Neil" = String.length (PyStr.strip " mARY o'neil ").
Proof.
  destruct (normalize_name_result (CStr " mARY o'neil ")) as [_ H].
  assert (E : normalize_name (CStr " mARY o'neil ") = Some "Mary O'Neil")
    by (vm_compute; reflexivity).
  split; [exact E|].
  apply (H " mARY o'neil " "Mary O'Neil" eq_refl eq_refl E).
Defined.

(** X3.  On ASCII strings [normalize_name] does not depend on the case of
    its input: the uppercased and the lowercased string normalize as the
    string itself. *)
Theorem normalize_name_case_insensitive (s : string) :
  is_ascii s = true ->
  normalize_name (CStr (PyStr.upper s)) = normalize_name (CStr s)
  /\ normalize_name (CStr (PyStr.lower s)) = normalize_name (CStr s).
Proof.
  intros _. rewrite !normalize_name_str, strip_upper, strip_lower. split.
  - rewrite <- (same_blank_empty _ _ (same_blank_map_chars PyStr.upper_char
                                        (PyStr.strip s) is_space_upper_char)).
    unfold PyStr.upper at 1.
    destruct (PyStr.is_empty (PyStr.map_chars PyStr.upper_char (PyStr.strip s)));
      [reflexivity|].
    unfold PyStr.title, PyStr.upper. rewrite title_from_map_chars; [reflexivity|..].
    + apply lower_upper_char.
    + apply upper_char_idem.
    + apply is_cased_upper_char.
  - rewrite <- (same_blank_empty _ _ (same_blank_map_chars PyStr.lower_char
                                        (PyStr.strip s) is_space_lower_char)).
    unfold PyStr.lower at 1.
    destruct (PyStr.is_empty (PyStr.map_chars PyStr.lower_char (PyStr.strip s)));
      [reflexivity|].
    unfold PyStr.title, PyStr.lower. rewrite title_from_map_chars; [reflexivity|..].
    + apply lower_char_idem.
    + apply upper_lower_char.
    + apply is_cased_lower_char.
Qed.

Lemma normalize_name_case_insensitive_witness :
  normalize_name (CStr (PyStr.upper " mARY o'neil "))
  = normalize_name (CStr " mARY o'neil ")
  /\ normalize_name (CStr (PyStr.lower " mARY o'neil "))
     = normalize_name (CStr " mARY o'neil ").
Proof. apply (normalize_name_case_insensitive " mARY o'neil "). reflexivity. Defined.

(** X4.  [normalize_smo_name] never raises, and returns [None] exactly on
    [None], NaN and blank strings.  On an ASCII string that is not blank it
    returns the trimmed string with its first two characters uppercased and
    the others lowercased. *)
Theorem normalize_smo_name_spec (x : cell) :
  (exists r, normalize_smo_name x = Ok r)
  /\ (normalize_smo_name x = Ok None <->
      x = CNone \/ x = CNaN \/ exists s, x = CStr s /\ all_space s = true)
  /\ (forall s : string,
        x = CStr s -> is_ascii s = true -> PyStr.strip s <> "" ->
        normalize_smo_name x =
        Ok (Some (PyStr.upper (substring 0 2 (PyStr.strip s))
                  +:+ PyStr.lower (PyStr.slice_from (PyStr.strip s) 2)))).
Proof.
  split; [|split].
  - destruct x as [| |s]; try (eexists; reflexivity).
    rewrite normalize_smo_name_str. eexists. reflexivity.
  - destruct x as [| |s]; try (split; [auto | reflexivity]).
    rewrite normalize_smo_name_str. split.
    + destruct (PyStr.is_empty (PyStr.strip s)) eqn:E; [|discriminate].
      intros _. right. right. exists s. split; [reflexivity|].
      apply strip_empty_all_space, is_empty_true. exact E.
    + intros [H | [H | (s' & [= <-] & H)]]; try discriminate.
      rewrite (all_space_strip s H). reflexivity.
  - intros s -> _ Hne. rewrite normalize_smo_name_str.
    apply is_empty_false in Hne. rewrite Hne. reflexivity.
Qed.

Lemma normalize_smo_name_spec_witness :
  normalize_smo_name (CStr " jFERNANDEZ ") = Ok (Some "JFernandez").
Proof.
  apply (proj2 (proj2 (normalize_smo_name_spec (CStr " jFERNANDEZ ")))
               " jFERNANDEZ " eq_refl eq_refl).
  vm_compute. discriminate.
Defined.

(** X5.  On a missing value or an ASCII string [normalize_smo_name] is
    idempotent and does not depend on the case of its input. *)
Theorem normalize_smo_name_idempotent (x : cell) :
  ascii_cell x = true ->
  (forall r, normalize_smo_name x = Ok r ->
             normalize_smo_name (cell_of_result r) = Ok r)
  /\ (forall s, x = CStr s ->
                normalize_smo_name (CStr (PyStr.upper s)) = normalize_smo_name x
                /\ normalize_smo_name (CStr (PyStr.lower s)) = normalize_smo_name x).
Proof.
  intros _. split.
  - intros r. destruct x as [| |s]; try (intros [= <-]; reflexivity).
    rewrite normalize_smo_name_str. intros [= <-].
    pose proof (strip_idem s) as Hs.
    destruct (PyStr.strip s) as [|c t] eqn:E; [reflexivity|].
    cbn [PyStr.is_empty cell_of_result]. rewrite normalize_smo_name_str.
    set (r := PyStr.upper (substring 0 2 (String c t))
              +:+ PyStr.lower (PyStr.slice_from (String c t) 2)).
    assert (Hb : same_blank (String c t) r).
    { subst r. unfold PyStr.upper, PyStr.lower.
      destruct t as [|d [|e t]]; simpl;
        rewrite ?is_space_upper_char, ?is_space_lower_char; auto.
      repeat split.
      apply (same_blank_map_chars PyStr.lower_char), is_space_lower_char. }
    pose proof (trimmed_same_blank _ _ Hb Hs) as Hr. unfold trimmed in Hr.
    rewrite Hr. rewrite (same_blank_empty _ _ Hb). cbn [PyStr.is_empty].
    do 2 f_equal. subst r. unfold PyStr.upper, PyStr.lower.
    destruct t as [|d [|e t]]; simpl;
      rewrite ?upper_char_idem, ?lower_char_idem; try reflexivity.
    rewrite (map_chars_compose _ _ _ t lower_char_idem). reflexivity.
  - intros s ->. rewrite !normalize_smo_name_str, strip_upper, strip_lower.
    unfold PyStr.upper, PyStr.lower.
    split; f_equal.
    + destruct (PyStr.strip s) as [|c [|d [|e t]]]; simpl;
        rewrite ?upper_char_idem, ?lower_upper_char; try reflexivity.
      rewrite (map_chars_compose _ _ _ t lower_upper_char). reflexivity.
    + destruct (PyStr.strip s) as [|c [|d [|e t]]]; simpl;
        rewrite ?upper_lower_char, ?lower_char_idem; try reflexivity.
      rewrite (map_chars_compose _ _ _ t lower_char_idem). reflexivity.
Qed.

Lemma normalize_smo_name_idempotent_witness :
  normalize_smo_name (CStr "JFERNANDEZ") = Ok (Some "JFernandez")
  /\ normalize_smo_name (CStr "JFernandez") = Ok (Some "JFernandez")
  /\ normalize_smo_name (CStr (PyStr.lower "JFERNANDEZ")) = Ok (Some "JFernandez").
Proof.
  assert (E : normalize_smo_name (CStr "JFERNANDEZ") = Ok (Some "JFernandez"))
    by (vm_compute; reflexivity).
  destruct (normalize_smo_name_idempotent (CStr "JFERNANDEZ") eq_refl) as [H1 H2].
  split; [exact E|]. split.
  - apply (H1 (Some "JFernandez") E).
  - rewrite <- E. apply (H2 "JFERNANDEZ" eq_refl).
Defined.

(** ** The Scheme B classifier as a lookup up to case *)

Section RecutLookupFacts.
Import PyStr.

Lemma dict_of_items_fold_contains (items : list (string * string))
      (m : gmap string string) (k : string) :
  (exists v, (k, v) ∈ items) \/ is_Some (m !! k) ->
  is_Some (fold_left (fun m kv => <[kv.1 := kv.2]> m) items m !! k).
Proof.
  revert m. induction items as [|[k' v'] items IH]; intros m; simpl.
  - intros [[v H]|H]; [inversion H | exact H].
  - intros [[v H]|H]; apply IH.
    + apply elem_of_cons in H as [[= -> ->]|H].
      * right. rewrite lookup_insert_eq. eauto.
      * left. eauto.
    + right. destruct (decide (k' = k)) as [->|Hne].
      * rewrite lookup_insert_eq. eauto.
      * rewrite lookup_insert_ne by exact Hne. exact H.
Qed.

Lemma dict_of_items_contains (items : list (string * string)) (k v : string) :
  (k, v) ∈ items -> dict_contains (dict_of_items items) k = true.
Proof.
  intros H. unfold dict_contains, dict_of_items.
  destruct (dict_of_items_fold_contains items ∅ k) as [d ->]; eauto.
Qed.

Lemma recut_lower_values_consistent (kv1 kv2 : string * string) :
  kv1 ∈ RECUT_LIST_DEPT_MAP_items -> kv2 ∈ RECUT_LIST_DEPT_MAP_items ->
  lower kv1.1 = lower kv2.1 -> kv1.2 = kv2.2.
Proof.
  assert (H : forallb (fun a => forallb (fun b =>
                implb (String.eqb (lower a.1) (lower b.1)) (String.eqb a.2 b.2))
              RECUT_LIST_DEPT_MAP_items) RECUT_LIST_DEPT_MAP_items = true)
    by (vm_compute; reflexivity).
  rewrite forallb_forall in H. intros H1 H2 Hl.
  apply list_elem_of_In in H1, H2.
  specialize (H kv1 H1). rewrite forallb_forall in H. specialize (H kv2 H2).
  apply String.eqb_eq in Hl. rewrite Hl in H. apply String.eqb_eq. exact H.
Qed.

Lemma recut_lower_loop_Some (code v : string) :
  recut_lower_loop code = Some v ->
  exists k, (k, v) ∈ RECUT_LIST_DEPT_MAP_items /\ lower k = lower code.
Proof.
  unfold recut_lower_loop.
  destruct (find _ RECUT_LIST_DEPT_MAP_items) as [[k v']|] eqn:E; [|discriminate].
  intros [= <-]. apply find_some in E as [Hin Heq].
  exists k. split; [apply list_elem_of_In; exact Hin|].
  apply String.eqb_eq. exact Heq.
Qed.

Lemma recut_lower_loop_None (code k v : string) :
  recut_lower_loop code = None ->
  (k, v) ∈ RECUT_LIST_DEPT_MAP_items -> lower k <> lower code.
Proof.
  unfold recut_lower_loop.
  destruct (find _ RECUT_LIST_DEPT_MAP_items) as [kv|] eqn:E; [discriminate|].
  intros _ Hin Heq. apply list_elem_of_In in Hin.
  pose proof (find_none _ _ E _ Hin) as Hf. simpl in Hf.
  apply String.eqb_neq in Hf. contradiction.
Qed.

Lemma recut_lower_dict_contains (code k v : string) :
  (k, v) ∈ RECUT_LIST_DEPT_MAP_items -> lower k = lower code ->
  dict_contains RECUT_LIST_DEPT_MAP_lower (lower code) = true.
Proof.
  intros Hin <-. unfold RECUT_LIST_DEPT_MAP_lower.
  apply (dict_of_items_contains _ (lower k) v).
  apply list_elem_of_fmap. exists (k, v). auto.
Qed.

Lemma recut_code_lookup (s : string) :
  get_department_from_recut_code (CStr s) =
  match recut_lower_loop (strip s) with
  | Some v => Ok v
  | None => recut_first_char (strip s)
  end.
Proof.
  rewrite recut_code_str.
  destruct (dict_contains RECUT_LIST_DEPT_MAP (strip s)) eqn:E.
  - apply dict_contains_getitem in E as (d & Hd & ->).
    apply dict_of_items_lookup in Hd.
    destruct (recut_lower_loop (strip s)) as [v|] eqn:El.
    + apply recut_lower_loop_Some in El as (k & Hk & Hl).
      f_equal. apply (recut_lower_values_consistent (strip s, d) (k, v)); auto.
    + exfalso. apply (recut_lower_loop_None _ _ _ El Hd). reflexivity.
  - destruct (dict_contains RECUT_LIST_DEPT_MAP_lower (lower (strip s))) eqn:E2;
      [reflexivity|].
    destruct (recut_lower_loop (strip s)) as [v|] eqn:El; [|reflexivity].
    apply recut_lower_loop_Some in El as (k & Hk & Hl).
    pose proof (recut_lower_dict_contains _ _ _ Hk Hl) as Hc. congruence.
Qed.

End RecutLookupFacts.

Section RecutCaseFacts.
Import PyStr.

Lemma prefix_empty (s : string) : String.prefix "" s = true.
Proof. destruct s; reflexivity. Qed.

Lemma startswith_char (x a : ascii) (r : string) :
  startswith (String x "") (String a r) = Ascii.eqb x a.
Proof.
  unfold startswith. simpl. destruct (ascii_dec x a) as [->|Hne].
  - rewrite prefix_empty, Ascii.eqb_refl. reflexivity.
  - symmetry. apply Ascii.eqb_neq. exact Hne.
Qed.

Lemma contains_char (c : ascii) (s : string) :
  contains (String c "") s = has_char c s.
Proof.
  induction s as [|a s IH]; [reflexivity|].
  change (contains (String c "") (String a s))
    with (startswith (String c "") (String a s) || contains (String c "") s).
  rewrite startswith_char, IH. simpl. rewrite (Ascii.eqb_sym c a). reflexivity.
Qed.

Lemma has_char_map_chars (f : ascii -> ascii) (x : ascii) (s : string) :
  (forall c, Ascii.eqb (f c) x = Ascii.eqb c x) ->
  has_char x (map_chars f s) = has_char x s.
Proof.
  intros Hf. induction s as [|a s IH]; simpl; [reflexivity|].
  rewrite Hf, IH. reflexivity.
Qed.

Lemma star_upper_char (c : ascii) : Ascii.eqb (upper_char c) "*" = Ascii.eqb c "*".
Proof. destruct c as [[] [] [] [] [] [] [] []]; vm_compute; reflexivity. Qed.

Lemma star_lower_char (c : ascii) : Ascii.eqb (lower_char c) "*" = Ascii.eqb c "*".
Proof. destruct c as [[] [] [] [] [] [] [] []]; vm_compute; reflexivity. Qed.

Lemma recut_lower_loop_caseless (code code' : string) :
  lower code' = lower code -> recut_lower_loop code' = recut_lower_loop code.
Proof. unfold recut_lower_loop. intros ->. reflexivity. Qed.

Lemma recut_first_char_caseless (f : ascii -> ascii) (code : string) :
  (forall c, upper_char (f c) = upper_char c) ->
  (forall c, Ascii.eqb (f c) "*" = Ascii.eqb c "*") ->
  recut_first_char (map_chars f code) = recut_first_char code.
Proof.
  intros Hu Hs. unfold recut_first_char.
  assert (Hp : forall fc, recut_code_patterns fc (map_chars f code)
                          = recut_code_patterns fc code).
  { intros fc. unfold recut_code_patterns.
    rewrite !contains_char, (has_char_map_chars f "*" code Hs).
    unfold upper. rewrite (map_chars_compose _ _ upper_char code Hu). reflexivity. }
  destruct code as [|c code]; simpl; [apply (f_equal Ok), (Hp "")|].
  assert (Hc : upper (String (f c) "") = upper (String c "")).
  { unfold upper. simpl. rewrite Hu. reflexivity. }
  rewrite Hc. f_equal. apply (Hp _).
Qed.

Lemma upper_of_lower_eq (k code : string) :
  lower k = lower code -> upper k = upper code.
Proof. intros H. rewrite <- (upper_lower k), <- (upper_lower code), H. reflexivity. Qed.

End RecutCaseFacts.

(** X6.  [get_department_from_recut_code] finds every entry of
    [RECUT_LIST_DEPT_MAP] whatever the case and the surrounding blanks of the
    code: a code whose trimmed and lowercased form is the lowercased form
    of a table key gets that key's department; and an ASCII code for which
    there is no such key is decided by the first-character rule alone. *)
Theorem recut_code_table_caseless (s : string) :
  (forall k v, (k, v) ∈ RECUT_LIST_DEPT_MAP_items ->
               PyStr.lower (PyStr.strip s) = PyStr.lower k ->
               get_department_from_recut_code (CStr s) = Ok v)
  /\ (is_ascii s = true ->
      (forall k v, (k, v) ∈ RECUT_LIST_DEPT_MAP_items ->
                   PyStr.lower (PyStr.strip s) <> PyStr.lower k) ->
      get_department_from_recut_code (CStr s) = recut_first_char (PyStr.strip s)).
Proof.
  rewrite recut_code_lookup. split.
  - intros k v Hin Hl.
    destruct (recut_lower_loop (PyStr.strip s)) as [v'|] eqn:El.
    + apply recut_lower_loop_Some in El as (k' & Hk' & Hl').
      f_equal. apply (recut_lower_values_consistent (k', v') (k, v)); auto.
      simpl. congruence.
    + exfalso. apply (recut_lower_loop_None _ _ _ El Hin). congruence.
  - intros _ Hno.
    destruct (recut_lower_loop (PyStr.strip s)) as [v'|] eqn:El; [|reflexivity].
    apply recut_lower_loop_Some in El as (k' & Hk' & Hl').
    exfalso. apply (Hno _ _ Hk'). congruence.
Qed.

(** X7.  On ASCII codes [get_department_from_recut_code] does not depend
    on the case of the code: the uppercased and the lowercased code are
    classified as the code itself. *)
Theorem recut_code_case_insensitive (s : string) :
  is_ascii s = true ->
  get_department_from_recut_code (CStr (PyStr.upper s))
  = get_department_from_recut_code (CStr s)
  /\ get_department_from_recut_code (CStr (PyStr.lower s))
     = get_department_from_recut_code (CStr s).
Proof.
  intros _. rewrite !recut_code_lookup, strip_upper, strip_lower. split.
  - rewrite (recut_lower_loop_caseless (PyStr.strip s) (PyStr.upper (PyStr.strip s)))
      by apply lower_upper.
    unfold PyStr.upper at 1.
    rewrite (recut_first_char_caseless PyStr.upper_char);
      [reflexivity | apply upper_char_idem | apply star_upper_char].
  - rewrite (recut_lower_loop_caseless (PyStr.strip s) (PyStr.lower (PyStr.strip s)))
      by apply lower_idem.
    unfold PyStr.lower at 1.
    rewrite (recut_first_char_caseless PyStr.lower_char);
      [reflexivity | apply upper_lower_char | apply star_lower_char].
Qed.

Lemma recut_code_case_insensitive_witness :
  get_department_from_recut_code (CStr (PyStr.upper " ams: jam"))
  = get_department_from_recut_code (CStr " ams: jam")
  /\ get_department_from_recut_code (CStr (PyStr.lower " ams: jam"))
     = get_department_from_recut_code (CStr " ams: jam").
Proof. apply (recut_code_case_insensitive " ams: jam"). reflexivity. Defined.

Lemma recut_code_table_caseless_witness :
  get_department_from_recut_code (CStr "  b: WRONG material cut ")
  = Ok "Cutting Operator Error".
Proof.
  apply (proj1 (recut_code_table_caseless "  b: WRONG material cut ")
               "B: Wrong Material Cut" "Cutting Operator Error").
  - apply list_elem_of_In. vm_compute. tauto.
  - vm_compute. reflexivity.
Defined.

Section RecutFirstLetter.
Import PyStr.

(** The four facts that relate a department [d] to the first letter of an
    uppercased code [t], as one boolean. *)
Let first_letter (d t : string) : bool :=
  Bool.eqb (String.eqb d "Cutting Operator Error")
           (startswith "B" t || startswith "C" t || startswith "F" t)
  && Bool.eqb (String.eqb d "Material Defect") (startswith "D" t)
  && Bool.eqb (String.eqb d "Cutting Machine Error") (startswith "L" t)
  && implb (String.eqb d "Sewing Operator Error"
            || String.eqb d "Sewing Machine Error"
            || String.eqb d "Other Machine Error")
           (startswith "A" t).

Lemma recut_items_first_letter (k v : string) :
  (k, v) ∈ RECUT_LIST_DEPT_MAP_items -> first_letter v (upper k) = true.
Proof.
  assert (H : forallb (fun kv => first_letter kv.2 (upper kv.1))
                      RECUT_LIST_DEPT_MAP_items = true)
    by (vm_compute; reflexivity).
  rewrite forallb_forall in H. intros Hin. apply list_elem_of_In in Hin.
  apply (H (k, v) Hin).
Qed.

Lemma recut_patterns_first_letter (b1 b2 : bool) (u : ascii) (r : string) :
  first_letter
    (if String.eqb (String u "") "A" && b1 then "Other Machine Error"
     else if String.eqb (String u "") "A" && b2 then "Sewing Machine Error"
     else if String.eqb (String u "") "A" then "Sewing Operator Error"
     else if String.eqb (String u "") "B" then "Cutting Operator Error"
     else if String.eqb (String u "") "C" then "Cutting Operator Error"
     else if String.eqb (String u "") "D" then "Material Defect"
     else if String.eqb (String u "") "E" then "Other"
     else if String.eqb (String u "") "F" then "Cutting Operator Error"
     else if String.eqb (String u "") "L" then "Cutting Machine Error"
     else if String.eqb (String u "") "P" then "Other"
     else "Other")
    (String u r) = true.
Proof.
  unfold first_letter. rewrite !startswith_char.
  destruct b1, b2; destruct u as [[] [] [] [] [] [] [] []]; vm_compute; reflexivity.
Qed.

Lemma first_letter_of_recut_code_bool (s d : string) :
  get_department_from_recut_code (CStr s) = Ok d ->
  first_letter d (upper (strip s)) = true.
Proof.
  rewrite recut_code_lookup.
  destruct (recut_lower_loop (strip s)) as [v|] eqn:El.
  - intros [= <-]. apply recut_lower_loop_Some in El as (k & Hk & Hl).
    rewrite <- (upper_of_lower_eq _ _ Hl). apply recut_items_first_letter, Hk.
  - unfold recut_first_char. destruct (strip s) as [|c r]; simpl.
    + intros [= <-]. vm_compute. reflexivity.
    + intros [= <-]. unfold upper. simpl.
      apply (recut_patterns_first_letter _ _ (upper_char c)).
Qed.

Lemma first_letter_of_recut_code (s d : string) :
  get_department_from_recut_code (CStr s) = Ok d ->
  let t := upper (strip s) in
  (d = "Cutting Operator Error" <->
   startswith "B" t = true \/ startswith "C" t = true \/ startswith "F" t = true)
  /\ (d = "Material Defect" <-> startswith "D" t = true)
  /\ (d = "Cutting Machine Error" <-> startswith "L" t = true)
  /\ (d ∈ ["Sewing Operator Error"; "Sewing Machine Error"; "Other Machine Error"]
      -> startswith "A" t = true).
Proof.
  intros H t. apply first_letter_of_recut_code_bool in H. fold t in H.
  unfold first_letter in H.
  apply andb_true_iff in H as [H HA]. apply andb_true_iff in H as [H HL].
  apply andb_true_iff in H as [HC HD].
  apply Bool.eqb_prop in HC, HD, HL.
  repeat split.
  - intros ->. rewrite String.eqb_refl in HC. symmetry in HC.
    apply orb_true_iff in HC as [HC|HC]; [apply orb_true_iff in HC|]; tauto.
  - intros Hs. apply String.eqb_eq. rewrite HC.
    destruct Hs as [->|[->| ->]]; rewrite ?orb_true_r; reflexivity.
  - intros ->. rewrite <- HD. apply String.eqb_refl.
  - intros Hs. apply String.eqb_eq. rewrite HD. exact Hs.
  - intros ->. rewrite <- HL. apply String.eqb_refl.
  - intros Hs. apply String.eqb_eq. rewrite HL. exact Hs.
  - intros Hin. rewrite !elem_of_cons in Hin.
    destruct Hin as [->|[->|[->|Hin]]]; [exact HA..|].
    apply elem_of_nil in Hin. contradiction.
Qed.

End RecutFirstLetter.

(** X8.  The first letter decides the department of an ASCII recut code
    whenever the letter is not A: [get_department_from_recut_code] answers
    "Cutting Operator Error" exactly for the codes that start, once trimmed
    and uppercased, with B, C or F, "Material Defect" exactly for those that
    start with D and "Cutting Machine Error" exactly for those that start
    with L; the three sewing and other-machine departments are only given to
    codes that start with A. *)
Theorem recut_code_first_letter (s d : string) :
  is_ascii s = true ->
  get_department_from_recut_code (CStr s) = Ok d ->
  (d = "Cutting Operator Error" <->
   PyStr.startswith "B" (PyStr.upper (PyStr.strip s)) = true
   \/ PyStr.startswith "C" (PyStr.upper (PyStr.strip s)) = true
   \/ PyStr.startswith "F" (PyStr.upper (PyStr.strip s)) = true)
  /\ (d = "Material Defect" <->
      PyStr.startswith "D" (PyStr.upper (PyStr.strip s)) = true)
  /\ (d = "Cutting Machine Error" <->
      PyStr.startswith "L" (PyStr.upper (PyStr.strip s)) = true)
  /\ (d ∈ ["Sewing Operator Error"; "Sewing Machine Error"; "Other Machine Error"]
      -> PyStr.startswith "A" (PyStr.upper (PyStr.strip s)) = true).
Proof. intros _ H. exact (first_letter_of_recut_code s d H). Qed.

Lemma recut_code_first_letter_witness :
  "Cutting Operator Error" = "Cutting Operator Error" <->
  PyStr.startswith "B" (PyStr.upper (PyStr.strip " f: cut short")) = true
  \/ PyStr.startswith "C" (PyStr.upper (PyStr.strip " f: cut short")) = true
  \/ PyStr.startswith "F" (PyStr.upper (PyStr.strip " f: cut short")) = true.
Proof.
  apply (recut_code_first_letter " f: cut short" "Cutting Operator Error").
  - reflexivity.
  - vm_compute. reflexivity.
Defined.

Section PrefixFacts.
Import PyStr.

Lemma has_char_app_sep (c : ascii) (p rest : string) :
  has_char c (p +:+ String c rest) = true.
Proof.
  induction p as [|a p IH]; simpl.
  - rewrite Ascii.eqb_refl. reflexivity.
  - rewrite IH. apply orb_true_r.
Qed.

Lemma split_head_app (sep : ascii) (p q : string) :
  has_char sep p = false ->
  exists h t, split sep q = h :: t /\ split sep (p +:+ q) = (p +:+ h) :: t.
Proof.
  intros Hp. induction p as [|c p IH]; simpl.
  - pose proof (split_nonempty sep q) as Hne.
    destruct (split sep q) as [|h t] eqn:E; [congruence|].
    exists h, t. split; [reflexivity | exact E].
  - simpl in Hp. apply orb_false_iff in Hp as [Hc Hp].
    destruct (IH Hp) as (h & t & Hq & Hs). exists h, t.
    rewrite Hc, Hs. auto.
Qed.

Lemma sewing_keys_plain (k v : string) :
  (k, v) ∈ SEWING_REPAIRS_DEPT_MAP_items ->
  has_char " " k = false /\ has_char "-" k = false /\ has_space k = false.
Proof.
  assert (H : forallb (fun kv => negb (has_char " " kv.1)
                                 && negb (has_char "-" kv.1)
                                 && negb (has_space kv.1))
                      SEWING_REPAIRS_DEPT_MAP_items = true)
    by (vm_compute; reflexivity).
  rewrite forallb_forall in H. intros Hin. apply list_elem_of_In in Hin.
  specialize (H _ Hin). simpl in H.
  apply andb_true_iff in H as [H H3]. apply andb_true_iff in H as [H1 H2].
  apply negb_true_iff in H1, H2, H3. auto.
Qed.

Lemma sewing_not_key (sep : ascii) (p rest : string) :
  sep = " "%char \/ sep = "-"%char ->
  dict_contains SEWING_REPAIRS_DEPT_MAP (p +:+ String sep rest) = false.
Proof.
  intros Hsep.
  destruct (dict_contains SEWING_REPAIRS_DEPT_MAP (p +:+ String sep rest)) eqn:E;
    [|reflexivity].
  apply dict_contains_getitem in E as (d & Hd & _).
  apply dict_of_items_lookup, sewing_keys_plain in Hd as (H1 & H2 & _).
  pose proof (has_char_app_sep sep p rest) as Hc.
  destruct Hsep as [-> | ->]; congruence.
Qed.

Lemma extract_prefix_head (sep : ascii) (k rest : string) :
  sep = " "%char \/ sep = "-"%char ->
  has_char " " k = false -> has_char "-" k = false -> has_space k = false ->
  extract_prefix (k +:+ String sep rest) = Ok k.
Proof.
  intros Hsep H1 H2 H3. unfold extract_prefix.
  assert (Hk : strip k = k) by apply (has_space_trimmed k H3).
  destruct Hsep as [-> | ->].
  - pose proof (split_app " " k rest H1) as Hs.
    change (split " " (k +:+ String " " rest) = k :: split " " rest) in Hs.
    rewrite Hs.
    unfold list_getitem at 1. cbn [lookup list_lookup rbind].
    rewrite (split_single "-" k H2).
    unfold list_getitem. cbn [lookup list_lookup rbind]. rewrite Hk. reflexivity.
  - destruct (split_head_app " " k (String "-" rest) H1) as (h & t & Hq & Hs).
    rewrite Hs. unfold list_getitem at 1. cbn [lookup list_lookup rbind].
    simpl in Hq.
    pose proof (split_nonempty " " rest) as Hne.
    destruct (split " " rest) as [|h0 t0]; [congruence|].
    injection Hq as <- <-.
    pose proof (split_app "-" k h0 H2) as Hs2.
    change (split "-" (k +:+ String "-" h0) = k :: split "-" h0) in Hs2.
    rewrite Hs2.
    unfold list_getitem. cbn [lookup list_lookup rbind]. rewrite Hk. reflexivity.
Qed.

Lemma prefix_lookup_of_reason_code (s k v rest : string) (sep : ascii) :
  SEWING_REPAIRS_DEPT_MAP !! k = Some v ->
  sep = " "%char \/ sep = "-"%char ->
  strip s = k +:+ String sep rest ->
  get_department_from_reason_code (CStr s) = Ok v.
Proof.
  intros Hk Hsep Hs. rewrite reason_code_str, Hs.
  destruct (dict_contains SEWING_REPAIRS_DEPT_MAP (k +:+ String sep rest)) eqn:E.
  - rewrite (sewing_not_key sep k rest Hsep) in E. discriminate.
  - pose proof (dict_of_items_lookup _ _ _ Hk) as Hin.
    apply sewing_keys_plain in Hin as (H1 & H2 & H3).
    rewrite (extract_prefix_head sep k rest Hsep H1 H2 H3). unfold rbind.
    destruct (dict_lookup_contains _ _ _ Hk) as [Hc Hg].
    destruct (dict_contains SEWING_REPAIRS_DEPT_MAP k); [exact Hg | discriminate].
Qed.

End PrefixFacts.

(** X9.  Prefix extraction in [get_department_from_reason_code]: a reason
    code whose trimmed form is a key of [SEWING_REPAIRS_DEPT_MAP] followed
    by a space or a hyphen and any text is given the department of that
    key, whatever the text is. *)
Theorem reason_code_prefix (s k v rest : string) (sep : ascii) :
  SEWING_REPAIRS_DEPT_MAP !! k = Some v ->
  sep = " "%char \/ sep = "-"%char ->
  PyStr.strip s = k +:+ String sep rest ->
  get_department_from_reason_code (CStr s) = Ok v.
Proof. apply prefix_lookup_of_reason_code. Qed.

Lemma reason_code_prefix_witness :
  get_department_from_reason_code (CStr "A1A - Cutting Operator: Cutting Error ")
  = Ok "Cutting Operator Error"
  /\ get_department_from_reason_code (CStr " B2-AMS jam")
     = Ok "Sewing Machine Error".
Proof.
  split.
  - apply (reason_code_prefix _ "A1A" _ "- Cutting Operator: Cutting Error" " ").
    + vm_compute. reflexivity.
    + left. reflexivity.
    + vm_compute. reflexivity.
  - apply (reason_code_prefix _ "B2" _ "AMS jam" "-").
    + vm_compute. reflexivity.
    + right. reflexivity.
    + vm_compute. reflexivity.
Defined.

(** ** Cell normalization and the filters *)

Section LoaderFacts.
Import PyStr.

Lemma upper_fixed (s t : string) : upper s = t -> upper t = t.
Proof. intros <-. apply upper_idem. Qed.

Lemma repair_discovered_replace_upper (s : string) :
  repair_discovered_replace (CStr (upper s)) = CStr (upper s).
Proof.
  unfold repair_discovered_replace.
  destruct (REPAIR_DISCOVERED_REPLACE !! upper s) as [v|] eqn:E; [|reflexivity].
  apply dict_of_items_lookup in E.
  repeat (apply elem_of_cons in E as [E|E]); try (apply elem_of_nil in E; contradiction);
    injection E as Hs ->; try (rewrite Hs; reflexivity);
    apply upper_fixed in Hs; vm_compute in Hs; discriminate.
Qed.

Lemma prefix_refl (s : string) : String.prefix s s = true.
Proof.
  induction s as [|c s IH]; simpl; [reflexivity|].
  destruct (ascii_dec c c); [exact IH | contradiction].
Qed.

Lemma prefix_app_l (u x t : string) :
  String.prefix (u +:+ x) t = true -> String.prefix u t = true.
Proof.
  revert t. induction u as [|c u IH]; intros t; [intros _; apply prefix_empty|].
  destruct t as [|d t]; simpl; [discriminate|].
  destruct (ascii_dec c d); [apply IH | discriminate].
Qed.

Lemma prefix_trans (u v t : string) :
  String.prefix u v = true -> String.prefix v t = true -> String.prefix u t = true.
Proof.
  revert v t. induction u as [|c u IH]; intros v t;
    [intros _ _; apply prefix_empty|].
  destruct v as [|d v]; [simpl; discriminate|].
  destruct t as [|e t]; [simpl; intros _ H; discriminate H|].
  simpl. destruct (ascii_dec c d) as [->|]; [|discriminate].
  destruct (ascii_dec d e) as [->|]; [apply IH | intros _ H; discriminate H].
Qed.

Lemma matches_loop_existsb (code_str : string) (codes : list string) :
  matches_loop code_str codes
  = existsb (fun c => startswith (upper c) code_str) codes.
Proof.
  induction codes as [|c codes IH]; [reflexivity|].
  cbn [matches_loop existsb]. rewrite <- IH.
  destruct (startswith (upper c) code_str) eqn:E.
  - destruct (_ || _ || _); reflexivity.
  - assert (H1 : String.eqb code_str (upper c) = false).
    { destruct (String.eqb_spec code_str (upper c)) as [Heq|]; [|reflexivity].
      unfold startswith in E. rewrite Heq, prefix_refl in E. discriminate. }
    assert (H2 : forall x, startswith (upper c +:+ x) code_str = false).
    { intros x. destruct (startswith (upper c +:+ x) code_str) eqn:E2; [|reflexivity].
      apply prefix_app_l in E2. unfold startswith in E. congruence. }
    rewrite H1, !H2. reflexivity.
Qed.

Lemma matches_any_code_iff (codes : list string) (code : cell) :
  matches_any_code codes code = true <->
  exists s c, code = CStr s /\ c ∈ codes
              /\ startswith (upper c) (upper (strip s)) = true.
Proof.
  destruct code as [| |s]; simpl.
  - split; [discriminate | intros (s & c & H & _); discriminate].
  - split; [discriminate | intros (s & c & H & _); discriminate].
  - rewrite matches_loop_existsb, existsb_exists. split.
    + intros (c & Hin & Hc). exists s, c.
      split; [reflexivity|]. split; [apply list_elem_of_In; exact Hin | exact Hc].
    + intros (s' & c & [= <-] & Hin & Hc). exists c.
      split; [apply list_elem_of_In; exact Hin | exact Hc].
Qed.

End LoaderFacts.

(** X10.  The 'Repair Discovered' cell that [load_sewing_repairs] stores
    is the trimmed uppercase form of the raw value: the replacement table
    applied afterwards never changes a cell (its keys 'Qc' and 'qc' cannot
    occur after uppercasing), and normalizing a stored cell again leaves it
    as it is. *)
Theorem normalize_repair_discovered_spec (x : cell) :
  normalize_repair_discovered x = repair_discovered_lambda x
  /\ normalize_repair_discovered (normalize_repair_discovered x)
     = normalize_repair_discovered x.
Proof.
  assert (H : forall y, normalize_repair_discovered y = repair_discovered_lambda y).
  { intros [| |s]; try reflexivity.
    unfold normalize_repair_discovered, repair_discovered_lambda.
    rewrite strip_upper. apply repair_discovered_replace_upper. }
  split; [apply H|]. rewrite !H.
  destruct x as [| |s]; try reflexivity.
  unfold repair_discovered_lambda.
  cbn [repair_discovered_lambda].
  rewrite !strip_upper, upper_idem, strip_idem. reflexivity.
Qed.

(** X11.  [matches_any_code], the row test of
    [filter_recut_list_by_codes], on ASCII filter codes and a cell that is
    missing or holds an ASCII string: the cell matches exactly when it is
    not missing and its trimmed, uppercased code starts with one of the
    filter codes uppercased; the tests for equality and for a following
    colon or space never add a match. *)
Theorem matches_any_code_spec (codes : list string) (code : cell) :
  ascii_cell code = true ->
  Forall (fun c => is_ascii c = true) codes ->
  (matches_any_code codes code = true <->
   exists s c, code = CStr s /\ c ∈ codes
               /\ PyStr.startswith (PyStr.upper c) (PyStr.upper (PyStr.strip s)) = true).
Proof. intros _ _. apply matches_any_code_iff. Qed.

Lemma matches_any_code_spec_witness :
  matches_any_code [ "b"; "AMS" ] (CStr " ams: AMS error") = true <->
  exists s c, CStr " ams: AMS error" = CStr s /\ c ∈ [ "b"; "AMS" ]
              /\ PyStr.startswith (PyStr.upper c) (PyStr.upper (PyStr.strip s)) = true.
Proof.
  apply (matches_any_code_spec [ "b"; "AMS" ] (CStr " ams: AMS error")).
  - reflexivity.
  - repeat constructor.
Defined.

Section FilterFacts.
Import PyStr.

Lemma filter_rows_idem {A : Type} (P : A -> Prop) `{!forall x, Decision (P x)}
      (l : list A) :
  filter P (filter P l) = filter P l.
Proof. apply list_filter_filter_r. auto. Qed.

Lemma filter_rows_comm {A : Type} (P Q : A -> Prop)
      `{!forall x, Decision (P x), !forall x, Decision (Q x)} (l : list A) :
  filter P (filter Q l) = filter Q (filter P l).
Proof. rewrite !list_filter_filter. apply list_filter_iff. tauto. Qed.

Lemma codes_nil_iff (codes1 codes2 : list string) :
  (forall c, c ∈ codes1 <-> c ∈ codes2) ->
  match codes1 with [] => true | _ => false end
  = match codes2 with [] => true | _ => false end.
Proof.
  intros H. destruct codes1 as [|a l1], codes2 as [|b l2]; try reflexivity.
  - exfalso. apply (elem_of_nil b), H. left.
  - exfalso. apply (elem_of_nil a), H. left.
Qed.

Lemma filter_recut_list_by_codes_ext (df : DataFrame) (codes1 codes2 : list string) :
  (forall code, matches_any_code codes1 code = matches_any_code codes2 code) ->
  match codes1 with [] => true | _ => false end
  = match codes2 with [] => true | _ => false end ->
  filter_recut_list_by_codes df codes1 = filter_recut_list_by_codes df codes2.
Proof.
  intros Hm Hn. unfold filter_recut_list_by_codes. rewrite Hn.
  destruct (_ || _); [reflexivity|].
  destruct (rows df) as [|row0 l]; [reflexivity|]. f_equal.
  apply list_filter_iff. intros row. rewrite Hm. reflexivity.
Qed.

Lemma matches_any_code_same (codes1 codes2 : list string) (code : cell) :
  (forall c, c ∈ codes1 -> exists c', c' ∈ codes2
             /\ startswith (upper c') (upper c) = true) ->
  (forall c, c ∈ codes2 -> exists c', c' ∈ codes1
             /\ startswith (upper c') (upper c) = true) ->
  matches_any_code codes1 code = matches_any_code codes2 code.
Proof.
  intros H12 H21.
  destruct (matches_any_code codes1 code) eqn:E1;
    destruct (matches_any_code codes2 code) eqn:E2; try reflexivity.
  - apply matches_any_code_iff in E1 as (s & c & -> & Hin & Hc).
    destruct (H12 c Hin) as (c' & Hin' & Hc').
    assert (E : matches_any_code codes2 (CStr s) = true).
    { apply matches_any_code_iff. exists s, c'. repeat split; [exact Hin'|].
      apply (prefix_trans _ _ _ Hc' Hc). }
    congruence.
  - apply matches_any_code_iff in E2 as (s & c & -> & Hin & Hc).
    destruct (H21 c Hin) as (c' & Hin' & Hc').
    assert (E : matches_any_code codes1 (CStr s) = true).
    { apply matches_any_code_iff. exists s, c'. repeat split; [exact Hin'|].
      apply (prefix_trans _ _ _ Hc' Hc). }
    congruence.
Qed.

Lemma filter_by_department_eq (df : DataFrame) (departments : list string) :
  filter_by_department df departments
  = if bool_decide ("Department" ∈ columns df)
    then match departments with
         | [] => df
         | _ => {| columns := columns df;
                   rows := filter (fun row => isin departments
                                                   (row_cell "Department" row))
                                  (rows df) |}
         end
    else df.
Proof.
  unfold filter_by_department.
  destruct (bool_decide ("Department" ∈ columns df)), departments; reflexivity.
Qed.

Lemma filter_recut_list_by_codes_skip (df : DataFrame) (codes : list string) :
  "CODE" ∉ columns df \/ codes = [] -> filter_recut_list_by_codes df codes = df.
Proof.
  intros [H| ->]; unfold filter_recut_list_by_codes.
  - rewrite (bool_decide_eq_false_2 _ H). reflexivity.
  - rewrite orb_true_r. reflexivity.
Qed.

Lemma filter_recut_list_by_codes_rows (df : DataFrame) (codes : list string) :
  "CODE" ∈ columns df -> codes <> [] ->
  filter_recut_list_by_codes df codes
  = match rows df with
    | [] => {| columns := []; rows := [] |}
    | _ => {| columns := columns df;
              rows := filter (fun row => matches_any_code codes (row_cell "CODE" row)
                                         = true)
                             (rows df) |}
    end.
Proof.
  intros Hin Hne. unfold filter_recut_list_by_codes.
  rewrite (bool_decide_eq_true_2 _ Hin).
  destruct codes; [contradiction | reflexivity].
Qed.

Lemma filter_recut_list_by_codes_twice (df : DataFrame) (codes : list string) :
  rows (filter_recut_list_by_codes (filter_recut_list_by_codes df codes) codes)
  = rows (filter_recut_list_by_codes df codes)
  /\ (rows (filter_recut_list_by_codes df codes) <> [] ->
      filter_recut_list_by_codes (filter_recut_list_by_codes df codes) codes
      = filter_recut_list_by_codes df codes).
Proof.
  destruct (decide ("CODE" ∈ columns df)) as [Hin|Hin];
    [destruct (decide (codes = [])) as [Hc|Hc]|].
  - rewrite !(filter_recut_list_by_codes_skip df codes) by auto. auto.
  - rewrite (filter_recut_list_by_codes_rows df codes Hin Hc).
    destruct (rows df) as [|row0 l] eqn:Er.
    + rewrite filter_recut_list_by_codes_skip; [auto|].
      left. cbn [columns]. apply not_elem_of_nil.
    + set (kept := filter (fun row => matches_any_code codes (row_cell "CODE" row)
                                      = true) (row0 :: l)).
      assert (Hk : filter (fun row => matches_any_code codes (row_cell "CODE" row)
                                      = true) kept = kept)
        by apply filter_rows_idem.
      rewrite filter_recut_list_by_codes_rows by assumption. cbn [columns rows].
      destruct kept as [|r k] eqn:Ek; [split; [reflexivity | congruence]|].
      rewrite Hk. auto.
  - rewrite !(filter_recut_list_by_codes_skip df codes) by auto. auto.
Qed.

End FilterFacts.

(** X12.  [filter_recut_list_by_codes] depends on the filter codes only
    through the set of their uppercase forms closed under extension: two
    lists with the same codes give the same frame, and a code that starts
    (up to case) with another code of the list adds nothing.  Filtering
    twice with the same codes keeps the rows of filtering once, and the
    whole frame when the first pass has kept a row; a frame that has the
    'CODE' column but no row comes back without its columns. *)
Theorem filter_recut_list_by_codes_spec (df : DataFrame) (codes : list string) :
  (forall codes', (forall c, c ∈ codes <-> c ∈ codes') ->
                  filter_recut_list_by_codes df codes'
                  = filter_recut_list_by_codes df codes)
  /\ (forall c c', c ∈ codes ->
                   PyStr.startswith (PyStr.upper c) (PyStr.upper c') = true ->
                   filter_recut_list_by_codes df (c' :: codes)
                   = filter_recut_list_by_codes df codes)
  /\ rows (filter_recut_list_by_codes (filter_recut_list_by_codes df codes) codes)
     = rows (filter_recut_list_by_codes df codes)
  /\ (rows (filter_recut_list_by_codes df codes) <> [] ->
      filter_recut_list_by_codes (filter_recut_list_by_codes df codes) codes
      = filter_recut_list_by_codes df codes)
  /\ ("CODE" ∈ columns df -> codes <> [] -> rows df = [] ->
      filter_recut_list_by_codes df codes = {| columns := []; rows := [] |}).
Proof.
  split; [|split; [|split; [|split]]].
  - intros codes' H. apply filter_recut_list_by_codes_ext.
    + intros code. apply matches_any_code_same; intros c Hc; exists c;
        (split; [apply H; exact Hc | apply prefix_refl]).
    + symmetry. apply codes_nil_iff. exact H.
  - intros c c' Hin Hpre. apply filter_recut_list_by_codes_ext.
    + intros code. apply matches_any_code_same.
      * intros x Hx. apply elem_of_cons in Hx as [-> | Hx].
        -- exists c. split; [exact Hin | exact Hpre].
        -- exists x. split; [exact Hx | apply prefix_refl].
      * intros x Hx. exists x. split; [right; exact Hx | apply prefix_refl].
    + destruct codes; [apply elem_of_nil in Hin; contradiction | reflexivity].
  - apply filter_recut_list_by_codes_twice.
  - apply filter_recut_list_by_codes_twice.
  - intros Hin Hne Hrows. unfold filter_recut_list_by_codes.
    rewrite (bool_decide_eq_true_2 _ Hin), Hrows.
    destruct codes; [contradiction | reflexivity].
Qed.

Lemma filter_recut_list_by_codes_spec_witness :
  let df := {| columns := [ "CODE"; "QTY" ];
               rows := [ {[ "CODE" := CStr "A: SMO Error" ]};
                         {[ "CODE" := CStr " ams: AMS error" ]};
                         {[ "CODE" := CStr "B" ]}; {[ "CODE" := CNone ]} ] |} in
  filter_recut_list_by_codes df [ "AMS"; "a" ]
  = filter_recut_list_by_codes df [ "a" ].
Proof.
  intros df.
  apply (proj1 (proj2 (filter_recut_list_by_codes_spec df [ "a" ])) "a" "AMS").
  - left.
  - vm_compute. reflexivity.
Defined.



(** X14.  [filter_by_department] never changes the columns and keeps a
    sublist of the rows; the order of two department filters does not
    matter; filtering twice with the same departments is filtering once;
    and with a 'Department' column and a non-empty list, the rows kept are
    exactly the rows whose department is a string of the list. *)
Theorem filter_by_department_spec (df : DataFrame) (d1 d2 : list string) :
  columns (filter_by_department df d1) = columns df
  /\ rows (filter_by_department df d1) `sublist_of` rows df
  /\ filter_by_department (filter_by_department df d1) d2
     = filter_by_department (filter_by_department df d2) d1
  /\ filter_by_department (filter_by_department df d1) d1
     = filter_by_department df d1
  /\ ("Department" ∈ columns df -> d1 <> [] ->
      forall row, row ∈ rows (filter_by_department df d1) <->
                  row ∈ rows df
                  /\ exists d, row_cell "Department" row = CStr d /\ d ∈ d1).
Proof.
  rewrite !filter_by_department_eq.
  destruct (bool_decide ("Department" ∈ columns df)) eqn:Ec.
  - assert (Hcols : forall d, columns (match d with
                      | [] => df
                      | _ => {| columns := columns df;
                                rows := filter (fun row => isin d
                                                  (row_cell "Department" row))
                                               (rows df) |}
                      end) = columns df)
      by (intros []; reflexivity).
    rewrite !Hcols, Ec.
    split; [reflexivity|]. split; [|split; [|split]].
    + destruct d1; [reflexivity | apply sublist_filter].
    + destruct d1 as [|a1 l1], d2 as [|a2 l2]; cbn [columns rows]; try reflexivity.
      f_equal. apply filter_rows_comm.
    + destruct d1 as [|a1 l1]; cbn [columns rows]; [reflexivity|].
      f_equal. apply filter_rows_idem.
    + intros _ Hne row. destruct d1 as [|a1 l1]; [contradiction|].
      cbn [rows]. rewrite list_elem_of_filter. split.
      * intros [His Hin]. split; [exact Hin|].
        destruct (row_cell "Department" row) as [| |d]; try contradiction.
        exists d. split; [reflexivity | exact His].
      * intros [Hin (d & Hd & Hd1)]. split; [|exact Hin].
        rewrite Hd. exact Hd1.
  - rewrite Ec. split; [reflexivity|]. split; [reflexivity|].
    split; [reflexivity|]. split; [reflexivity|].
    intros Hin. apply bool_decide_eq_false in Ec. contradiction.
Qed.

Lemma filter_by_department_spec_witness :
  let df := {| columns := [ "Department" ];
               rows := [ {[ "Department" := CStr "Other" ]};
                         {[ "Department" := CStr "Unknown" ]} ] |} in
  {[ "Department" := CStr "Other" ]} ∈ rows (filter_by_department df [ "Other" ]).
Proof.
  intros df.
  apply (proj2 (proj2 (proj2 (proj2
           (filter_by_department_spec df [ "Other" ] []))))).
  - apply (bool_decide_unpack _). vm_compute. reflexivity.
  - discriminate.
  - split; [left|]. exists "Other". split; [vm_compute; reflexivity | left].
Defined.

(** ** Parent SKUs: segments, frames and materials *)

Section SegmentFacts.
Import PyStr.

Lemma filter_Exists_nonempty {A : Type} (P : A -> Prop) `{!forall x, Decision (P x)}
      (l : list A) :
  Exists P l -> filter P l <> [].
Proof.
  intros He Hnil. apply Exists_exists in He as (x & Hin & Hx).
  assert (Hf : x ∈ filter P l) by (apply list_elem_of_filter; auto).
  rewrite Hnil in Hf. apply elem_of_nil in Hf. exact Hf.
Qed.

Lemma size_code_not_color (part : string) : part ∈ SIZE_CODES -> not_color part.
Proof.
  unfold SIZE_CODES. rewrite !elem_of_union, !elem_of_singleton.
  intros H. unfold not_color.
  repeat (destruct H as [H| ->];
          [|apply (bool_decide_unpack _); vm_compute; reflexivity]).
  subst part. apply (bool_decide_unpack _). vm_compute. reflexivity.
Qed.

Lemma color_code_plain (k : string) :
  k ∈ COLOR_CODES -> has_char "-" k = false.
Proof.
  rewrite color_vocabulary_spec.
  assert (H : forallb (fun k => negb (has_char "-" k)) COLOR_VOCABULARY = true)
    by (vm_compute; reflexivity).
  rewrite forallb_forall in H. intros Hin. apply negb_true_iff, H, Hin.
Qed.

Lemma hyphen_upper_char (c : ascii) : Ascii.eqb (upper_char c) "-" = Ascii.eqb c "-".
Proof. destruct c as [[] [] [] [] [] [] [] []]; vm_compute; reflexivity. Qed.

Lemma split_app_sep (sep : ascii) (p q : string) :
  split sep (p +:+ String sep q) = (split sep p ++ split sep q)%list.
Proof.
  induction p as [|c p IH].
  - change (split sep (String sep q) = ([""] ++ split sep q)%list).
    cbn [split]. rewrite Ascii.eqb_refl. reflexivity.
  - change (split sep (String c (p +:+ String sep q))
            = (split sep (String c p) ++ split sep q)%list).
    cbn [split]. rewrite IH. destruct (Ascii.eqb c sep); [reflexivity|].
    pose proof (split_nonempty sep p) as Hne.
    destruct (split sep p) as [|h t]; [congruence | reflexivity].
Qed.

Lemma get_parent_sku_parts (s : string) (l : list string) :
  strip s <> "" -> strip s ∉ SKU_EXCEPTIONS ->
  filter not_color (split "-" (strip s)) = l -> l <> [] ->
  get_parent_sku (CStr s) = Some (join "-" l).
Proof.
  intros Hne Hex Hl Hnil. rewrite get_parent_sku_str.
  apply is_empty_false in Hne. rewrite Hne.
  rewrite bool_decide_eq_false_2 by exact Hex. rewrite Hl.
  destruct l; [congruence | reflexivity].
Qed.

Lemma parent_sku_segments_of (s r : string) :
  get_parent_sku (CStr s) = Some r ->
  String.length r <= String.length s
  /\ (forall part, part ∈ split "-" (strip s) -> part ∈ SIZE_CODES ->
                   part ∈ split "-" r)
  /\ (strip s ∉ SKU_EXCEPTIONS -> Exists not_color (split "-" (strip s)) ->
      split "-" r = filter not_color (split "-" (strip s))
      /\ Forall not_color (split "-" r)).
Proof.
  intros H. pose proof (strip_length s) as Hlen.
  apply get_parent_sku_cases in H as [[-> Hcase]|(l & Hnil & Hl & ->)].
  - split; [exact Hlen|]. split; [auto|].
    intros Hex He. destruct Hcase as [Hcase|Hcase]; [contradiction|].
    exfalso. apply (filter_Exists_nonempty not_color _ He). exact Hcase.
  - assert (Hsplit : split "-" (join "-" l) = l).
    { apply (split_join "-"); [exact Hnil|]. subst l.
      apply filter_Forall_keep, split_no_sep. }
    rewrite Hsplit. split; [|split].
    + subst l.
      pose proof (join_filter_length "-" not_color (split "-" (strip s))) as Hj.
      rewrite (join_split "-") in Hj. lia.
    + intros part Hin Hsize. subst l. apply list_elem_of_filter.
      split; [apply size_code_not_color; exact Hsize | exact Hin].
    + intros _ _. split; [exact Hl|]. subst l. apply filter_Forall_holds.
Qed.

Lemma get_parent_sku_suffix (s s' c : string) :
  upper c ∈ COLOR_CODES ->
  strip s <> "" -> strip s ∉ SKU_EXCEPTIONS -> strip s' ∉ SKU_EXCEPTIONS ->
  Exists not_color (split "-" (strip s)) ->
  strip s' = strip s +:+ String "-" c ->
  get_parent_sku (CStr s') = get_parent_sku (CStr s).
Proof.
  intros Hc Hne Hex Hex' He Hs'.
  pose proof (filter_Exists_nonempty not_color _ He) as Hnil.
  rewrite (get_parent_sku_parts s _ Hne Hex eq_refl Hnil).
  apply get_parent_sku_parts; [| exact Hex' | | exact Hnil].
  - rewrite Hs'. destruct (strip s); [congruence | discriminate].
  - rewrite Hs', split_app_sep, filter_app.
    assert (Hplain : has_char "-" c = false).
    { rewrite <- (has_char_map_chars upper_char "-" c hyphen_upper_char).
      apply color_code_plain. exact Hc. }
    rewrite (split_single "-" c Hplain).
    rewrite filter_cons_False; [apply app_nil_r|].
    unfold not_color. intros Hn. contradiction.
Qed.

End SegmentFacts.

(** X15.  What [get_parent_sku] keeps: the result is never longer than the
    input and every size segment of the trimmed input is a segment of the
    result; and when the trimmed input is not an exception and has a
    segment that is not a color, the segments of the result are exactly the
    segments of the input that are not colors, in their order, so that no
    color segment is left. *)
Theorem get_parent_sku_segments (s r : string) :
  get_parent_sku (CStr s) = Some r ->
  String.length r <= String.length s
  /\ (forall part, part ∈ PyStr.split "-" (PyStr.strip s) -> part ∈ SIZE_CODES ->
                   part ∈ PyStr.split "-" r)
  /\ (PyStr.strip s ∉ SKU_EXCEPTIONS ->
      Exists not_color (PyStr.split "-" (PyStr.strip s)) ->
      PyStr.split "-" r = filter not_color (PyStr.split "-" (PyStr.strip s))
      /\ Forall not_color (PyStr.split "-" r)).
Proof. apply parent_sku_segments_of. Qed.

Lemma get_parent_sku_segments_witness :
  PyStr.split "-" "pc-F20-XL"
  = filter not_color (PyStr.split "-" (PyStr.strip " pc-F20-bk-XL-Rd"))
  /\ Forall not_color (PyStr.split "-" "pc-F20-XL").
Proof.
  apply (get_parent_sku_segments " pc-F20-bk-XL-Rd" "pc-F20-XL").
  - vm_compute. reflexivity.
  - apply (bool_decide_unpack _). vm_compute. reflexivity.
  - apply Exists_cons_hd. apply (bool_decide_unpack _). vm_compute. reflexivity.
Defined.

(** X16.  Color rollup: appending a hyphen and a color code, in any case,
    to a SKU does not change its parent SKU, provided neither SKU is an
    exception, the SKU is not blank and it has a segment that is not a
    color. *)
Theorem get_parent_sku_color_suffix (s s' c : string) :
  PyStr.upper c ∈ COLOR_CODES ->
  PyStr.strip s <> "" ->
  PyStr.strip s ∉ SKU_EXCEPTIONS -> PyStr.strip s' ∉ SKU_EXCEPTIONS ->
  Exists not_color (PyStr.split "-" (PyStr.strip s)) ->
  PyStr.strip s' = PyStr.strip s +:+ String "-" c ->
  get_parent_sku (CStr s') = get_parent_sku (CStr s).
Proof. apply get_parent_sku_suffix. Qed.

Lemma get_parent_sku_color_suffix_witness :
  get_parent_sku (CStr "PC-F20-LG-bk ") = get_parent_sku (CStr " PC-F20-LG").
Proof.
  apply (get_parent_sku_color_suffix " PC-F20-LG" "PC-F20-LG-bk " "bk").
  - apply (bool_decide_unpack _). vm_compute. reflexivity.
  - vm_compute. discriminate.
  - apply (bool_decide_unpack _). vm_compute. reflexivity.
  - apply (bool_decide_unpack _). vm_compute. reflexivity.
  - apply Exists_cons_hd. apply (bool_decide_unpack _). vm_compute. reflexivity.
  - vm_compute. reflexivity.
Defined.

Section FrameFacts.

Lemma set_column_rows_length (df : DataFrame) (name : string)
      (value : gmap string cell -> cell) :
  length (rows (set_column df name value)) = length (rows df).
Proof. unfold set_column. cbn [rows]. apply length_map. Qed.

Lemma set_column_has_column (df : DataFrame) (name : string)
      (value : gmap string cell -> cell) :
  name ∈ columns (set_column df name value).
Proof.
  unfold set_column. cbn [columns]. case_bool_decide as Hc; [exact Hc|].
  apply elem_of_app. right. left.
Qed.

Lemma set_column_keeps_column (df : DataFrame) (name col : string)
      (value : gmap string cell -> cell) :
  name <> col ->
  (col ∈ columns (set_column df name value) <-> col ∈ columns df).
Proof.
  intros Hne. unfold set_column. cbn [columns].
  case_bool_decide as Hc; [reflexivity|].
  rewrite elem_of_app, list_elem_of_singleton. split; [|auto].
  intros [Hin| ->]; [exact Hin | contradiction].
Qed.

Lemma set_column_lookup (df : DataFrame) (name : string)
      (value : gmap string cell -> cell) (i : nat) :
  rows (set_column df name value) !! i
  = (fun row => <[name := value row]> row) <$> (rows df !! i).
Proof. unfold set_column. cbn [rows]. apply list_lookup_fmap. Qed.

Lemma row_cell_insert (name col : string) (c : cell) (row : gmap string cell) :
  row_cell col (<[name := c]> row) = if decide (name = col) then c else row_cell col row.
Proof.
  unfold row_cell. destruct (decide (name = col)) as [->|Hne].
  - rewrite lookup_insert_eq. reflexivity.
  - rewrite lookup_insert_ne by exact Hne. reflexivity.
Qed.

Lemma set_column_twice (df : DataFrame) (name : string)
      (value value' : gmap string cell -> cell) :
  (forall row, value' (<[name := value row]> row) = value row) ->
  set_column (set_column df name value) name value' = set_column df name value.
Proof.
  intros Hv. unfold set_column at 1.
  rewrite (bool_decide_eq_true_2 _ (set_column_has_column df name value)).
  unfold set_column. cbn [rows columns]. f_equal.
  rewrite map_map. apply map_ext. intros row.
  rewrite Hv. apply insert_insert_eq.
Qed.

(** The column [add_parent_sku_column] reads the SKU from, if any. *)
Lemma add_parent_sku_column_eq (df : DataFrame) (sku_col : string) :
  add_parent_sku_column df sku_col
  = set_column df "Parent_SKU"
      (fun row =>
         if bool_decide (sku_col ∈ columns df)
         then cell_of_result (get_parent_sku (row_cell sku_col row))
         else if bool_decide ("SKU-Colorway-Size" ∈ columns df)
              then cell_of_result (get_parent_sku (row_cell "SKU-Colorway-Size" row))
              else CNone).
Proof.
  unfold add_parent_sku_column, apply_parent_sku.
  destruct (bool_decide (sku_col ∈ columns df)); [reflexivity|].
  destruct (bool_decide ("SKU-Colorway-Size" ∈ columns df)); reflexivity.
Qed.

Lemma add_parent_sku_column_row (df : DataFrame) (sku_col : string) (i : nat)
      (row' : gmap string cell) :
  rows (add_parent_sku_column df sku_col) !! i = Some row' ->
  exists row, rows df !! i = Some row
    /\ (forall col, col <> "Parent_SKU" -> row' !! col = row !! col)
    /\ row_cell "Parent_SKU" row'
       = if bool_decide (sku_col ∈ columns df)
         then cell_of_result (get_parent_sku (row_cell sku_col row))
         else if bool_decide ("SKU-Colorway-Size" ∈ columns df)
              then cell_of_result (get_parent_sku (row_cell "SKU-Colorway-Size" row))
              else CNone.
Proof.
  rewrite add_parent_sku_column_eq, set_column_lookup.
  destruct (rows df !! i) as [row|]; [|discriminate].
  intros [= <-]. exists row. split; [reflexivity|]. split.
  - intros col Hne. apply lookup_insert_ne. congruence.
  - rewrite row_cell_insert. destruct (decide _); [reflexivity | contradiction].
Qed.

Lemma add_parent_sku_column_twice (df : DataFrame) (sku_col : string) :
  sku_col <> "Parent_SKU" ->
  add_parent_sku_column (add_parent_sku_column df sku_col) sku_col
  = add_parent_sku_column df sku_col.
Proof.
  intros Hne.
  rewrite (add_parent_sku_column_eq (add_parent_sku_column df sku_col)).
  rewrite (add_parent_sku_column_eq df). apply set_column_twice. intros row.
  assert (Hcol : forall col, col <> "Parent_SKU" ->
            bool_decide (col ∈ columns (set_column df "Parent_SKU"
              (fun row =>
                 if bool_decide (sku_col ∈ columns df)
                 then cell_of_result (get_parent_sku (row_cell sku_col row))
                 else if bool_decide ("SKU-Colorway-Size" ∈ columns df)
                      then cell_of_result
                             (get_parent_sku (row_cell "SKU-Colorway-Size" row))
                      else CNone)))
            = bool_decide (col ∈ columns df)).
  { intros col Hc. apply bool_decide_ext, set_column_keeps_column. congruence. }
  rewrite (Hcol sku_col Hne), (Hcol "SKU-Colorway-Size") by discriminate.
  rewrite !row_cell_insert.
  destruct (decide ("Parent_SKU" = sku_col)); [congruence|].
  destruct (decide ("Parent_SKU" = "SKU-Colorway-Size")); [discriminate|].
  reflexivity.
Qed.

End FrameFacts.

(** X17.  [add_parent_sku_column] returns a frame with a 'Parent_SKU'
    column and the same number of rows; each row keeps every other cell,
    and its 'Parent_SKU' cell is [get_parent_sku] of the cell in [sku_col],
    or in 'SKU-Colorway-Size' when the frame lacks [sku_col], or [None]
    when it has neither column.  Unless [sku_col] is 'Parent_SKU' itself,
    adding the column twice is adding it once. *)
Theorem add_parent_sku_column_spec (df : DataFrame) (sku_col : string) :
  "Parent_SKU" ∈ columns (add_parent_sku_column df sku_col)
  /\ length (rows (add_parent_sku_column df sku_col)) = length (rows df)
  /\ (forall i row',
        rows (add_parent_sku_column df sku_col) !! i = Some row' ->
        exists row, rows df !! i = Some row
          /\ (forall col, col <> "Parent_SKU" -> row' !! col = row !! col)
          /\ row_cell "Parent_SKU" row'
             = if bool_decide (sku_col ∈ columns df)
               then cell_of_result (get_parent_sku (row_cell sku_col row))
               else if bool_decide ("SKU-Colorway-Size" ∈ columns df)
                    then cell_of_result
                           (get_parent_sku (row_cell "SKU-Colorway-Size" row))
                    else CNone)
  /\ (sku_col <> "Parent_SKU" ->
      add_parent_sku_column (add_parent_sku_column df sku_col) sku_col
      = add_parent_sku_column df sku_col).
Proof.
  split; [|split; [|split]].
  - rewrite add_parent_sku_column_eq. apply set_column_has_column.
  - rewrite add_parent_sku_column_eq. apply set_column_rows_length.
  - apply add_parent_sku_column_row.
  - apply add_parent_sku_column_twice.
Qed.

Lemma add_parent_sku_column_spec_witness :
  let df := {| columns := [ "SKU-Colorway-Size"; "Reason Code" ];
               rows := [ {[ "SKU-Colorway-Size" := CStr "AC-ESE-BK" ]};
                         {[ "Reason Code" := CStr "A1A" ]} ] |} in
  add_parent_sku_column (add_parent_sku_column df "SKU") "SKU"
  = add_parent_sku_column df "SKU".
Proof.
  intros df.
  apply (proj2 (proj2 (proj2 (add_parent_sku_column_spec df "SKU")))).
  discriminate.
Defined.

Section MaterialFacts.
Import PyStr.

Lemma le_total (a b : string) : le a b = true \/ le b a = true.
Proof.
  unfold le. rewrite (String.compare_antisym b a).
  destruct (String.compare a b); simpl; auto.
Qed.

Lemma insert_sorted_perm (x : string) (l : list string) :
  insert_sorted x l ≡ₚ x :: l.
Proof.
  induction l as [|y l IH]; simpl; [reflexivity|].
  destruct (le y x); [|reflexivity].
  rewrite IH. apply Permutation_swap.
Qed.

Lemma sorted_perm (l : list string) : sorted l ≡ₚ l.
Proof.
  induction l as [|x l IH]; simpl; [reflexivity|].
  rewrite insert_sorted_perm, IH. reflexivity.
Qed.

Lemma insert_sorted_HdRel (a x : string) (l : list string) :
  le a x = true -> HdRel (fun u v => le u v = true) a l ->
  HdRel (fun u v => le u v = true) a (insert_sorted x l).
Proof.
  intros Hax Hl. destruct l as [|y l]; simpl; [constructor; exact Hax|].
  destruct (le y x); constructor; [|exact Hax].
  inversion Hl; assumption.
Qed.

Lemma insert_sorted_Sorted (x : string) (l : list string) :
  Sorted (fun u v => le u v = true) l ->
  Sorted (fun u v => le u v = true) (insert_sorted x l).
Proof.
  induction 1 as [|y l Hs IH Hhd]; simpl; [repeat constructor|].
  destruct (le y x) eqn:E.
  - constructor; [exact IH|]. apply insert_sorted_HdRel; assumption.
  - constructor; [constructor; assumption|]. constructor.
    destruct (le_total x y) as [H|H]; [exact H | congruence].
Qed.

Lemma sorted_Sorted (l : list string) : Sorted (fun u v => le u v = true) (sorted l).
Proof.
  induction l as [|x l IH]; simpl; [constructor|].
  apply insert_sorted_Sorted, IH.
Qed.

Lemma unique_from_elem (seen : gset string) (l : list string) (x : string) :
  x ∈ unique_from seen l <-> x ∈ l /\ x ∉ seen.
Proof.
  revert seen. induction l as [|y l IH]; intros seen; simpl.
  - rewrite elem_of_nil. tauto.
  - case_bool_decide as Hy.
    + rewrite IH, elem_of_cons. split; [tauto|].
      intros [[-> | Hin] Hns]; [contradiction | tauto].
    + rewrite !elem_of_cons, IH, elem_of_union, elem_of_singleton.
      destruct (decide (x = y)) as [->|Hne]; [tauto|]. tauto.
Qed.

Lemma unique_from_NoDup (seen : gset string) (l : list string) :
  NoDup (unique_from seen l).
Proof.
  revert seen. induction l as [|y l IH]; intros seen; simpl; [constructor|].
  case_bool_decide as Hy; [apply IH|].
  constructor; [|apply IH].
  rewrite unique_from_elem, elem_of_union, elem_of_singleton. tauto.
Qed.

Lemma dropna_elem (column : list cell) (s : string) :
  s ∈ dropna column <-> CStr s ∈ column.
Proof.
  induction column as [|c column IH]; simpl.
  - rewrite !elem_of_nil. tauto.
  - destruct c as [| |t]; rewrite ?elem_of_cons, IH.
    + split; [auto | intros [H|H]; [discriminate | exact H]].
    + split; [auto | intros [H|H]; [discriminate | exact H]].
    + split; intros [H|H]; auto; [left; congruence | left; congruence].
Qed.

Lemma get_materials_for_sku_eq (df : DataFrame) (parent_sku : string) :
  "Parent_SKU" ∈ columns df -> "Material" ∈ columns df ->
  get_materials_for_sku df parent_sku
  = sorted (unique (dropna (map (row_cell "Material")
      (filter (fun row => cell_is parent_sku (row_cell "Parent_SKU" row))
              (rows df))))).
Proof.
  intros H1 H2. unfold get_materials_for_sku.
  rewrite !bool_decide_eq_true_2 by assumption. reflexivity.
Qed.

Lemma get_materials_for_sku_props (df : DataFrame) (parent_sku : string) :
  Sorted (fun u v => le u v = true) (get_materials_for_sku df parent_sku)
  /\ NoDup (get_materials_for_sku df parent_sku)
  /\ ("Parent_SKU" ∉ columns df \/ "Material" ∉ columns df ->
      get_materials_for_sku df parent_sku = [])
  /\ ("Parent_SKU" ∈ columns df -> "Material" ∈ columns df ->
      forall m, m ∈ get_materials_for_sku df parent_sku <->
                exists row, row ∈ rows df
                  /\ row_cell "Parent_SKU" row = CStr parent_sku
                  /\ row_cell "Material" row = CStr m).
Proof.
  destruct (decide ("Parent_SKU" ∈ columns df)) as [H1|H1];
    [destruct (decide ("Material" ∈ columns df)) as [H2|H2]|].
  - rewrite (get_materials_for_sku_eq df parent_sku H1 H2).
    split; [apply sorted_Sorted|]. split; [|split].
    + rewrite sorted_perm. apply unique_from_NoDup.
    + intros [H|H]; contradiction.
    + intros _ _ m. rewrite sorted_perm. unfold unique.
      rewrite unique_from_elem, dropna_elem, list_elem_of_fmap. split.
      * intros [(row & Hm & Hrow) _]. apply list_elem_of_filter in Hrow as [Hp Hin].
        exists row. auto.
      * intros (row & Hin & Hp & Hm). split; [|apply not_elem_of_empty].
        exists row. split; [auto|]. apply list_elem_of_filter. auto.
  - assert (E : get_materials_for_sku df parent_sku = []).
    { unfold get_materials_for_sku.
      rewrite (bool_decide_eq_false_2 _ H2), orb_true_r. reflexivity. }
    rewrite E. split; [constructor|]. split; [constructor|].
    split; [reflexivity | contradiction].
  - assert (E : get_materials_for_sku df parent_sku = []).
    { unfold get_materials_for_sku.
      rewrite (bool_decide_eq_false_2 _ H1). reflexivity. }
    rewrite E. split; [constructor|]. split; [constructor|].
    split; [reflexivity | contradiction].
Qed.

End MaterialFacts.

(** X18.  [get_materials_for_sku] returns the materials of a parent SKU
    in ascending order and without duplicates: the list is sorted, has no
    repeated entry, is empty when the frame lacks the 'Parent_SKU' or the
    'Material' column, and otherwise holds exactly the materials that
    occur, as a string, in a row whose 'Parent_SKU' is the given one. *)
Theorem get_materials_for_sku_spec (df : DataFrame) (parent_sku : string) :
  Sorted (fun u v => PyStr.le u v = true) (get_materials_for_sku df parent_sku)
  /\ NoDup (get_materials_for_sku df parent_sku)
  /\ ("Parent_SKU" ∉ columns df \/ "Material" ∉ columns df ->
      get_materials_for_sku df parent_sku = [])
  /\ ("Parent_SKU" ∈ columns df -> "Material" ∈ columns df ->
      forall m, m ∈ get_materials_for_sku df parent_sku <->
                exists row, row ∈ rows df
                  /\ row_cell "Parent_SKU" row = CStr parent_sku
                  /\ row_cell "Material" row = CStr m).
Proof. apply get_materials_for_sku_props. Qed.

Lemma get_materials_for_sku_spec_witness :
  let df := {| columns := [ "Parent_SKU"; "Material" ];
               rows := [ {[ "Parent_SKU" := CStr "AC-ESE"; "Material" := CStr "M2" ]};
                         {[ "Parent_SKU" := CStr "AC-ESE"; "Material" := CNaN ]};
                         {[ "Parent_SKU" := CStr "PI-CB"; "Material" := CStr "M9" ]};
                         {[ "Parent_SKU" := CStr "AC-ESE"; "Material" := CStr "M1" ]};
                         {[ "Parent_SKU" := CStr "AC-ESE"; "Material" := CStr "M2" ]} ] |} in
  "M1" ∈ get_materials_for_sku df "AC-ESE" <->
  exists row, row ∈ rows df
    /\ row_cell "Parent_SKU" row = CStr "AC-ESE"
    /\ row_cell "Material" row = CStr "M1".
Proof.
  intros df.
  apply (proj2 (proj2 (proj2 (get_materials_for_sku_spec df "AC-ESE")))).
  - apply (bool_decide_unpack _). vm_compute. reflexivity.
  - apply (bool_decide_unpack _). vm_compute. reflexivity.
Defined.

(** ** Reason codes of the cutting operators *)

Section CuttingOperatorFacts.
Import PyStr.

(** The trimmed code starts with A1A, A1B, A1C or A1D. *)
Let a1x (t : string) : bool :=
  startswith "A1A" t || startswith "A1B" t
  || startswith "A1C" t || startswith "A1D" t.

Lemma prefix_cons (a b : ascii) (u t : string) :
  String.prefix (String a u) (String b t) = true <-> a = b /\ String.prefix u t = true.
Proof.
  simpl. destruct (ascii_dec a b) as [->|Hne]; split; try tauto.
  discriminate.
Qed.

Lemma prefix_nil_r (u : string) : String.prefix u "" = true -> u = "".
Proof. destruct u; [reflexivity | discriminate]. Qed.

Lemma split_head_prefix (sep : ascii) (s h : string) (t : list string) :
  split sep s = h :: t -> String.prefix h s = true.
Proof.
  revert h t. induction s as [|c s IH]; intros h t; simpl.
  - intros [= <- _]. reflexivity.
  - destruct (Ascii.eqb c sep); [intros [= <- _]; reflexivity|].
    destruct (split sep s) as [|h' t'] eqn:E.
    + intros [= <- _]. destruct (ascii_dec c c); [apply prefix_empty | contradiction].
    + intros [= <- _]. destruct (ascii_dec c c); [|contradiction].
      apply (IH h' t' eq_refl).
Qed.

Lemma split_head_keeps (sep : ascii) (k s h : string) (t : list string) :
  split sep s = h :: t -> has_char sep k = false ->
  String.prefix k s = true -> String.prefix k h = true.
Proof.
  revert s h t. induction k as [|a k IH]; intros s h t Hs Hk Hp;
    [apply prefix_empty|].
  destruct s as [|b s]; [discriminate|].
  apply prefix_cons in Hp as [<- Hp].
  simpl in Hk. apply orb_false_iff in Hk as [Ha Hk].
  simpl in Hs. rewrite Ha in Hs.
  pose proof (split_nonempty sep s) as Hne.
  destruct (split sep s) as [|h' t'] eqn:E; [congruence|].
  injection Hs as <- <-. apply prefix_cons. split; [reflexivity|].
  apply (IH s h' t' E Hk Hp).
Qed.

Lemma rstrip_prefix (x : string) : String.prefix (rstrip x) x = true.
Proof.
  induction x as [|c x IH]; [reflexivity|]. simpl rstrip.
  destruct (rstrip x) as [|d r].
  - destruct (is_space c); [apply prefix_empty|].
    apply prefix_cons. split; [reflexivity | apply prefix_empty].
  - apply prefix_cons. split; [reflexivity | exact IH].
Qed.

Lemma rstrip_keeps (k x : string) :
  has_space k = false -> String.prefix k x = true ->
  String.prefix k (rstrip x) = true.
Proof.
  revert x. induction k as [|a k IH]; intros x Hk Hp; [apply prefix_empty|].
  destruct x as [|b x]; [discriminate|].
  apply prefix_cons in Hp as [<- Hp].
  simpl in Hk. apply orb_false_iff in Hk as [Ha Hk].
  specialize (IH x Hk Hp). simpl rstrip.
  destruct (rstrip x) as [|d r].
  - apply prefix_nil_r in IH. subst k. rewrite Ha.
    apply prefix_cons. split; reflexivity.
  - apply prefix_cons. split; [reflexivity | exact IH].
Qed.

Lemma lstrip_of_prefix (p code : string) :
  lstrip code = code -> String.prefix p code = true -> lstrip p = p.
Proof.
  intros Hl Hp. destruct p as [|a p]; [reflexivity|].
  destruct code as [|b code]; [discriminate|].
  apply prefix_cons in Hp as [<- _].
  pose proof (lstrip_head (String a code)) as Hh. rewrite Hl in Hh.
  simpl. rewrite Hh. reflexivity.
Qed.

Lemma extract_prefix_head_of (code p : string) :
  extract_prefix code = Ok p ->
  exists p0, p = strip p0 /\ String.prefix p0 code = true
    /\ forall k, has_char " " k = false -> has_char "-" k = false ->
                 String.prefix k code = true -> String.prefix k p0 = true.
Proof.
  unfold extract_prefix, list_getitem.
  pose proof (split_nonempty " " code) as H1.
  destruct (split " " code) as [|h t] eqn:E1; [congruence|].
  cbn [lookup list_lookup rbind].
  pose proof (split_nonempty "-" h) as H2.
  destruct (split "-" h) as [|p0 t'] eqn:E2; [congruence|].
  cbn [lookup list_lookup rbind]. intros [= <-]. exists p0.
  split; [reflexivity|]. split.
  - apply (prefix_trans _ h); [apply (split_head_prefix _ _ _ _ E2)|].
    apply (split_head_prefix _ _ _ _ E1).
  - intros k Hk1 Hk2 Hp. apply (split_head_keeps _ _ _ _ _ E2 Hk2).
    apply (split_head_keeps _ _ _ _ _ E1 Hk1 Hp).
Qed.

Lemma extract_prefix_prefix (code p : string) :
  lstrip code = code -> extract_prefix code = Ok p ->
  String.prefix p code = true
  /\ forall k, has_char " " k = false -> has_char "-" k = false ->
               has_space k = false ->
               String.prefix k code = true -> String.prefix k p = true.
Proof.
  intros Hl Hp. apply extract_prefix_head_of in Hp as (p0 & -> & Hp0 & Hk).
  unfold strip. rewrite (lstrip_of_prefix p0 code Hl Hp0). split.
  - apply (prefix_trans _ p0); [apply rstrip_prefix | exact Hp0].
  - intros k H1 H2 H3 Hpre. apply rstrip_keeps; [exact H3|]. apply Hk; assumption.
Qed.

Lemma a1x_prefix (p code : string) :
  String.prefix p code = true ->
  (forall k, has_char " " k = false -> has_char "-" k = false ->
             has_space k = false ->
             String.prefix k code = true -> String.prefix k p = true) ->
  a1x p = a1x code.
Proof.
  intros Hp Hk. unfold a1x, startswith.
  assert (H : forall k, has_char " " k = false -> has_char "-" k = false ->
                        has_space k = false ->
                        String.prefix k p = String.prefix k code).
  { intros k H1 H2 H3.
    destruct (String.prefix k code) eqn:E; [apply Hk; assumption|].
    destruct (String.prefix k p) eqn:E'; [|reflexivity].
    rewrite (prefix_trans _ _ _ E' Hp) in E. discriminate. }
  rewrite !H by reflexivity. reflexivity.
Qed.

Lemma a1x_A1 (code : string) : a1x code = true -> startswith "A1" code = true.
Proof.
  unfold a1x, startswith. rewrite !orb_true_iff.
  intros [[[H|H]|H]|H]; refine (prefix_trans _ _ _ _ H); reflexivity.
Qed.

Lemma reason_code_patterns_cutting (code : string) :
  String.eqb (reason_code_patterns code) "Cutting Operator Error" = a1x code.
Proof.
  destruct (a1x code) eqn:Ea.
  - pose proof (a1x_A1 code Ea) as HA1. unfold reason_code_patterns.
    rewrite HA1. unfold a1x in Ea.
    destruct (startswith "A1A" code), (startswith "A1B" code),
      (startswith "A1C" code), (startswith "A1D" code);
      try discriminate; reflexivity.
  - unfold reason_code_patterns.
    destruct (startswith "A1" code) eqn:HA1.
    + unfold a1x in Ea. apply orb_false_iff in Ea as [Ea ->].
      apply orb_false_iff in Ea as [Ea ->]. apply orb_false_iff in Ea as [-> ->].
      reflexivity.
    + cbn [andb].
      destruct (startswith "A2" code), (startswith "S" code),
        (startswith "B1C" code), (startswith "B1E" code),
        (startswith "B2" code), (startswith "B" code),
        (startswith "C" code); reflexivity.
Qed.

Lemma sewing_items_cutting (k v : string) :
  (k, v) ∈ SEWING_REPAIRS_DEPT_MAP_items ->
  String.eqb v "Cutting Operator Error" = a1x k.
Proof.
  assert (H : forallb (fun kv => Bool.eqb (String.eqb kv.2 "Cutting Operator Error")
                                          (a1x kv.1))
                      SEWING_REPAIRS_DEPT_MAP_items = true)
    by (vm_compute; reflexivity).
  rewrite forallb_forall in H. intros Hin. apply list_elem_of_In in Hin.
  apply Bool.eqb_prop, (H (k, v) Hin).
Qed.

Lemma reason_code_cutting_bool (s d : string) :
  get_department_from_reason_code (CStr s) = Ok d ->
  String.eqb d "Cutting Operator Error" = a1x (strip s).
Proof.
  rewrite reason_code_str.
  assert (Hl : lstrip (strip s) = strip s)
    by (apply trimmed_parts, strip_idem).
  destruct (dict_contains SEWING_REPAIRS_DEPT_MAP (strip s)) eqn:E.
  - apply dict_contains_getitem in E as (d0 & Hd & ->). intros [= <-].
    apply sewing_items_cutting, dict_of_items_lookup, Hd.
  - destruct (extract_prefix_Ok (strip s)) as [p Hp]. rewrite Hp. unfold rbind.
    destruct (extract_prefix_prefix _ _ Hl Hp) as [Hpre Hk].
    destruct (dict_contains SEWING_REPAIRS_DEPT_MAP p) eqn:E2.
    + apply dict_contains_getitem in E2 as (d0 & Hd & ->). intros [= <-].
      rewrite <- (a1x_prefix p (strip s) Hpre Hk).
      apply sewing_items_cutting, dict_of_items_lookup, Hd.
    + intros [= <-]. apply reason_code_patterns_cutting.
Qed.

Lemma reason_code_cutting_iff (s : string) :
  get_department_from_reason_code (CStr s) = Ok "Cutting Operator Error" <->
  startswith "A1A" (strip s) = true \/ startswith "A1B" (strip s) = true
  \/ startswith "A1C" (strip s) = true \/ startswith "A1D" (strip s) = true.
Proof.
  assert (Ha : a1x (strip s) = true <->
               startswith "A1A" (strip s) = true \/ startswith "A1B" (strip s) = true
               \/ startswith "A1C" (strip s) = true \/ startswith "A1D" (strip s) = true).
  { unfold a1x. rewrite !orb_true_iff. tauto. }
  rewrite <- Ha. split.
  - intros H. apply reason_code_cutting_bool in H. rewrite <- H. reflexivity.
  - intros H. destruct (reason_code_total (CStr s)) as (d & Hd & _).
    pose proof (reason_code_cutting_bool s d Hd) as Hb. rewrite H in Hb.
    apply String.eqb_eq in Hb. rewrite Hd, Hb. reflexivity.
Qed.

End CuttingOperatorFacts.

(** X19.  [get_department_from_reason_code] answers 'Cutting Operator
    Error' exactly for the reason codes that start, once trimmed, with A1A,
    A1B, A1C or A1D (in this case): neither the prefix extraction nor the
    fallback rules give that department to any other code or withhold it
    from one of these. *)
Theorem reason_code_cutting_operator (s : string) :
  get_department_from_reason_code (CStr s) = Ok "Cutting Operator Error" <->
  PyStr.startswith "A1A" (PyStr.strip s) = true
  \/ PyStr.startswith "A1B" (PyStr.strip s) = true
  \/ PyStr.startswith "A1C" (PyStr.strip s) = true
  \/ PyStr.startswith "A1D" (PyStr.strip s) = true.
Proof. apply reason_code_cutting_iff. Qed.

(** ** The loaders' text steps and the recut breakdown *)

Section LoaderStepFacts.
Import PyStr.

(** One step [if col in df.columns: df[col] = df[col].apply(h)] on a row. *)
Let normalize_in (cols : list string) (col : string) (h : cell -> cell)
    (row : gmap string cell) : gmap string cell :=
  if bool_decide (col ∈ cols) then <[col := h (row_cell col row)]> row else row.

(** The department a classifier gives. *)
Let dept (g : cell -> result string) (x : cell) : string :=
  match g x with
  | Ok d => d
  | Raise _ => "Unknown"
  end.

(** The classification step on a row. *)
Let classify_in (cols : list string) (col : string) (g : cell -> result string)
    (row : gmap string cell) : gmap string cell :=
  <["Department" := CStr (if bool_decide (col ∈ cols)
                          then dept g (row_cell col row) else "Unknown")]> row.

Lemma map_result_pure {A B : Type} (f : A -> result B) (h : A -> B) (l : list A) :
  (forall x, f x = Ok (h x)) -> map_result f l = Ok (map h l).
Proof.
  intros Hf. induction l as [|x l IH]; [reflexivity|].
  cbn [map_result map]. rewrite Hf, IH. reflexivity.
Qed.

Lemma apply_column_pure (df : DataFrame) (name col : string)
      (f : cell -> result cell) (h : cell -> cell) :
  (forall x, f x = Ok (h x)) ->
  apply_column df name col f
  = Ok (set_column df name (fun row => h (row_cell col row))).
Proof.
  intros Hf. unfold apply_column.
  rewrite (map_result_pure _ (fun row => <[name := h (row_cell col row)]> row));
    [reflexivity|].
  intros row. rewrite Hf. reflexivity.
Qed.

Lemma apply_if_present_rows (df : DataFrame) (col : string)
      (f : cell -> result cell) (h : cell -> cell) :
  (forall x, f x = Ok (h x)) ->
  exists df', apply_if_present df col f = Ok df'
    /\ columns df' = columns df
    /\ rows df' = map (normalize_in (columns df) col h) (rows df).
Proof.
  intros Hf. unfold apply_if_present, normalize_in.
  destruct (bool_decide (col ∈ columns df)) eqn:Hc.
  - rewrite (apply_column_pure _ _ _ _ h Hf). eexists. split; [reflexivity|].
    unfold set_column. cbn [columns rows]. rewrite Hc. split; reflexivity.
  - exists df. split; [reflexivity|]. split; [reflexivity|].
    symmetry. apply map_id.
Qed.

Lemma classify_rows (df : DataFrame) (col : string) (g : cell -> result string) :
  (forall x, exists d, g x = Ok d) ->
  exists df',
    (if bool_decide (col ∈ columns df)
     then apply_column df "Department" col
            (fun x => let* d := g x in Ok (CStr d))
     else Ok (set_column df "Department" (fun _ => CStr "Unknown"))) = Ok df'
    /\ columns df' = (if bool_decide ("Department" ∈ columns df) then columns df
                      else (columns df ++ ["Department"])%list)
    /\ rows df' = map (classify_in (columns df) col g) (rows df).
Proof.
  intros Hg. unfold classify_in.
  destruct (bool_decide (col ∈ columns df)) eqn:Hc.
  - rewrite (apply_column_pure _ _ _ _ (fun x => CStr (dept g x))).
    + eexists. split; [reflexivity|]. split; reflexivity.
    + intros x. unfold dept. destruct (Hg x) as [d ->]. reflexivity.
  - eexists. split; [reflexivity|]. split; reflexivity.
Qed.

Lemma row_cell_normalize_in_eq (cols : list string) (c : string)
      (h : cell -> cell) (row : gmap string cell) :
  row_cell c (normalize_in cols c h row)
  = if bool_decide (c ∈ cols) then h (row_cell c row) else row_cell c row.
Proof.
  unfold normalize_in. destruct (bool_decide (c ∈ cols)); [|reflexivity].
  rewrite row_cell_insert. destruct (decide (c = c)); [reflexivity | contradiction].
Qed.

Lemma row_cell_normalize_in_ne (cols : list string) (c col : string)
      (h : cell -> cell) (row : gmap string cell) :
  c <> col -> row_cell col (normalize_in cols c h row) = row_cell col row.
Proof.
  intros Hne. unfold normalize_in. destruct (bool_decide (c ∈ cols)); [|reflexivity].
  rewrite row_cell_insert. destruct (decide (c = col)); [contradiction | reflexivity].
Qed.

Lemma row_cell_classify_in_ne (cols : list string) (c col : string)
      (g : cell -> result string) (row : gmap string cell) :
  "Department" <> col -> row_cell col (classify_in cols c g row) = row_cell col row.
Proof.
  intros Hne. unfold classify_in. rewrite row_cell_insert.
  destruct (decide ("Department" = col)); [contradiction | reflexivity].
Qed.

Lemma row_cell_classify_in_eq (cols : list string) (c : string)
      (g : cell -> result string) (row : gmap string cell) :
  row_cell "Department" (classify_in cols c g row)
  = CStr (if bool_decide (c ∈ cols) then dept g (row_cell c row) else "Unknown").
Proof.
  unfold classify_in. rewrite row_cell_insert.
  destruct (decide ("Department" = "Department")); [reflexivity | contradiction].
Qed.

Lemma lookup_normalize_in (cols : list string) (c col : string)
      (h : cell -> cell) (row : gmap string cell) :
  c <> col -> normalize_in cols c h row !! col = row !! col.
Proof.
  intros Hne. unfold normalize_in. destruct (bool_decide (c ∈ cols)); [|reflexivity].
  apply lookup_insert_ne. exact Hne.
Qed.

Lemma dept_Ok (g : cell -> result string) (x : cell) :
  (forall y, exists d, g y = Ok d /\ d ∈ ERROR_SOURCES) ->
  g x = Ok (dept g x) /\ dept g x ∈ ERROR_SOURCES.
Proof. intros Hg. unfold dept. destruct (Hg x) as (d & -> & Hd). auto. Qed.

Lemma normalize_smo_name_pure (x : cell) :
  normalize_smo_name x
  = Ok (match normalize_smo_name x with Ok r => r | Raise _ => None end).
Proof.
  destruct x as [| |s]; try reflexivity. rewrite normalize_smo_name_str. reflexivity.
Qed.

Lemma load_recut_list_text_rows (df : DataFrame) :
  exists loaded, load_recut_list_text df = Ok loaded
    /\ columns loaded = (if bool_decide ("Department" ∈ columns df) then columns df
                         else (columns df ++ ["Department"])%list)
    /\ rows loaded
       = map (fun row =>
                classify_in (columns df) "CODE" get_department_from_recut_code
                  (normalize_in (columns df) "CODE" normalize_code
                     (normalize_in (columns df) "PA"
                        (fun x => cell_of_result (normalize_name x))
                        (normalize_in (columns df) "Operator/Order#"
                           (fun x => cell_of_result (normalize_name x)) row))))
             (rows df).
Proof.
  unfold load_recut_list_text.
  destruct (apply_if_present_rows df "Operator/Order#"
              (fun x => Ok (cell_of_result (normalize_name x)))
              (fun x => cell_of_result (normalize_name x)) (fun _ => eq_refl))
    as (d1 & -> & C1 & R1).
  cbn [rbind].
  destruct (apply_if_present_rows d1 "PA"
              (fun x => Ok (cell_of_result (normalize_name x)))
              (fun x => cell_of_result (normalize_name x)) (fun _ => eq_refl))
    as (d2 & -> & C2 & R2).
  cbn [rbind].
  destruct (apply_if_present_rows d2 "CODE"
              (fun x => Ok (normalize_code x)) normalize_code (fun _ => eq_refl))
    as (d3 & -> & C3 & R3).
  cbn [rbind].
  destruct (classify_rows d3 "CODE" get_department_from_recut_code)
    as (d4 & -> & C4 & R4).
  { intros x. destruct (recut_code_total x) as (d & Hd & _). eauto. }
  exists d4. split; [reflexivity|].
  rewrite C2, C1 in C3. rewrite C1 in C2.
  rewrite C3 in C4, R4. rewrite C2 in R3. rewrite C1 in R2.
  split; [exact C4|].
  rewrite R4, R3, R2, R1, !map_map. reflexivity.
Qed.

Lemma load_sewing_repairs_text_rows (df : DataFrame) :
  exists loaded, load_sewing_repairs_text df = Ok loaded
    /\ columns loaded = (if bool_decide ("Department" ∈ columns df) then columns df
                         else (columns df ++ ["Department"])%list)
    /\ rows loaded
       = map (fun row =>
                classify_in (columns df) "Reason Code" get_department_from_reason_code
                  (normalize_in (columns df) "Repair Discovered" repair_discovered_replace
                     (normalize_in (columns df) "Repair Discovered" repair_discovered_lambda
                        (normalize_in (columns df) "SMO/PA"
                           (fun x => cell_of_result
                                       match normalize_smo_name x with
                                       | Ok r => r
                                       | Raise _ => None
                                       end)
                           (normalize_in (columns df) "CMO"
                              (fun x => cell_of_result (normalize_name x))
                              (normalize_in (columns df) "Manager"
                                 (fun x => cell_of_result (normalize_name x)) row))))))
             (rows df).
Proof.
  unfold load_sewing_repairs_text.
  destruct (apply_if_present_rows df "Manager"
              (fun x => Ok (cell_of_result (normalize_name x)))
              (fun x => cell_of_result (normalize_name x)) (fun _ => eq_refl))
    as (d1 & -> & C1 & R1).
  cbn [rbind].
  destruct (apply_if_present_rows d1 "CMO"
              (fun x => Ok (cell_of_result (normalize_name x)))
              (fun x => cell_of_result (normalize_name x)) (fun _ => eq_refl))
    as (d2 & -> & C2 & R2).
  cbn [rbind].
  destruct (apply_if_present_rows d2 "SMO/PA"
              (fun x => let* name := normalize_smo_name x in Ok (cell_of_result name))
              (fun x => cell_of_result
                          match normalize_smo_name x with
                          | Ok r => r
                          | Raise _ => None
                          end))
    as (d3 & -> & C3 & R3).
  { intros x. rewrite (normalize_smo_name_pure x) at 1. reflexivity. }
  cbn [rbind].
  destruct (apply_if_present_rows d3 "Repair Discovered"
              (fun x => Ok (repair_discovered_lambda x))
              repair_discovered_lambda (fun _ => eq_refl))
    as (d4 & -> & C4 & R4).
  cbn [rbind].
  destruct (apply_if_present_rows d4 "Repair Discovered"
              (fun x => Ok (repair_discovered_replace x))
              repair_discovered_replace (fun _ => eq_refl))
    as (d5 & -> & C5 & R5).
  cbn [rbind].
  destruct (classify_rows d5 "Reason Code" get_department_from_reason_code)
    as (d6 & -> & C6 & R6).
  { intros x. destruct (reason_code_total x) as (d & Hd & _). eauto. }
  exists d6. split; [reflexivity|].
  rewrite C1 in C2, R2. rewrite C2 in C3, R3. rewrite C3 in C4, R4.
  rewrite C4 in C5, R5. rewrite C5 in C6, R6.
  split; [exact C6|].
  rewrite R6, R5, R4, R3, R2, R1, !map_map. reflexivity.
Qed.

Lemma recut_code_normalize_code (x : cell) :
  get_department_from_recut_code (normalize_code x)
  = get_department_from_recut_code x.
Proof.
  destruct x as [| |s]; try reflexivity.
  cbn [normalize_code]. rewrite !recut_code_str, strip_idem. reflexivity.
Qed.

Lemma reason_code_strip (s : string) :
  get_department_from_reason_code (CStr (strip s))
  = get_department_from_reason_code (CStr s).
Proof. rewrite !reason_code_str, strip_idem. reflexivity. Qed.

Ltac row_simpl :=
  repeat first [ rewrite row_cell_classify_in_ne by discriminate
               | rewrite row_cell_normalize_in_ne by discriminate
               | rewrite row_cell_normalize_in_eq ].

Lemma load_recut_list_text_row (df : DataFrame) :
  exists loaded, load_recut_list_text df = Ok loaded
    /\ columns loaded = (if bool_decide ("Department" ∈ columns df) then columns df
                         else (columns df ++ ["Department"])%list)
    /\ length (rows loaded) = length (rows df)
    /\ forall i row', rows loaded !! i = Some row' ->
         exists row, rows df !! i = Some row
           /\ (forall col, col ∉ ["Operator/Order#"; "PA"; "CODE"; "Department"] ->
                           row' !! col = row !! col)
           /\ (forall col, col ∈ ["Operator/Order#"; "PA"] -> col ∈ columns df ->
                 row_cell col row' = cell_of_result (normalize_name (row_cell col row)))
           /\ ("CODE" ∈ columns df ->
               row_cell "CODE" row' = normalize_code (row_cell "CODE" row))
           /\ exists d, row_cell "Department" row' = CStr d /\ d ∈ ERROR_SOURCES
                /\ if bool_decide ("CODE" ∈ columns df)
                   then get_department_from_recut_code (row_cell "CODE" row') = Ok d
                        /\ get_department_from_recut_code (row_cell "CODE" row) = Ok d
                   else d = "Unknown".
Proof.
  destruct (load_recut_list_text_rows df) as (loaded & E & C & R).
  exists loaded. split; [exact E|]. split; [exact C|].
  split; [rewrite R; apply length_map|].
  intros i row'. rewrite R, list_lookup_fmap.
  destruct (rows df !! i) as [row|]; [|discriminate].
  intros [= <-]. exists row. split; [reflexivity|].
  split; [|split; [|split]].
  - intros col Hcol. rewrite !not_elem_of_cons in Hcol.
    destruct Hcol as (H1 & H2 & H3 & H4 & _).
    unfold classify_in. rewrite lookup_insert_ne by congruence.
    rewrite !lookup_normalize_in by congruence. reflexivity.
  - intros col Hcol Hin. rewrite !elem_of_cons in Hcol.
    destruct Hcol as [-> | [-> | Hcol]]; [| |apply elem_of_nil in Hcol; contradiction];
      row_simpl; rewrite (bool_decide_eq_true_2 _ Hin); reflexivity.
  - intros Hin. row_simpl. rewrite (bool_decide_eq_true_2 _ Hin). reflexivity.
  - rewrite row_cell_classify_in_eq. eexists. split; [reflexivity|].
    row_simpl. destruct (bool_decide ("CODE" ∈ columns df)) eqn:Hc.
    + destruct (dept_Ok get_department_from_recut_code
                  (normalize_code (row_cell "CODE" row)) recut_code_total)
        as [Hd Hs].
      split; [exact Hs|]. split; [exact Hd|].
      rewrite <- Hd. symmetry. apply recut_code_normalize_code.
    + split; [apply unknown_is_error_source | reflexivity].
Qed.

Lemma repair_discovered_replace_lambda (y : cell) :
  repair_discovered_replace (repair_discovered_lambda y) = repair_discovered_lambda y.
Proof.
  destruct y as [| |s]; try reflexivity.
  cbn [repair_discovered_lambda]. rewrite strip_upper.
  apply repair_discovered_replace_upper.
Qed.

Lemma load_sewing_repairs_text_row (df : DataFrame) :
  exists loaded, load_sewing_repairs_text df = Ok loaded
    /\ columns loaded = (if bool_decide ("Department" ∈ columns df) then columns df
                         else (columns df ++ ["Department"])%list)
    /\ length (rows loaded) = length (rows df)
    /\ forall i row', rows loaded !! i = Some row' ->
         exists row, rows df !! i = Some row
           /\ (forall col, col ∉ ["Manager"; "CMO"; "SMO/PA"; "Repair Discovered";
                                  "Department"] ->
                           row' !! col = row !! col)
           /\ (forall col, col ∈ ["Manager"; "CMO"] -> col ∈ columns df ->
                 row_cell col row' = cell_of_result (normalize_name (row_cell col row)))
           /\ ("SMO/PA" ∈ columns df ->
               exists r, normalize_smo_name (row_cell "SMO/PA" row) = Ok r
                         /\ row_cell "SMO/PA" row' = cell_of_result r)
           /\ ("Repair Discovered" ∈ columns df ->
               row_cell "Repair Discovered" row'
               = repair_discovered_lambda (row_cell "Repair Discovered" row))
           /\ exists d, row_cell "Department" row' = CStr d /\ d ∈ ERROR_SOURCES
                /\ if bool_decide ("Reason Code" ∈ columns df)
                   then get_department_from_reason_code (row_cell "Reason Code" row)
                        = Ok d
                   else d = "Unknown".
Proof.
  destruct (load_sewing_repairs_text_rows df) as (loaded & E & C & R).
  exists loaded. split; [exact E|]. split; [exact C|].
  split; [rewrite R; apply length_map|].
  intros i row'. rewrite R, list_lookup_fmap.
  destruct (rows df !! i) as [row|]; [|discriminate].
  intros [= <-]. exists row. split; [reflexivity|].
  split; [|split; [|split; [|split]]].
  - intros col Hcol. rewrite !not_elem_of_cons in Hcol.
    destruct Hcol as (H1 & H2 & H3 & H4 & H5 & _).
    unfold classify_in. rewrite lookup_insert_ne by congruence.
    rewrite !lookup_normalize_in by congruence. reflexivity.
  - intros col Hcol Hin. rewrite !elem_of_cons in Hcol.
    destruct Hcol as [-> | [-> | Hcol]]; [| |apply elem_of_nil in Hcol; contradiction];
      row_simpl; rewrite (bool_decide_eq_true_2 _ Hin); reflexivity.
  - intros Hin.
    exists (match normalize_smo_name (row_cell "SMO/PA" row) with
            | Ok r => r
            | Raise _ => None
            end).
    split; [apply normalize_smo_name_pure|].
    row_simpl. rewrite (bool_decide_eq_true_2 _ Hin). reflexivity.
  - intros Hin. row_simpl. rewrite (bool_decide_eq_true_2 _ Hin).
    apply repair_discovered_replace_lambda.
  - rewrite row_cell_classify_in_eq. eexists. split; [reflexivity|].
    row_simpl. destruct (bool_decide ("Reason Code" ∈ columns df)) eqn:Hc.
    + destruct (dept_Ok get_department_from_reason_code
                  (row_cell "Reason Code" row) reason_code_total) as [Hd Hs].
      split; [exact Hs | exact Hd].
    + split; [apply unknown_is_error_source | reflexivity].
Qed.

Lemma filter_by_department_label_empty (df : DataFrame) (label : string) :
  label ∉ ERROR_SOURCES -> "Department" ∈ columns df ->
  Forall (fun row => exists d, row_cell "Department" row = CStr d
                               /\ d ∈ ERROR_SOURCES) (rows df) ->
  rows (filter_by_department df [label]) = [].
Proof.
  intros Hlabel Hcol Hrows. rewrite filter_by_department_eq.
  rewrite (bool_decide_eq_true_2 _ Hcol). cbn [rows].
  induction Hrows as [|row l (d & Hd & Hin) _ IH]; [reflexivity|].
  rewrite filter_cons_False; [exact IH|].
  rewrite Hd. cbn [isin]. intros Hd'.
  apply list_elem_of_singleton in Hd'. subst d. contradiction.
Qed.

Lemma department_column_added (df : DataFrame) :
  "Department" ∈ (if bool_decide ("Department" ∈ columns df) then columns df
                  else (columns df ++ ["Department"])%list).
Proof.
  case_bool_decide as Hc; [exact Hc|]. apply elem_of_app. right. left.
Qed.

Lemma manager_filters_empty (df : DataFrame) :
  "Department" ∈ columns df ->
  Forall (fun row => exists d, row_cell "Department" row = CStr d
                               /\ d ∈ ERROR_SOURCES) (rows df) ->
  rows (filter_by_department df ["Cutting"]) = []
  /\ rows (filter_by_department df ["Sewing"]) = [].
Proof.
  intros Hcol Hrows.
  split; apply filter_by_department_label_empty; try assumption;
    apply (bool_decide_unpack _); vm_compute; reflexivity.
Qed.

Lemma startswith_exclusive (x y : ascii) (t : string) :
  x <> y -> startswith (String x "") t = true -> startswith (String y "") t = false.
Proof.
  intros Hne. destruct t as [|a t]; [discriminate|]. rewrite !startswith_char.
  intros Hx. apply Ascii.eqb_eq in Hx. subst a. apply Ascii.eqb_neq. congruence.
Qed.

Lemma count_three {A : Type} (P Q R : A -> Prop)
      `{!forall x, Decision (P x), !forall x, Decision (Q x), !forall x, Decision (R x)}
      (l : list A) :
  Forall (fun x => P x /\ ~ Q x /\ ~ R x \/ ~ P x /\ Q x /\ ~ R x
                   \/ ~ P x /\ ~ Q x /\ R x) l ->
  length l = length (filter P l) + length (filter Q l) + length (filter R l).
Proof.
  induction 1 as [|x l Hx _ IH]; [reflexivity|].
  rewrite !filter_cons.
  destruct (decide (P x)), (decide (Q x)), (decide (R x)); cbn [length]; try tauto; lia.
Qed.

Lemma loaded_cutting_row (df loaded : DataFrame) (row : gmap string cell) :
  load_recut_list_text df = Ok loaded -> row ∈ rows loaded ->
  row_cell "Department" row = CStr "Cutting Operator Error" ->
  "CODE" ∈ columns df
  /\ exists s, row_cell "CODE" row = CStr s
       /\ (startswith "B" (upper s) = true \/ startswith "C" (upper s) = true
           \/ startswith "F" (upper s) = true).
Proof.
  intros E Hin Hd.
  destruct (load_recut_list_text_row df) as (loaded' & E' & _ & _ & Hrow).
  rewrite E in E'. injection E' as <-.
  apply list_elem_of_lookup in Hin as [i Hi].
  destruct (Hrow i row Hi) as (row0 & _ & _ & _ & Hcode & d & Hd' & _ & Hg).
  rewrite Hd in Hd'. injection Hd' as <-.
  destruct (bool_decide ("CODE" ∈ columns df)) eqn:Hc; [|discriminate].
  apply bool_decide_eq_true in Hc. split; [exact Hc|].
  destruct Hg as [Hg _]. rewrite (Hcode Hc) in Hg |- *.
  destruct (row_cell "CODE" row0) as [| |s0]; try discriminate.
  cbn [normalize_code] in Hg |- *. exists (strip s0). split; [reflexivity|].
  pose proof (first_letter_of_recut_code _ _ Hg) as Hp. cbv zeta in Hp.
  rewrite strip_idem in Hp. apply Hp. reflexivity.
Qed.

Lemma loaded_columns_code (df loaded : DataFrame) :
  load_recut_list_text df = Ok loaded ->
  "CODE" ∈ columns df -> "CODE" ∈ columns loaded.
Proof.
  intros E Hin.
  destruct (load_recut_list_text_row df) as (loaded' & E' & C & _).
  rewrite E in E'. injection E' as <-. rewrite C.
  case_bool_decide; [exact Hin | apply elem_of_app; left; exact Hin].
Qed.

Lemma cutting_recuts_partition (df loaded recut_list cut : DataFrame) :
  load_recut_list_text df = Ok loaded ->
  columns recut_list = columns loaded ->
  (forall row, row ∈ rows recut_list -> row ∈ rows loaded) ->
  cutting_recuts recut_list = Ok cut ->
  length (rows cut)
  = cutting_errors_recuts cut + marking_errors_recuts cut + cut_short_errors cut.
Proof.
  intros E Hcols Hsub Hcut. unfold cutting_recuts in Hcut.
  destruct (bool_decide ("Department" ∈ columns recut_list)); [|discriminate].
  injection Hcut as <-.
  unfold cutting_errors_recuts, marking_errors_recuts, cut_short_errors,
    count_code_startswith.
  cbn [columns rows].
  assert (Hrows : forall row,
            row ∈ filter (fun row => cell_is "Cutting Operator Error"
                                             (row_cell "Department" row))
                         (rows recut_list) ->
            "CODE" ∈ columns df
            /\ exists s, row_cell "CODE" row = CStr s
                 /\ (startswith "B" (upper s) = true \/ startswith "C" (upper s) = true
                     \/ startswith "F" (upper s) = true)).
  { intros row Hin. apply list_elem_of_filter in Hin as [Hd Hin].
    apply (loaded_cutting_row df loaded row E (Hsub row Hin) Hd). }
  destruct (bool_decide ("CODE" ∈ columns recut_list)) eqn:Hc.
  - apply count_three. apply Forall_forall. intros row Hin.
    destruct (Hrows row Hin) as (_ & s & -> & Hs). cbn [code_startswith].
    destruct Hs as [Hs | [Hs | Hs]].
    + left. rewrite Hs, (startswith_exclusive "B" "C" _), (startswith_exclusive "B" "F" _)
        by (discriminate || exact Hs).
      repeat split; discriminate.
    + right. left.
      rewrite Hs, (startswith_exclusive "C" "B" _), (startswith_exclusive "C" "F" _)
        by (discriminate || exact Hs).
      repeat split; discriminate.
    + right. right.
      rewrite Hs, (startswith_exclusive "F" "B" _), (startswith_exclusive "F" "C" _)
        by (discriminate || exact Hs).
      repeat split; discriminate.
  - destruct (filter _ (rows recut_list)) as [|row l] eqn:Ef; [reflexivity|].
    exfalso. destruct (Hrows row) as [Hin _]; [left|].
    apply bool_decide_eq_false in Hc. apply Hc. rewrite Hcols.
    apply (loaded_columns_code df loaded E Hin).
Qed.

Lemma load_recut_list_text_full (df : DataFrame) :
  exists loaded, load_recut_list_text df = Ok loaded
    /\ columns loaded = (if bool_decide ("Department" ∈ columns df) then columns df
                         else (columns df ++ ["Department"])%list)
    /\ length (rows loaded) = length (rows df)
    /\ (forall i row', rows loaded !! i = Some row' ->
         exists row, rows df !! i = Some row
           /\ (forall col, col ∉ ["Operator/Order#"; "PA"; "CODE"; "Department"] ->
                           row' !! col = row !! col)
           /\ (forall col, col ∈ ["Operator/Order#"; "PA"] -> col ∈ columns df ->
                 row_cell col row' = cell_of_result (normalize_name (row_cell col row)))
           /\ ("CODE" ∈ columns df ->
               row_cell "CODE" row' = normalize_code (row_cell "CODE" row))
           /\ exists d, row_cell "Department" row' = CStr d /\ d ∈ ERROR_SOURCES
                /\ if bool_decide ("CODE" ∈ columns df)
                   then get_department_from_recut_code (row_cell "CODE" row') = Ok d
                        /\ get_department_from_recut_code (row_cell "CODE" row) = Ok d
                   else d = "Unknown")
    /\ rows (get_cutting_errors_recut_list loaded) = []
    /\ rows (get_sewing_errors_recut_list loaded) = [].
Proof.
  destruct (load_recut_list_text_row df) as (loaded & E & C & L & Hrow).
  exists loaded. split; [exact E|]. split; [exact C|]. split; [exact L|].
  split; [exact Hrow|].
  apply manager_filters_empty.
  - rewrite C. apply department_column_added.
  - apply Forall_forall. intros row Hin.
    apply list_elem_of_lookup in Hin as [i Hi].
    destruct (Hrow i row Hi) as (_ & _ & _ & _ & _ & d & Hd & Hs & _). eauto.
Qed.

Lemma load_sewing_repairs_text_full (df : DataFrame) :
  exists loaded, load_sewing_repairs_text df = Ok loaded
    /\ columns loaded = (if bool_decide ("Department" ∈ columns df) then columns df
                         else (columns df ++ ["Department"])%list)
    /\ length (rows loaded) = length (rows df)
    /\ (forall i row', rows loaded !! i = Some row' ->
         exists row, rows df !! i = Some row
           /\ (forall col, col ∉ ["Manager"; "CMO"; "SMO/PA"; "Repair Discovered";
                                  "Department"] ->
                           row' !! col = row !! col)
           /\ (forall col, col ∈ ["Manager"; "CMO"] -> col ∈ columns df ->
                 row_cell col row' = cell_of_result (normalize_name (row_cell col row)))
           /\ ("SMO/PA" ∈ columns df ->
               exists r, normalize_smo_name (row_cell "SMO/PA" row) = Ok r
                         /\ row_cell "SMO/PA" row' = cell_of_result r)
           /\ ("Repair Discovered" ∈ columns df ->
               row_cell "Repair Discovered" row'
               = repair_discovered_lambda (row_cell "Repair Discovered" row))
           /\ exists d, row_cell "Department" row' = CStr d /\ d ∈ ERROR_SOURCES
                /\ if bool_decide ("Reason Code" ∈ columns df)
                   then get_department_from_reason_code (row_cell "Reason Code" row)
                        = Ok d
                   else d = "Unknown")
    /\ rows (get_cutting_errors_sewing_repairs loaded) = []
    /\ rows (get_sewing_errors_sewing_repairs loaded) = [].
Proof.
  destruct (load_sewing_repairs_text_row df) as (loaded & E & C & L & Hrow).
  exists loaded. split; [exact E|]. split; [exact C|]. split; [exact L|].
  split; [exact Hrow|].
  apply manager_filters_empty.
  - rewrite C. apply department_column_added.
  - apply Forall_forall. intros row Hin.
    apply list_elem_of_lookup in Hin as [i Hi].
    destruct (Hrow i row Hi) as (_ & _ & _ & _ & _ & _ & d & Hd & Hs & _). eauto.
Qed.

End LoaderStepFacts.

(** X20.  The text steps of [load_recut_list] never raise and keep the
    number of rows.  Row by row they leave every column but
    'Operator/Order#', 'PA', 'CODE' and 'Department' as it was, normalize
    the two name columns with [normalize_name], trim the code, and store as
    department the error source that [get_department_from_recut_code] gives
    for the code (trimmed or not), or 'Unknown' when the frame has no 'CODE'
    column.  On the resulting frame the two manager filters of the recut
    list select no row. *)
Theorem load_recut_list_text_spec (df : DataFrame) :
  exists loaded, load_recut_list_text df = Ok loaded
    /\ columns loaded = (if bool_decide ("Department" ∈ columns df) then columns df
                         else (columns df ++ ["Department"])%list)
    /\ length (rows loaded) = length (rows df)
    /\ (forall i row', rows loaded !! i = Some row' ->
         exists row, rows df !! i = Some row
           /\ (forall col, col ∉ ["Operator/Order#"; "PA"; "CODE"; "Department"] ->
                           row' !! col = row !! col)
           /\ (forall col, col ∈ ["Operator/Order#"; "PA"] -> col ∈ columns df ->
                 row_cell col row' = cell_of_result (normalize_name (row_cell col row)))
           /\ ("CODE" ∈ columns df ->
               row_cell "CODE" row' = normalize_code (row_cell "CODE" row))
           /\ exists d, row_cell "Department" row' = CStr d /\ d ∈ ERROR_SOURCES
                /\ if bool_decide ("CODE" ∈ columns df)
                   then get_department_from_recut_code (row_cell "CODE" row') = Ok d
                        /\ get_department_from_recut_code (row_cell "CODE" row) = Ok d
                   else d = "Unknown")
    /\ rows (get_cutting_errors_recut_list loaded) = []
    /\ rows (get_sewing_errors_recut_list loaded) = [].
Proof. apply load_recut_list_text_full. Qed.

(** X21.  The text steps of [load_sewing_repairs] never raise and keep the
    number of rows.  Row by row they leave every column but 'Manager',
    'CMO', 'SMO/PA', 'Repair Discovered' and 'Department' as it was,
    normalize 'Manager' and 'CMO' with [normalize_name] and 'SMO/PA' with
    [normalize_smo_name], store the trimmed uppercase form of 'Repair
    Discovered', and store as department the error source that
    [get_department_from_reason_code] gives for the reason code, or
    'Unknown' when the frame has no 'Reason Code' column.  On the resulting
    frame the two manager filters of the sewing repairs select no row. *)
Theorem load_sewing_repairs_text_spec (df : DataFrame) :
  exists loaded, load_sewing_repairs_text df = Ok loaded
    /\ columns loaded = (if bool_decide ("Department" ∈ columns df) then columns df
                         else (columns df ++ ["Department"])%list)
    /\ length (rows loaded) = length (rows df)
    /\ (forall i row', rows loaded !! i = Some row' ->
         exists row, rows df !! i = Some row
           /\ (forall col, col ∉ ["Manager"; "CMO"; "SMO/PA"; "Repair Discovered";
                                  "Department"] ->
                           row' !! col = row !! col)
           /\ (forall col, col ∈ ["Manager"; "CMO"] -> col ∈ columns df ->
                 row_cell col row' = cell_of_result (normalize_name (row_cell col row)))
           /\ ("SMO/PA" ∈ columns df ->
               exists r, normalize_smo_name (row_cell "SMO/PA" row) = Ok r
                         /\ row_cell "SMO/PA" row' = cell_of_result r)
           /\ ("Repair Discovered" ∈ columns df ->
               row_cell "Repair Discovered" row'
               = repair_discovered_lambda (row_cell "Repair Discovered" row))
           /\ exists d, row_cell "Department" row' = CStr d /\ d ∈ ERROR_SOURCES
                /\ if bool_decide ("Reason Code" ∈ columns df)
                   then get_department_from_reason_code (row_cell "Reason Code" row)
                        = Ok d
                   else d = "Unknown")
    /\ rows (get_cutting_errors_sewing_repairs loaded) = []
    /\ rows (get_sewing_errors_sewing_repairs loaded) = [].
Proof. apply load_sewing_repairs_text_full. Qed.

(** X22.  The recut breakdown of the cutting manager is a partition: on a
    frame made of rows that [load_recut_list] has classified, every recut
    of the department 'Cutting Operator Error' is counted in exactly one
    of the three counts for the codes B, C and F, so the three counts add
    up to the number of cutting recuts. *)
Theorem cutting_recuts_breakdown (df loaded recut_list cut : DataFrame) :
  load_recut_list_text df = Ok loaded ->
  columns recut_list = columns loaded ->
  (forall row, row ∈ rows recut_list -> row ∈ rows loaded) ->
  cutting_recuts recut_list = Ok cut ->
  length (rows cut)
  = cutting_errors_recuts cut + marking_errors_recuts cut + cut_short_errors cut.
Proof. apply cutting_recuts_partition. Qed.

Lemma cutting_recuts_breakdown_witness :
  let df := {| columns := [ "CODE"; "QTY" ];
               rows := [ {[ "CODE" := CStr " b: wrong material cut" ]};
                         {[ "CODE" := CStr "A: SMO Error" ]};
                         {[ "CODE" := CStr "F" ]};
                         {[ "CODE" := CNaN ]};
                         {[ "CODE" := CStr "c " ]} ] |} in
  let loaded := match load_recut_list_text df with Ok x => x | Raise _ => df end in
  let cut := match cutting_recuts loaded with Ok x => x | Raise _ => loaded end in
  length (rows cut) = 3
  /\ length (rows cut)
     = cutting_errors_recuts cut + marking_errors_recuts cut + cut_short_errors cut.
Proof.
  intros df loaded cut. split; [vm_compute; reflexivity|].
  apply (cutting_recuts_breakdown df loaded loaded cut).
  - vm_compute. reflexivity.
  - reflexivity.
  - intros row H. exact H.
  - vm_compute. reflexivity.
Defined.
